(** * ColladaExport: the asset container encoder of collada-convert.js

    A shallow embedding of [src/collada-convert.js] (class [ColladaConvert],
    the command-line prologue, and class [ColladaLighting]) together with
    the parts of the JavaScript and Node.js runtime that the file calls:
    [parseInt], [parseFloat], [String.prototype.split], property lookup and
    enumeration on plain objects, [JSON.stringify], and the [Buffer] writers.

    Conventions.
    - A JavaScript string is represented by the byte sequence of its UTF-8
      encoding (a Rocq [string]); [Buffer.byteLength] is then its length.
    - A JavaScript number is an IEEE-754 binary64 value, [spec_float] of the
      standard library with precision 53 and [emax] 1024.
    - Offsets and sizes are natural numbers; values handed to the integer
      writers of [Buffer] are integers in [Z].
    - A [throw] is the [Throw] result; effects on the outside world are
      recorded in a chronological trace of events. *)

From Stdlib Require Import ZArith String Ascii Bool Lia SpecFloat List.
From Stdlib Require Import Strings.Byte Btauto.
From Stdlib Require DecimalPos DecimalFacts.
Import ListNotations.
Local Open Scope string_scope.
Local Open Scope list_scope.
Local Open Scope Z_scope.

(** String concatenation, JavaScript's [+] on strings. *)
Infix "+++" := String.append (right associativity, at level 60).

(* ===================================================================== *)
(** * Errors and the result of a computation that may throw               *)
(* ===================================================================== *)

Inductive error : Type :=
| ERR_OUT_OF_RANGE (value : Z)
    (* an integer writer of Buffer was given a value outside its range *)
| ERR_BUFFER_OUT_OF_BOUNDS
    (* a write at an offset that does not fit in the buffer *)
| Error (message : string)
    (* throw new Error(message) *)
| TypeError.
    (* a property of undefined was read, or a path was not a string *)

Inductive Res (A : Type) : Type :=
| Ok (a : A)
| Throw (e : error).
Arguments Ok {A} a.
Arguments Throw {A} e.

Definition res_bind {A B} (r : Res A) (k : A -> Res B) : Res B :=
  match r with
  | Ok a => k a
  | Throw e => Throw e
  end.

Declare Scope res_scope.
Delimit Scope res_scope with res.
Notation "x <- c ;; k" := (res_bind c (fun x => k))
  (at level 61, c at next level, right associativity) : res_scope.
Notation "' p <- c ;; k" := (res_bind c (fun x => let p := x in k))
  (at level 61, p pattern, c at next level, right associativity) : res_scope.

(* ===================================================================== *)
(** * Node.js Buffer                                                       *)
(* ===================================================================== *)

Module Buffer.

Definition t := list byte.

Definition byte_of_Z (z : Z) : byte :=
  byte_of_ascii (ascii_of_N (Z.to_N (z mod 256))).

(** [new Buffer(size)]: a buffer of [size] bytes, zero-filled. *)
Definition alloc (size : nat) : t := repeat x00 size.

(** Overwrite [length bs] bytes of [buf] starting at [off]. *)
Definition blit (buf : t) (off : nat) (bs : list byte) : t :=
  firstn off buf ++ bs ++ skipn (off + length bs) buf.

Definition fits (buf : t) (off len : nat) : bool :=
  Nat.leb (off + len) (length buf).

Definition in_range (lo hi v : Z) : bool := (lo <=? v) && (v <=? hi).

(** Big-endian bytes of the low [8 * n] bits of [v]. *)
Fixpoint be_bytes (n : nat) (v : Z) : list byte :=
  match n with
  | O => []
  | S n' => byte_of_Z (Z.shiftr v (8 * Z.of_nat n')) :: be_bytes n' v
  end.

(** The integer writers check the value first, then the offset.  Node
    has two errors for an offset that does not fit (one naming the
    offset, one for a buffer shorter than the width); both are
    [ERR_BUFFER_OUT_OF_BOUNDS] here. *)
Definition writeUIntBE (width : nat) (max : Z) (buf : t) (value : Z)
    (offset : nat) : Res t :=
  if negb (in_range 0 max value) then Throw (ERR_OUT_OF_RANGE value)
  else if negb (fits buf offset width) then Throw ERR_BUFFER_OUT_OF_BOUNDS
  else Ok (blit buf offset (be_bytes width value)).

(** [buf.writeUInt32BE(value, offset)] *)
Definition writeUInt32BE := writeUIntBE 4 4294967295.

(** [buf.writeUInt16BE(value, offset)] *)
Definition writeUInt16BE := writeUIntBE 2 65535.

(** The binary32 bit pattern of a binary64 number: round to nearest,
    ties to even; overflow gives an infinity; NaN is the quiet NaN. *)
Definition float32_bits (x : spec_float) : Z :=
  let sign (s : bool) := if s then 2147483648 else 0 in
  let enc (y : spec_float) :=
    match y with
    | S754_zero s => sign s
    | S754_infinity s => sign s + 2139095040
    | S754_nan => 2143289344
    | S754_finite s m e => sign s + (e + 149) * 8388608 + Zpos m
    end in
  match x with
  | S754_finite s m e => enc (binary_round 24 128 s m e)
  | _ => enc x
  end.

(** [buf.writeFloatBE(value, offset)]: only the offset is checked. *)
Definition writeFloatBE (buf : t) (value : spec_float) (offset : nat)
    : Res t :=
  if negb (fits buf offset 4) then Throw ERR_BUFFER_OUT_OF_BOUNDS
  else Ok (blit buf offset (be_bytes 4 (float32_bits value))).

Definition bytes_of_string (s : string) : list byte :=
  map byte_of_ascii (list_ascii_of_string s).

(** [Buffer.byteLength(string)], UTF-8. *)
Definition byteLength (s : string) : nat := String.length s.

(** [buf.write(string, offset, length)], UTF-8: writes at most [length]
    bytes and at most what remains after [offset]; an offset past the end
    throws. *)
Definition write (buf : t) (s : string) (offset len : nat) : Res t :=
  if Nat.ltb (length buf) offset then Throw ERR_BUFFER_OUT_OF_BOUNDS
  else Ok (blit buf offset
             (firstn (Nat.min len (length buf - offset)) (bytes_of_string s))).

End Buffer.

(* ===================================================================== *)
(** * The JavaScript runtime used by the converter                        *)
(* ===================================================================== *)

Module JS.

(** ** Numbers *)

Definition number := spec_float.

Definition NaN : number := S754_nan.

(** The Number value of the integer [z] ([szero] is the sign given to a
    zero result). *)
Definition number_of_Z (z : Z) (szero : bool) : number :=
  binary_normalize 53 1024 z 0 szero.

(** The Number value of [m * 10^e], rounded to nearest, ties to even. *)
Definition number_of_decimal (neg : bool) (m : N) (e : Z) : number :=
  match m with
  | N0 => S754_zero neg
  | Npos p =>
      if 0 <=? e then binary_round 53 1024 neg (p * Z.to_pos (10 ^ e)) 0
      else
        let '(q, e', l) :=
          SFdiv_core_binary 53 1024 (Zpos p) 0 (10 ^ (- e)) 0 in
        binary_round_aux 53 1024 neg q e' l
  end.

(** ** Lexical helpers *)

Definition code (c : ascii) : N := N_of_ascii c.

(** WhiteSpace and LineTerminator code points, by their UTF-8 bytes. *)
Definition ws1 (a : N) : bool :=
  ((9 <=? a) && (a <=? 13) || (a =? 32))%N.
Definition ws2 (a b : N) : bool := ((a =? 194) && (b =? 160))%N.
Definition ws3 (a b c : N) : bool :=
  ((a =? 225) && (b =? 154) && (c =? 128)
   || (a =? 226) && (b =? 128)
        && ((128 <=? c) && (c <=? 138) || (c =? 168) || (c =? 169)
            || (c =? 175))
   || (a =? 226) && (b =? 129) && (c =? 159)
   || (a =? 227) && (b =? 128) && (c =? 128)
   || (a =? 239) && (b =? 187) && (c =? 191))%N.

Fixpoint skipWhiteSpace (s : string) : string :=
  match s with
  | EmptyString => s
  | String a r1 =>
      if ws1 (code a) then skipWhiteSpace r1
      else
        match r1 with
        | EmptyString => s
        | String b r2 =>
            if ws2 (code a) (code b) then skipWhiteSpace r2
            else
              match r2 with
              | EmptyString => s
              | String c r3 =>
                  if ws3 (code a) (code b) (code c) then skipWhiteSpace r3
                  else s
              end
        end
  end.

(** The value of a digit in radix up to 36, if the character is one. *)
Definition digit_value (c : ascii) : option N :=
  let n := code c in
  (if (48 <=? n) && (n <=? 57) then Some (n - 48)
   else if (97 <=? n) && (n <=? 122) then Some (n - 87)
   else if (65 <=? n) && (n <=? 90) then Some (n - 55)
   else None)%N.

(** Longest prefix of digits of radix [R]: its value (most significant
    first, starting from [acc]), the number of digits, and the rest. *)
Fixpoint digits (R : N) (s : string) (acc : N) (count : nat)
    : N * nat * string :=
  match s with
  | EmptyString => (acc, count, s)
  | String c r =>
      match digit_value c with
      | Some d =>
          if (d <? R)%N then digits R r (acc * R + d)%N (S count)
          else (acc, count, s)
      | None => (acc, count, s)
      end
  end.

Definition sign_prefix (s : string) : bool * string :=
  match s with
  | String c r =>
      if Ascii.eqb c "-" then (true, r)
      else if Ascii.eqb c "+" then (false, r)
      else (false, s)
  | EmptyString => (false, s)
  end.

(** ** [parseInt(string)] with the radix left undefined *)
Definition parseInt (str : string) : number :=
  let '(neg, s) := sign_prefix (skipWhiteSpace str) in
  let '(R, s) :=
    match s with
    | String "0" (String "x" r) => (16%N, r)
    | String "0" (String "X" r) => (16%N, r)
    | _ => (10%N, s)
    end in
  let '(v, count, _) := digits R s 0%N O in
  match count with
  | O => NaN
  | _ => number_of_Z (if neg then - Z.of_N v else Z.of_N v) neg
  end.

(** ** [parseFloat(string)]: the longest prefix that is a
    StrDecimalLiteral *)
Fixpoint has_prefix (p s : string) : bool :=
  match p, s with
  | EmptyString, _ => true
  | String a p', String b s' => Ascii.eqb a b && has_prefix p' s'
  | String _ _, EmptyString => false
  end.

Definition exponent_value (s : string) : Z :=
  match s with
  | String c r =>
      if (Ascii.eqb c "e" || Ascii.eqb c "E")%bool then
        let '(eneg, r') := sign_prefix r in
        let '(v, count, _) := digits 10 r' 0%N O in
        match count with
        | O => 0
        | _ => if eneg then - Z.of_N v else Z.of_N v
        end
      else 0
  | EmptyString => 0
  end.

Definition parseFloat (str : string) : number :=
  let '(neg, s) := sign_prefix (skipWhiteSpace str) in
  if has_prefix "Infinity" s then S754_infinity neg
  else
    let '(iv, icount, s1) := digits 10 s 0%N O in
    let '(v, fcount, s2) :=
      match s1 with
      | String "." r =>
          let '(v, n, s2) := digits 10 r iv O in (v, n, s2)
      | _ => (iv, O, s1)
      end in
    match (icount + fcount)%nat with
    | O => NaN
    | _ => number_of_decimal neg v (exponent_value s2 - Z.of_nat fcount)
    end.

(** ** [string.split(separator)] for a one-character separator *)
Fixpoint split (sep : ascii) (s : string) : list string :=
  match s with
  | EmptyString => [EmptyString]
  | String c r =>
      match split sep r with
      | h :: t =>
          if Ascii.eqb c sep then EmptyString :: h :: t
          else String c h :: t
      | [] => [String c EmptyString]
      end
  end.


(** ** Number::toString (radix 10)

    For a finite nonzero number the digits are those of the least [k] and
    an integer [s] of [k] digits such that [s * 10^(n-k)] has this Number
    value; of two such [s] the one closer to the exact value is taken. *)

Definition number_eqb (x y : number) : bool :=
  match x, y with
  | S754_zero a, S754_zero b => Bool.eqb a b
  | S754_infinity a, S754_infinity b => Bool.eqb a b
  | S754_nan, S754_nan => true
  | S754_finite a m e, S754_finite b m' e' =>
      Bool.eqb a b && Pos.eqb m m' && Z.eqb e e'
  | _, _ => false
  end.

(** [num / den < 10^n] *)
Definition below_pow10 (num den n : Z) : bool :=
  if 0 <=? n then num <? den * 10 ^ n else num * 10 ^ (- n) <? den.

(** The least [n' >= n] with [num / den < 10^n']. *)
Fixpoint decimal_exponent (fuel : nat) (num den n : Z) : Z :=
  match fuel with
  | O => n
  | S f =>
      if below_pow10 num den n then n
      else decimal_exponent f num den (n + 1)
  end.

(** Searching [k = 1, 2, ...]: the result [(s, t)] stands for
    [s * 10^t]. *)
Fixpoint shortest (fuel : nat) (x : number) (num den n k : Z)
    : positive * Z :=
  let A := num * 10 ^ Z.max 0 (k - n) in
  let B := den * 10 ^ Z.max 0 (n - k) in
  let lo := A / B in
  let r := A mod B in
  let ok (s : Z) := number_eqb (number_of_decimal false (Z.to_N s) (n - k)) x in
  let pick (s : Z) :=
    if s =? 10 ^ k then (Z.to_pos (10 ^ (k - 1)), n - k + 1)
    else (Z.to_pos s, n - k) in
  match fuel with
  | O => pick lo
  | S f =>
      match ok lo, ok (lo + 1) with
      | true, true =>
          if 2 * r <? B then pick lo
          else if B <? 2 * r then pick (lo + 1)
          else if Z.even lo then pick lo else pick (lo + 1)
      | true, false => pick lo
      | false, true => pick (lo + 1)
      | false, false => shortest f x num den n (k + 1)
      end
  end.

Fixpoint chars_of_uint (u : Decimal.uint) : string :=
  match u with
  | Decimal.Nil => EmptyString
  | Decimal.D0 u => String "0" (chars_of_uint u)
  | Decimal.D1 u => String "1" (chars_of_uint u)
  | Decimal.D2 u => String "2" (chars_of_uint u)
  | Decimal.D3 u => String "3" (chars_of_uint u)
  | Decimal.D4 u => String "4" (chars_of_uint u)
  | Decimal.D5 u => String "5" (chars_of_uint u)
  | Decimal.D6 u => String "6" (chars_of_uint u)
  | Decimal.D7 u => String "7" (chars_of_uint u)
  | Decimal.D8 u => String "8" (chars_of_uint u)
  | Decimal.D9 u => String "9" (chars_of_uint u)
  end.

Definition decimal_of_pos (p : positive) : string :=
  chars_of_uint (Pos.to_uint p).

Fixpoint zeros (n : nat) : string :=
  match n with
  | O => EmptyString
  | S n' => String "0" (zeros n')
  end.

Fixpoint take (n : nat) (s : string) : string :=
  match n, s with
  | S n', String c r => String c (take n' r)
  | _, _ => EmptyString
  end.

Fixpoint drop (n : nat) (s : string) : string :=
  match n, s with
  | S n', String c r => drop n' r
  | _, _ => s
  end.

(** The layout of the digits [ds] with decimal point position [n]. *)
Definition layout (ds : string) (n : Z) : string :=
  let k := Z.of_nat (String.length ds) in
  if (k <=? n) && (n <=? 21) then
    ds +++ zeros (Z.to_nat (n - k))
  else if (0 <? n) && (n <=? 21) then
    take (Z.to_nat n) ds +++ "." +++ drop (Z.to_nat n) ds
  else if (-6 <? n) && (n <=? 0) then
    "0." +++ zeros (Z.to_nat (- n)) +++ ds
  else
    let e := n - 1 in
    let es := (if e <? 0 then "-" else "+")
              +++ decimal_of_pos (Z.to_pos (Z.abs e)) in
    match ds with
    | String d EmptyString => String d ("e" +++ es)
    | String d rest => String d ("." +++ rest +++ "e" +++ es)
    | EmptyString => "e" +++ es
    end.

Definition toString_finite (m : positive) (e : Z) : string :=
  let num := if 0 <=? e then Zpos m * 2 ^ e else Zpos m in
  let den := if 0 <=? e then 1 else 2 ^ (- e) in
  let n := decimal_exponent 640 num den (-324) in
  let '(s, t) := shortest 17 (S754_finite false m e) num den n 1 in
  let ds := decimal_of_pos s in
  layout ds (t + Z.of_nat (String.length ds)).

Definition Number_toString (x : number) : string :=
  match x with
  | S754_nan => "NaN"
  | S754_zero _ => "0"
  | S754_infinity s => if s then "-Infinity" else "Infinity"
  | S754_finite s m e =>
      (if s then "-" else "") +++ toString_finite m e
  end.

(** ** Values and plain objects *)

Inductive value : Type :=
| VUndefined
| VNull
| VBool (b : bool)
| VNumber (n : number)
| VString (s : string)
| VObject.   (* some object or function; only its truthiness is used *)

Definition ToBoolean (v : value) : bool :=
  match v with
  | VUndefined | VNull => false
  | VBool b => b
  | VNumber (S754_nan | S754_zero _) => false
  | VNumber _ => true
  | VString EmptyString => false
  | VString _ => true
  | VObject => true
  end.

(** [v === false] *)
Definition is_false (v : value) : bool :=
  match v with
  | VBool false => true
  | _ => false
  end.

(** A plain object: its own enumerable properties in creation order. *)
Definition object (V : Type) := list (string * V).

Fixpoint get_own {V} (o : object V) (key : string) : option V :=
  match o with
  | [] => None
  | (k, v) :: rest => if String.eqb k key then Some v else get_own rest key
  end.

(** Defining or overwriting an own data property: an existing property
    keeps its place. *)
Fixpoint set_own {V} (o : object V) (key : string) (v : V) : object V :=
  match o with
  | [] => [(key, v)]
  | (k, w) :: rest =>
      if String.eqb k key then (k, v) :: rest
      else (k, w) :: set_own rest key v
  end.

(** The properties every plain object inherits from [Object.prototype]
    (none of them enumerable). *)
Definition Object_prototype : list string :=
  ["constructor"; "__defineGetter__"; "__defineSetter__"; "hasOwnProperty";
   "__lookupGetter__"; "__lookupSetter__"; "isPrototypeOf";
   "propertyIsEnumerable"; "toString"; "valueOf"; "__proto__";
   "toLocaleString"].

(** [o[key]] on a plain object of values: own property, else the
    inherited one, else [undefined]. *)
Definition get (o : object value) (key : string) : value :=
  match get_own o key with
  | Some v => v
  | None =>
      if existsb (String.eqb key) Object_prototype then VObject
      else VUndefined
  end.

(** [o[key] = v] on a plain object of values.  [__proto__] is an
    accessor of [Object.prototype]: assigning it a value that is not an
    object defines no property (the program never assigns it an
    object). *)
Definition set (o : object value) (key : string) (v : value)
    : object value :=
  if String.eqb key "__proto__" then o else set_own o key v.

(** An array index: a canonical numeric string below 2^32 - 1. *)
Definition array_index (key : string) : option N :=
  match key with
  | EmptyString => None
  | String "0" EmptyString => Some 0%N
  | String "0" _ => None
  | _ =>
      let '(v, count, rest) := digits 10 key 0%N O in
      match rest with
      | EmptyString =>
          if (Nat.leb count 10 && (v <? 4294967295)%N)%bool then Some v
          else None
      | _ => None
      end
  end.

Fixpoint insert_index {V} (i : N) (p : string * V)
    (l : list (N * (string * V))) : list (N * (string * V)) :=
  match l with
  | [] => [(i, p)]
  | (j, q) :: rest =>
      if (i <? j)%N then (i, p) :: l else (j, q) :: insert_index i p rest
  end.

(** Property enumeration order: array indices ascending, then the other
    keys in creation order. *)
Definition own_properties {V} (o : object V) : list (string * V) :=
  let indexed :=
    fold_right
      (fun p acc =>
         match array_index (fst p) with
         | Some i => insert_index i p acc
         | None => acc
         end) [] o in
  map snd indexed
    ++ filter (fun p => match array_index (fst p) with
                        | Some _ => false
                        | None => true
                        end) o.

(** The keys visited by [for (var key in o)] on a plain object. *)
Definition for_in_keys {V} (o : object V) : list string :=
  map fst (own_properties o).

(** [Object.assign(target, source)] *)
Definition Object_assign (target source : object value) : object value :=
  fold_left (fun t p => set t (fst p) (snd p)) (own_properties source) target.

End JS.

(* ===================================================================== *)
(** * JSON                                                                 *)
(* ===================================================================== *)

Module JSON.

(** A JSON-serializable value.  The members of an object are its own
    enumerable properties with a defined value, in enumeration order. *)
Local Unset Elimination Schemes.
Inductive json : Type :=
| JNull
| JBool (b : bool)
| JNumber (n : JS.number)
| JString (s : string)
| JArray (items : list json)
| JObject (members : list (string * json)).
Local Set Elimination Schemes.

Definition dquote : ascii := "034"%char.
Definition backslash : ascii := "092"%char.

Definition hex_digit (n : N) : ascii :=
  (if n <? 10 then ascii_of_N (48 + n) else ascii_of_N (87 + n))%N.

(** QuoteJSONString, one character at a time. *)
Definition escape (c : ascii) : string :=
  let n := JS.code c in
  (if n =? 8 then "\b"
   else if n =? 9 then "\t"
   else if n =? 10 then "\n"
   else if n =? 12 then "\f"
   else if n =? 13 then "\r"
   else if n =? 34 then String backslash (String dquote "")
   else if n =? 92 then String backslash (String backslash "")
   else if n <? 32 then
     "\u00" +++ String (hex_digit (n / 16)) (String (hex_digit (n mod 16)) "")
   else String c "")%N.

Fixpoint escape_all (s : string) : string :=
  match s with
  | EmptyString => EmptyString
  | String c r => escape c +++ escape_all r
  end.

Definition quote (s : string) : string :=
  String dquote (escape_all s +++ String dquote "").

Definition is_finite (n : JS.number) : bool :=
  match n with
  | S754_zero _ | S754_finite _ _ _ => true
  | _ => false
  end.

Definition stringify_number (n : JS.number) : string :=
  if is_finite n then JS.Number_toString n else "null".

(** [JSON.stringify(value)] *)
Fixpoint stringify (v : json) : string :=
  match v with
  | JNull => "null"
  | JBool true => "true"
  | JBool false => "false"
  | JNumber n => stringify_number n
  | JString s => quote s
  | JArray items =>
      "[" +++
      (fix elements (l : list json) : string :=
         match l with
         | [] => "]"
         | [x] => stringify x +++ "]"
         | x :: r => stringify x +++ "," +++ elements r
         end) items
  | JObject members =>
      "{" +++
      (fix properties (l : list (string * json)) : string :=
         match l with
         | [] => "}"
         | [(k, x)] => quote k +++ ":" +++ stringify x +++ "}"
         | (k, x) :: r =>
             quote k +++ ":" +++ stringify x +++ "," +++ properties r
         end) members
  end.

(** ** [JSON.parse]: the value tree of a JSON text, the members of an
    object in textual order. *)

Definition is_ws (c : ascii) : bool :=
  let n := JS.code c in ((n =? 9) || (n =? 10) || (n =? 13) || (n =? 32))%N.

Fixpoint skip_ws (s : string) : string :=
  match s with
  | String c r => if is_ws c then skip_ws r else s
  | EmptyString => s
  end.

Definition hex_value (c : ascii) : option N :=
  match JS.digit_value c with
  | Some d => if (d <? 16)%N then Some d else None
  | None => None
  end.

Definition hex4 (a b c d : ascii) : option N :=
  match hex_value a, hex_value b, hex_value c, hex_value d with
  | Some x, Some y, Some z, Some w =>
      Some (((x * 16 + y) * 16 + z) * 16 + w)%N
  | _, _, _, _ => None
  end.

(** The UTF-8 bytes of a code point, followed by [rest]. *)
Definition utf8 (cp : N) (rest : string) : string :=
  let b (n : N) := ascii_of_N n in
  (if cp <? 128 then String (b cp) rest
   else if cp <? 2048 then
     String (b (192 + cp / 64)) (String (b (128 + cp mod 64)) rest)
   else if cp <? 65536 then
     String (b (224 + cp / 4096))
       (String (b (128 + (cp / 64) mod 64))
          (String (b (128 + cp mod 64)) rest))
   else
     String (b (240 + cp / 262144))
       (String (b (128 + (cp / 4096) mod 64))
          (String (b (128 + (cp / 64) mod 64))
             (String (b (128 + cp mod 64)) rest))))%N.

Definition simple_escape (c : ascii) : option ascii :=
  let n := JS.code c in
  (if n =? 34 then Some dquote
   else if n =? 92 then Some backslash
   else if n =? 47 then Some "/"%char
   else if n =? 98 then Some "008"%char
   else if n =? 102 then Some "012"%char
   else if n =? 110 then Some "010"%char
   else if n =? 114 then Some "013"%char
   else if n =? 116 then Some "009"%char
   else None)%N.

Definition with_prefix (f : string -> string) (r : option (string * string))
    : option (string * string) :=
  match r with
  | Some (s, rest) => Some (f s, rest)
  | None => None
  end.

(** The characters of a string literal after its opening quote, up to the
    closing quote.  A [\uXXXX] escape denotes a UTF-16 code unit; a
    surrogate pair is one code point, and a lone surrogate is written as
    U+FFFD, as the UTF-8 conversion of Node does. *)
Fixpoint string_body (s : string) : option (string * string) :=
  match s with
  | EmptyString => None
  | String c r =>
      if Ascii.eqb c dquote then Some (EmptyString, r)
      else if Ascii.eqb c backslash then
        match r with
        | EmptyString => None
        | String e r1 =>
            match simple_escape e with
            | Some ch => with_prefix (String ch) (string_body r1)
            | None =>
                if Ascii.eqb e "u" then
                  match r1 with
                  | String h1 (String h2 (String h3 (String h4 r2))) =>
                      match hex4 h1 h2 h3 h4 with
                      | None => None
                      | Some cu =>
                          let lone := with_prefix
                            (utf8 (if (55296 <=? cu) && (cu <=? 57343)
                                   then 65533 else cu)%N)
                            (string_body r2) in
                          if ((55296 <=? cu) && (cu <=? 56319))%N then
                            match r2 with
                            | String b1 (String u1 (String l1 (String l2
                                (String l3 (String l4 r3))))) =>
                                if Ascii.eqb b1 backslash && Ascii.eqb u1 "u"
                                then
                                  match hex4 l1 l2 l3 l4 with
                                  | Some lo =>
                                      if ((56320 <=? lo) && (lo <=? 57343))%N
                                      then
                                        with_prefix
                                          (utf8 (65536 + (cu - 55296) * 1024
                                                 + (lo - 56320))%N)
                                          (string_body r3)
                                      else lone
                                  | None => lone
                                  end
                                else lone
                            | _ => lone
                            end
                          else lone
                      end
                  | _ => None
                  end
                else None
            end
        end
      else if (JS.code c <? 32)%N then None
      else with_prefix (String c) (string_body r)
  end.

(** A number token: an optional minus sign; an integer part, either a
    single 0 or digits not starting with 0; an optional fraction, a point
    and at least one digit; an optional exponent, e or E, an optional
    sign and at least one digit. *)
Definition leading_ok (s1 : string) (icount : nat) : bool :=
  match s1 with
  | String c _ =>
      if Ascii.eqb c "0" then Nat.eqb icount 1
      else negb (Nat.eqb icount 0)
  | EmptyString => false
  end.

(** The fraction after an integer part of value [iv]: the value with the
    fraction digits appended, their number, the rest, and whether the
    part is well formed. *)
Definition fraction_part (iv : N) (s2 : string)
    : N * nat * string * bool :=
  match s2 with
  | String c r =>
      if Ascii.eqb c "." then
        let '(v, n, r') := JS.digits 10 r iv O in
        (v, n, r', negb (Nat.eqb n 0))
      else (iv, O, s2, true)
  | EmptyString => (iv, O, s2, true)
  end.

Definition exponent_part (s3 : string) : Z * string * bool :=
  match s3 with
  | String c r =>
      if (Ascii.eqb c "e" || Ascii.eqb c "E")%bool then
        let '(eneg, r1) := JS.sign_prefix r in
        let '(ev, n, r2) := JS.digits 10 r1 0%N O in
        (if eneg then - Z.of_N ev else Z.of_N ev, r2, negb (Nat.eqb n 0))
      else (0, s3, true)
  | EmptyString => (0, s3, true)
  end.

Definition unsigned_token (neg : bool) (s1 : string)
    : option (JS.number * string) :=
  let '(iv, icount, s2) := JS.digits 10 s1 0%N O in
  let '(v, fcount, s3, frac_ok) := fraction_part iv s2 in
  let '(ex, s4, exp_ok) := exponent_part s3 in
  if leading_ok s1 icount && frac_ok && exp_ok then
    Some (JS.number_of_decimal neg v (ex - Z.of_nat fcount), s4)
  else None.

Definition number_token (s : string) : option (JS.number * string) :=
  match s with
  | String c r =>
      if Ascii.eqb c "-" then unsigned_token true r
      else unsigned_token false s
  | EmptyString => None
  end.

Definition literal (word : string) (v : json) (s : string)
    : option (json * string) :=
  if JS.has_prefix word s then
    Some (v, JS.drop (String.length word) s)
  else None.

Fixpoint value (fuel : nat) (s : string) : option (json * string) :=
  match fuel with
  | O => None
  | S f =>
      match skip_ws s with
      | EmptyString => None
      | (String c r) as s' =>
          if Ascii.eqb c "n" then literal "null" JNull s'
          else if Ascii.eqb c "t" then literal "true" (JBool true) s'
          else if Ascii.eqb c "f" then literal "false" (JBool false) s'
          else if Ascii.eqb c dquote then
            match string_body r with
            | Some (str, rest) => Some (JString str, rest)
            | None => None
            end
          else if Ascii.eqb c "[" then
            match skip_ws r with
            | EmptyString => None
            | String c1 rest =>
                if Ascii.eqb c1 "]" then Some (JArray [], rest)
                else
                  match elements f r with
                  | Some (l, rest) => Some (JArray l, rest)
                  | None => None
                  end
            end
          else if Ascii.eqb c "{" then
            match skip_ws r with
            | EmptyString => None
            | String c1 rest =>
                if Ascii.eqb c1 "}" then Some (JObject [], rest)
                else
                  match members f r with
                  | Some (l, rest) => Some (JObject l, rest)
                  | None => None
                  end
            end
          else
            match number_token s' with
            | Some (n, rest) => Some (JNumber n, rest)
            | None => None
            end
      end
  end

with elements (fuel : nat) (s : string) : option (list json * string) :=
  match fuel with
  | O => None
  | S f =>
      match value f s with
      | None => None
      | Some (v, r) =>
          match skip_ws r with
          | String c r1 =>
              if Ascii.eqb c "," then
                match elements f r1 with
                | Some (l, rest) => Some (v :: l, rest)
                | None => None
                end
              else if Ascii.eqb c "]" then Some ([v], r1)
              else None
          | EmptyString => None
          end
      end
  end

with members (fuel : nat) (s : string)
    : option (list (string * json) * string) :=
  match fuel with
  | O => None
  | S f =>
      match skip_ws s with
      | String c r =>
          if Ascii.eqb c dquote then
            match string_body r with
            | None => None
            | Some (k, r1) =>
                match skip_ws r1 with
                | String c1 r2 =>
                    if Ascii.eqb c1 ":" then
                      match value f r2 with
                      | None => None
                      | Some (v, r3) =>
                          match skip_ws r3 with
                          | String c2 r4 =>
                              if Ascii.eqb c2 "," then
                                match members f r4 with
                                | Some (l, rest) => Some ((k, v) :: l, rest)
                                | None => None
                                end
                              else if Ascii.eqb c2 "}" then
                                Some ([(k, v)], r4)
                              else None
                          | EmptyString => None
                          end
                      end
                    else None
                | EmptyString => None
                end
            end
          else None
      | EmptyString => None
      end
  end.

(** [JSON.parse(text)] *)
Definition parse (text : string) : option json :=
  match value (S (String.length text)) text with
  | Some (v, rest) =>
      match skip_ws rest with
      | EmptyString => Some v
      | _ => None
      end
  | None => None
  end.

(** What [parse] reads back from [stringify v]: a number is the Number
    value of its printed digits, a non-finite number is [null]. *)
Fixpoint reread (v : json) : json :=
  match v with
  | JNumber n =>
      if is_finite n then
        match number_token (JS.Number_toString n) with
        | Some (y, _) => JNumber y
        | None => JNull
        end
      else JNull
  | JArray items => JArray (map reread items)
  | JObject members =>
      JObject (map (fun kv => (fst kv, reread (snd kv))) members)
  | _ => v
  end.

End JSON.

Import JSON.

(* ===================================================================== *)
(** * class ColladaLighting                                                *)
(* ===================================================================== *)

Module ColladaLighting.

(** The light library of the parsed scene: each [light] element has
    [$.id] and, inside [technique_common[0]], an optional [point[0]] with
    [color[0]] and an optional [spot[0]] with [color[0]] and
    [falloff_angle[0]]. *)
Record point_technique : Type := { point_color : string }.
Record spot_technique : Type :=
  { spot_color : string; falloff_angle : string }.
Record light_node : Type :=
  { id : string;
    point : option point_technique;
    spot : option spot_technique }.

(** [this.lights]: a plain object.  Assigning its property [__proto__]
    replaces its prototype instead of defining a property, so the object
    is its own properties and, once that happened, the record it
    inherits from. *)
Record lights_object : Type :=
  { own : JS.object json;
    proto : option (JS.object json) }.

Definition empty : lights_object := {| own := []; proto := None |}.

(** [light.color[0].split(' ').map((val) => parseInt(val))] *)
Definition parse_color (color : string) : json :=
  JArray (map (fun val => JNumber (JS.parseInt val)) (JS.split " " color)).

(** The record built for one light by the body of the loop of
    [addLights], or [None] when the light is skipped ([continue]). *)
Definition light_data (lightData : light_node) : option (JS.object json) :=
  let color :=
    match point lightData, spot lightData with
    | Some p, _ => Some (point_color p)        (* light = point || spot *)
    | None, Some s => Some (spot_color s)
    | None, None => None
    end in
  match color with
  | None => None
  | Some c =>
      let data := [("id", JString (id lightData)); ("color", parse_color c)] in
      let data :=
        match point lightData with
        | Some _ => JS.set_own data "type" (JString "point")
        | None => data
        end in
      let data :=
        match spot lightData with
        | Some s =>
            JS.set_own (JS.set_own data "type" (JString "spot"))
              "coneAngle" (JNumber (JS.parseFloat (falloff_angle s)))
        | None => data
        end in
      Some data
  end.

(** [this.lights[id] = data] *)
Definition assign (lights : lights_object) (key : string)
    (data : JS.object json) : lights_object :=
  if String.eqb key "__proto__" then
    {| own := own lights; proto := Some data |}
  else
    {| own := JS.set_own (own lights) key (JObject data);
       proto := proto lights |}.

Definition add_light (lights : lights_object) (lightData : light_node)
    : lights_object :=
  match light_data lightData with
  | None => lights
  | Some data => assign lights (id lightData) data
  end.

(** [addLights(lightList)]; [None] is an undefined list. *)
Definition addLights (lights : lights_object)
    (lightList : option (list light_node)) : lights_object :=
  match lightList with
  | None => lights
  | Some l => fold_left add_light l lights
  end.

(** [constructor(root, opts)]: [library_lights] is [root.library_lights],
    [None] when the scene has none, else [library_lights[0].light]. *)
Definition new (library_lights : option (option (list light_node)))
    : lights_object :=
  match library_lights with
  | Some lightList => addLights empty lightList
  | None => empty
  end.

(** The values [this.lights[key]] for the keys of
    [for (var key in this.lights)]: the own properties, then the
    properties of the inherited record that no own property hides. *)
Definition enumerate (lights : lights_object) : list json :=
  map snd (JS.own_properties (own lights))
  ++ match proto lights with
     | None => []
     | Some data =>
         map snd
           (filter (fun p => match JS.get_own (own lights) (fst p) with
                             | Some _ => false
                             | None => true
                             end)
              (JS.own_properties data))
     end.

(** [getJSON()]; [None] is [undefined]. *)
Definition getJSON (lights : lights_object) : option json :=
  match enumerate lights with
  | [] => None
  | result => Some (JArray result)
  end.

End ColladaLighting.

(* ===================================================================== *)
(** * The external segment producers, by their contract                    *)
(* ===================================================================== *)

(** One entry of [colladaGeometry.geometryData]. *)
Record segment : Type :=
  { indices : list Z;
    vertices : list JS.number }.

(** What [writeData] reads of a [ColladaGeometry]. *)
Record ColladaGeometry : Type :=
  { geometryData : list segment;
    geometry_byteSize : nat;
    geometry_getJSON : option json }.

(** What [writeData] reads of a [ColladaAnimation]; [animation_getJSON] is
    [getJSON(this.idToNameMap)]. *)
Record ColladaAnimation : Type :=
  { hasAnimation : bool;
    animation_getJSON : option json;
    animationOrder : list string;
    getAnimationData : string -> list JS.number;
    animation_byteSize : nat }.

(* ===================================================================== *)
(** * Effects: the trace of a run                                          *)
(* ===================================================================== *)

Inductive event : Type :=
| ReadFile (path : string)              (* fs.readFileSync(dataFile, 'utf8') *)
| ConsoleInfo                           (* console.info(...) *)
| ParseString                           (* parser.parseString(data, ...) *)
| CreateWriteStream (path : string)     (* fs.createWriteStream(outputFile) *)
| PrepareForExport                      (* colladaGeometry.prepareForExport() *)
| GeometryGetJSON                       (* colladaGeometry.getJSON() *)
| GeometryByteSize                      (* colladaGeometry.byteSize is read *)
| StreamWrite (chunk : Buffer.t)        (* writeStream.write(buffer) *)
| StreamEnd.                            (* writeStream.end() *)

(** A statement acting on a state [S]: it returns or throws, and leaves a
    state either way. *)
Definition M (S A : Type) : Type := S -> Res A * S.

Definition ret {S A} (a : A) : M S A := fun s => (Ok a, s).

Definition bind {S A B} (m : M S A) (k : A -> M S B) : M S B :=
  fun s =>
    match m s with
    | (Ok a, s') => k a s'
    | (Throw e, s') => (Throw e, s')
    end.

Definition lift {S A} (r : Res A) : M S A := fun s => (r, s).

Declare Scope stmt_scope.
Delimit Scope stmt_scope with stmt.
Notation "x <- c ;; k" := (bind c (fun x => k))
  (at level 61, c at next level, right associativity) : stmt_scope.
Notation "c ;; k" := (bind c (fun _ => k))
  (at level 61, right associativity) : stmt_scope.

(* ===================================================================== *)
(** * class ColladaConvert and the command line                            *)
(* ===================================================================== *)

Module ColladaConvert.

Definition MODEL_EXTENSION : string := ".mdl".
Definition SKIP_BINARY : string := "-skip-binary".
Definition SUB_ANIM : string := "-sub-anim".

Definition PARAMS : JS.object JS.value :=
  [(SKIP_BINARY, JS.VBool true); (SUB_ANIM, JS.VBool true)].

(** ** The configuration built by the constructor *)

Record Config : Type :=
  { includeAttribs : JS.object bool;
    includeBinary : bool;
    isSubAnimation : JS.value;
    includeGeometry : bool;
    includeAnimation : bool;
    includeHierarchy : bool;
    includeMaterial : bool }.

Definition attributes : list string :=
  ["POSITION"; "NORMAL"; "TEXCOORD0"; "TEXCOORD1"; "WEIGHT"].

(** [if (opts.name === false) flag = false] *)
Definition override (opts : JS.object JS.value) (name : string)
    (flag : bool) : bool :=
  if JS.is_false (JS.get opts name) then false else flag.

(** Lines 55 to 74 of the constructor. *)
Definition make_config (opts : JS.object JS.value) : Config :=
  let includeBinary := negb (JS.ToBoolean (JS.get opts SKIP_BINARY)) in
  let isSubAnimation := JS.get opts SUB_ANIM in
  let includeAttribs :=
    fold_left (fun o a => JS.set_own o a true) attributes [] in
  let includeGeometry := includeBinary && negb (JS.ToBoolean isSubAnimation) in
  let includeAnimation := includeBinary in
  let includeHierarchy := negb (JS.ToBoolean isSubAnimation) in
  let includeMaterial := negb (JS.ToBoolean isSubAnimation) in
  let includeGeometry := override opts "includeGeometry" includeGeometry in
  let includeAnimation := override opts "includeAnimation" includeAnimation in
  let includeHierarchy := override opts "includeHierarchy" includeHierarchy in
  let includeMaterial := override opts "includeMaterial" includeMaterial in
  let includeAttribs :=
    if JS.is_false (JS.get opts "includeNormals")
    then JS.set_own includeAttribs "NORMAL" false else includeAttribs in
  let includeAttribs :=
    if JS.is_false (JS.get opts "includeUV")
    then JS.set_own (JS.set_own includeAttribs "TEXCOORD0" false)
           "TEXCOORD1" false
    else includeAttribs in
  {| includeAttribs := includeAttribs;
     includeBinary := includeBinary;
     isSubAnimation := isSubAnimation;
     includeGeometry := includeGeometry;
     includeAnimation := includeAnimation;
     includeHierarchy := includeHierarchy;
     includeMaterial := includeMaterial |}.

(** [this.config] as a plain object, for [Object.assign(opts, this.config)]. *)
Definition config_object (c : Config) : JS.object JS.value :=
  [("includeAttribs", JS.VObject);
   ("includeBinary", JS.VBool (includeBinary c));
   ("isSubAnimation", isSubAnimation c);
   ("includeGeometry", JS.VBool (includeGeometry c));
   ("includeAnimation", JS.VBool (includeAnimation c));
   ("includeHierarchy", JS.VBool (includeHierarchy c));
   ("includeMaterial", JS.VBool (includeMaterial c))].

(** ** The converter object *)

Record t : Type :=
  { config : Config;
    colladaGeometry : ColladaGeometry;
    colladaAnimation : ColladaAnimation;
    colladaLighting : ColladaLighting.lights_object;
    hierarchy : option json }.      (* this.colladaHierarchy.hierarchy *)

(** The state a method runs in: the object and the trace so far. *)
Record state : Type :=
  { this : t;
    trace : list event }.

Definition emit (e : event) : M state unit :=
  fun s => (Ok tt, {| this := this s; trace := trace s ++ [e] |}).

Definition get_this : M state t := fun s => (Ok (this s), s).

Definition set_geometry (g : ColladaGeometry) : M state unit :=
  fun s =>
    (Ok tt,
     {| this := {| config := config (this s);
                   colladaGeometry := g;
                   colladaAnimation := colladaAnimation (this s);
                   colladaLighting := colladaLighting (this s);
                   hierarchy := hierarchy (this s) |};
        trace := trace s |}).

(** ** The array writers *)

Fixpoint writeFloatArray_loop (buffer : Buffer.t) (start i : nat)
    (array : list JS.number) : Res Buffer.t :=
  match array with
  | [] => Ok buffer
  | x :: rest =>
      (buffer <- Buffer.writeFloatBE buffer x (start + i * 4);;
       writeFloatArray_loop buffer start (S i) rest)%res
  end.

(** [writeFloatArray(buffer, start, array)]: the buffer after the writes
    and the returned byte count. *)
Definition writeFloatArray (buffer : Buffer.t) (start : nat)
    (array : list JS.number) : Res (Buffer.t * nat) :=
  (buffer <- writeFloatArray_loop buffer start 0 array;;
   Ok (buffer, length array * 4)%nat)%res.

Fixpoint writeUIntArray_loop (buffer : Buffer.t) (start i : nat)
    (array : list Z) : Res Buffer.t :=
  match array with
  | [] => Ok buffer
  | x :: rest =>
      (buffer <- Buffer.writeUInt16BE buffer x (start + i * 2);;
       writeUIntArray_loop buffer start (S i) rest)%res
  end.

(** [writeUIntArray(buffer, start, array)], on an array of integers, as
    the index arrays of the geometry producer are. *)
Definition writeUIntArray (buffer : Buffer.t) (start : nat)
    (array : list Z) : Res (Buffer.t * nat) :=
  (buffer <- writeUIntArray_loop buffer start 0 array;;
   Ok (buffer, length array * 2)%nat)%res.

(** The loop of lines 153 to 156. *)
Fixpoint write_geometry (buffer : Buffer.t) (currentOffset : nat)
    (geometryData : list segment) : Res (Buffer.t * nat) :=
  match geometryData with
  | [] => Ok (buffer, currentOffset)
  | seg :: rest =>
      (r <- writeUIntArray buffer currentOffset (indices seg);;
       let currentOffset := (currentOffset + snd r)%nat in
       r <- writeFloatArray (fst r) currentOffset (vertices seg);;
       write_geometry (fst r) (currentOffset + snd r)%nat rest)%res
  end.

(** The loop of lines 159 to 161. *)
Fixpoint write_animations (buffer : Buffer.t) (currentOffset : nat)
    (animationData : list (list JS.number)) : Res (Buffer.t * nat) :=
  match animationData with
  | [] => Ok (buffer, currentOffset)
  | dataArray :: rest =>
      (r <- writeFloatArray buffer currentOffset dataArray;;
       write_animations (fst r) (currentOffset + snd r)%nat rest)%res
  end.

(** [JSON.stringify(jsonData)]: a property whose value is [undefined]
    ([None]) is left out. *)
Definition defined_members (o : JS.object (option json))
    : list (string * json) :=
  flat_map (fun p => match snd p with
                     | Some v => [(fst p, v)]
                     | None => []
                     end) (JS.own_properties o).

Definition stringify_object (o : JS.object (option json)) : string :=
  stringify (JObject (defined_members o)).

Section WriteData.

(** The effect of [prepareForExport()] on the geometry producer. *)
Variable prepareForExport : ColladaGeometry -> ColladaGeometry.

(** What a completed [writeData] leaves behind, besides the trace: the
    size the buffer was allocated with, the final value of
    [currentOffset], and the buffer handed to the stream. *)
Record written : Type :=
  { bufferSize : nat;
    finalOffset : nat;
    output : Buffer.t }.

(** [writeData(outputFile)] *)
Definition writeData (outputFile : string) : M state written :=
  (emit (CreateWriteStream outputFile);;
   self <- get_this;;
   let cfg := config self in
   let jsonData : JS.object (option json) := [] in
   jsonData <-
     (if includeGeometry cfg then
        emit PrepareForExport;;
        set_geometry (prepareForExport (colladaGeometry self));;
        emit GeometryGetJSON;;
        self <- get_this;;
        ret (JS.set_own jsonData "geometry"
               (geometry_getJSON (colladaGeometry self)))
      else ret jsonData);;
   let jsonData :=
     JS.set_own jsonData "lights"
       (ColladaLighting.getJSON (colladaLighting self)) in
   let jsonData :=
     if includeHierarchy cfg
     then JS.set_own jsonData "hierarchy" (hierarchy self)
     else jsonData in
   let anim := colladaAnimation self in
   let collect := includeAnimation cfg && hasAnimation anim in
   let jsonData :=
     if collect
     then JS.set_own jsonData "animation" (animation_getJSON anim)
     else jsonData in
   let animationData :=
     if collect
     then map (getAnimationData anim) (animationOrder anim)
     else [] in
   let jsonString := stringify_object jsonData in
   let jsonLength := Buffer.byteLength jsonString in
   let bufferSize := (4 + jsonLength)%nat in
   bufferSize <-
     (if includeBinary cfg then
        emit GeometryByteSize;;
        self <- get_this;;
        ret (bufferSize
             + (geometry_byteSize (colladaGeometry self)
                + animation_byteSize anim))%nat
      else ret bufferSize);;
   let buffer := Buffer.alloc bufferSize in
   let currentOffset := O in
   buffer <- lift (Buffer.writeUInt32BE buffer (Z.of_nat jsonLength)
                     currentOffset);;
   let currentOffset := (currentOffset + 4)%nat in
   buffer <- lift (Buffer.write buffer jsonString currentOffset jsonLength);;
   let currentOffset := (currentOffset + jsonLength)%nat in
   r <-
     (if includeBinary cfg then
        self <- get_this;;
        let geometryData := geometryData (colladaGeometry self) in
        r <- lift (write_geometry buffer currentOffset geometryData);;
        lift (write_animations (fst r) (snd r) animationData)
      else ret (buffer, currentOffset));;
   emit (StreamWrite (fst r));;
   emit StreamEnd;;
   ret {| bufferSize := bufferSize;
          finalOffset := snd r;
          output := fst r |})%stmt.

End WriteData.

(** ** The constructor and the command line *)

Section Program.

(** The libraries of the parsed scene that only the external modules
    read. *)
Variable Libraries : Type.

(** [data.COLLADA] *)
Record Scene : Type :=
  { library_lights : option (option (list ColladaLighting.light_node));
    libraries : Libraries }.

(** The external modules, given the scene and the options or the
    configuration they are constructed with. *)
Variable prepareForExport : ColladaGeometry -> ColladaGeometry.
Variable new_ColladaGeometry : Scene -> Config -> ColladaGeometry.
Variable new_ColladaAnimation :
  Scene -> JS.object JS.value -> ColladaAnimation.
Variable new_ColladaHierarchy :
  Scene -> JS.object JS.value -> option json.

(** [new ColladaConvert(data, opts)] *)
Definition constructor (data : Scene) (opts : JS.object JS.value) : t :=
  let config := make_config opts in
  let opts := JS.Object_assign opts (config_object config) in
  {| config := config;
     colladaGeometry := new_ColladaGeometry data config;
     colladaAnimation := new_ColladaAnimation data opts;
     colladaLighting := ColladaLighting.new (library_lights data);
     hierarchy := new_ColladaHierarchy data opts |}.

(** The file system, [path] and the XML parser. *)
Variable readFileSync : string -> Res string.
Variable path_dirname path_extname : string -> string.
Variable path_basename path_join : string -> string -> string.
Variable parseString : string -> option Scene.

Fixpoint join (sep : string) (l : list string) : string :=
  match l with
  | [] => ""
  | [x] => x
  | x :: r => x +++ sep +++ join sep r
  end.

(** [args.slice(1).reduce((result, val) => (result[val] = true, result), {})] *)
Definition otherArgsMap (args : list string) : JS.object JS.value :=
  fold_left (fun result val => JS.set result val (JS.VBool true))
    (tl args) [].

(** The loop of lines 38 to 42 over the keys of [otherArgsMap]. *)
Fixpoint check_params (keys : list string) : Res unit :=
  match keys with
  | [] => Ok tt
  | key :: rest =>
      if negb (JS.ToBoolean (JS.get PARAMS key)) then
        Throw (Error ("Unknown param: " +++ key +++ ". Allowed params: "
                      +++ join ", " (JS.for_in_keys PARAMS)))
      else check_params rest
  end.

(** The script, from [args] (the command line after the script name)
    to the end of [writeData]: what it returns or throws, and its
    trace. *)
Definition main (args : list string) : Res unit * list event :=
  match args with
  | [] => (Throw TypeError, [])
  | dataFile :: _ =>
      match readFileSync dataFile with
      | Throw e => (Throw e, [ReadFile dataFile])
      | Ok data =>
          let fileDir := path_dirname dataFile in
          let fileExtension := path_extname dataFile in
          let baseName := path_basename dataFile fileExtension in
          let targetFile :=
            path_join fileDir (baseName +++ MODEL_EXTENSION) in
          match check_params (JS.for_in_keys (otherArgsMap args)) with
          | Throw e => (Throw e, [ReadFile dataFile])
          | Ok _ =>
              let tr := [ReadFile dataFile; ConsoleInfo; ParseString] in
              match parseString data with
              | None => (Throw TypeError, tr)
              | Some result =>
                  let opts :=
                    JS.Object_assign
                      [("directory", JS.VString fileDir)]
                      (otherArgsMap args) in
                  let converter := constructor result opts in
                  match writeData prepareForExport targetFile
                          {| this := converter; trace := tr |} with
                  | (Ok _, s) => (Ok tt, trace s)
                  | (Throw e, s) => (Throw e, trace s)
                  end
              end
          end
      end
  end.

End Program.

End ColladaConvert.

(* ===================================================================== *)
(** * The layout of the container, as a specification                      *)
(* ===================================================================== *)

Module Layout.

Import ColladaConvert.

(** [n] bytes can be written at [off]: there is nothing to write, or
    they fit. *)
Definition room (buf : Buffer.t) (off n : nat) : bool :=
  Nat.eqb n 0 || Buffer.fits buf off n.

(** [buf.readUIntBE(0, length)] on a whole byte sequence. *)
Definition readUIntBE (bs : list byte) : Z :=
  fold_left (fun acc b => acc * 256 + Z.of_N (N_of_ascii (ascii_of_byte b)))
    bs 0.

(** [buf.toString('utf8')] *)
Definition string_of_bytes (bs : list byte) : string :=
  string_of_list_ascii (map ascii_of_byte bs).

(** A reader of the container: the 4-byte length, then that many bytes
    as the header text, then the binary payload. *)
Definition read_container (file : list byte)
    : option (string * list byte) :=
  let n := Z.to_nat (readUIntBE (firstn 4 file)) in
  if Nat.leb (4 + n) (length file)
  then Some (string_of_bytes (firstn n (skipn 4 file)), skipn (4 + n) file)
  else None.

(** The member a property contributes to the text of an object. *)
Definition member (key : string) (v : option json) : list (string * json) :=
  match v with
  | Some x => [(key, x)]
  | None => []
  end.

Definition uint16_bytes (array : list Z) : list byte :=
  flat_map (Buffer.be_bytes 2) array.

Definition float32_bytes (array : list JS.number) : list byte :=
  flat_map (fun x => Buffer.be_bytes 4 (Buffer.float32_bits x)) array.

Definition segment_bytes (seg : segment) : list byte :=
  uint16_bytes (indices seg) ++ float32_bytes (vertices seg).

Definition geometry_bytes (geometryData : list segment) : list byte :=
  flat_map segment_bytes geometryData.

Definition animation_bytes (animationData : list (list JS.number))
    : list byte :=
  flat_map float32_bytes animationData.

Definition uint16 (v : Z) : bool := Buffer.in_range 0 65535 v.

(** The first index, in writing order, that is not an unsigned 16-bit
    value. *)
Definition first_bad (array : list Z) : option Z :=
  find (fun v => negb (uint16 v)) array.

Definition all_indices (geometryData : list segment) : list Z :=
  flat_map indices geometryData.

End Layout.

(** The run of [writeData] in closed form: what it reads, builds and
    writes, as functions of the converter object. *)
Module Run.

Import ColladaConvert Layout.

Section Run.

Variable prepareForExport : ColladaGeometry -> ColladaGeometry.

(** The object once the geometry producer was prepared, if it is. *)
Definition prepared (self : t) : t :=
  if includeGeometry (config self) then
    {| config := config self;
       colladaGeometry := prepareForExport (colladaGeometry self);
       colladaAnimation := colladaAnimation self;
       colladaLighting := colladaLighting self;
       hierarchy := hierarchy self |}
  else self.

(** Whether the animation sequences are collected (line 123). *)
Definition collects (self : t) : bool :=
  includeAnimation (config self) && hasAnimation (colladaAnimation self).

Definition animationData (self : t) : list (list JS.number) :=
  if collects self
  then map (getAnimationData (colladaAnimation self))
         (animationOrder (colladaAnimation self))
  else [].

(** [jsonData] when [JSON.stringify] is called, for the prepared
    object. *)
Definition jsonData (self : t) : JS.object (option json) :=
  let o := [] in
  let o :=
    if includeGeometry (config self)
    then JS.set_own o "geometry" (geometry_getJSON (colladaGeometry self))
    else o in
  let o :=
    JS.set_own o "lights" (ColladaLighting.getJSON (colladaLighting self)) in
  let o :=
    if includeHierarchy (config self)
    then JS.set_own o "hierarchy" (hierarchy self)
    else o in
  if collects self
  then JS.set_own o "animation" (animation_getJSON (colladaAnimation self))
  else o.

Definition jsonString (self : t) : string :=
  stringify_object (jsonData self).

Definition jsonLength (self : t) : nat :=
  Buffer.byteLength (jsonString self).

(** The size the buffer is allocated with (lines 136 to 139). *)
Definition allocated (self : t) : nat :=
  if includeBinary (config self)
  then (4 + jsonLength self
        + (geometry_byteSize (colladaGeometry self)
           + animation_byteSize (colladaAnimation self)))%nat
  else (4 + jsonLength self)%nat.

Definition header (self : t) : list byte :=
  Buffer.be_bytes 4 (Z.of_nat (jsonLength self))
  ++ Buffer.bytes_of_string (jsonString self).

Definition payload (self : t) : list byte :=
  if includeBinary (config self)
  then geometry_bytes (geometryData (colladaGeometry self))
       ++ animation_bytes (animationData self)
  else [].

(** The statements of lines 141 to 162 on the prepared object: the
    buffer and the final [currentOffset]. *)
Definition encode (self : t) : Res (Buffer.t * nat) :=
  let buffer := Buffer.alloc (allocated self) in
  (buffer <- Buffer.writeUInt32BE buffer (Z.of_nat (jsonLength self)) 0;;
   buffer <- Buffer.write buffer (jsonString self) 4 (jsonLength self);;
   if includeBinary (config self) then
     r <- write_geometry buffer (4 + jsonLength self)
            (geometryData (colladaGeometry self));;
     write_animations (fst r) (snd r) (animationData self)
   else Ok (buffer, (4 + jsonLength self)%nat))%res.

(** The events of a run up to the allocation of the buffer. *)
Definition events_before (self : t) (outputFile : string) : list event :=
  [CreateWriteStream outputFile]
  ++ (if includeGeometry (config self)
      then [PrepareForExport; GeometryGetJSON] else [])
  ++ (if includeBinary (config self) then [GeometryByteSize] else []).

End Run.

(** The number of [prepareForExport] calls before the first read of the
    geometry byte size, if it is read at all. *)
Fixpoint prepares_before_size (trace : list event) : option nat :=
  match trace with
  | [] => None
  | GeometryByteSize :: _ => Some O
  | PrepareForExport :: rest =>
      match prepares_before_size rest with
      | Some n => Some (S n)
      | None => None
      end
  | _ :: rest => prepares_before_size rest
  end.

Definition is_stream_write (e : event) : bool :=
  match e with
  | StreamWrite _ => true
  | _ => false
  end.

(** The bytes handed to the output stream during a run. *)
Definition flushed (trace : list event) : list byte :=
  flat_map (fun e => match e with
                     | StreamWrite chunk => chunk
                     | _ => []
                     end) trace.

End Run.

(** The lexical shape of what [stringify] writes. *)
Module Shape.

Definition is_digit (c : ascii) : bool :=
  match JS.digit_value c with
  | Some d => (d <? 10)%N
  | None => false
  end.

Fixpoint all_digits (s : string) : bool :=
  match s with
  | EmptyString => true
  | String c r => is_digit c && all_digits r
  end.

Definition no_digit_head (s : string) : bool :=
  match s with
  | EmptyString => true
  | String c _ => negb (is_digit c)
  end.

(** What follows a value inside a JSON text written by [stringify]. *)
Definition delimiter (c : ascii) : bool :=
  Ascii.eqb c "," || Ascii.eqb c "]" || Ascii.eqb c "}".

Definition delimited (rest : string) : bool :=
  match rest with
  | EmptyString => true
  | String c _ => delimiter c
  end.

(** An integer part: digits, with a leading zero only alone. *)
Definition int_shape (s : string) : Prop :=
  all_digits s = true
  /\ match s with
     | EmptyString => False
     | String c r => Ascii.eqb c "0" = true -> r = EmptyString
     end.

Inductive frac_shape : string -> Prop :=
| frac_none : frac_shape ""
| frac_some (f : string) :
    all_digits f = true -> f <> "" -> frac_shape (String "." f).

Inductive exp_shape : string -> Prop :=
| exp_none : exp_shape ""
| exp_some (sgn d : string) :
    sgn = "" \/ sgn = "+" \/ sgn = "-" ->
    all_digits d = true -> d <> "" ->
    exp_shape (String "e" (sgn +++ d)).

(** The characters a value written by [stringify] can start with. *)
Definition value_head (c : ascii) : bool :=
  Ascii.eqb c "n" || Ascii.eqb c "t" || Ascii.eqb c "f"
  || Ascii.eqb c dquote || Ascii.eqb c "[" || Ascii.eqb c "{"
  || Ascii.eqb c "-" || is_digit c.

(** The text of the items of an array and of the members of an object,
    with the closing bracket. *)
Fixpoint elements_text (l : list json) : string :=
  match l with
  | [] => "]"
  | [x] => stringify x +++ "]"
  | x :: r => stringify x +++ "," +++ elements_text r
  end.

Fixpoint properties_text (l : list (string * json)) : string :=
  match l with
  | [] => "}"
  | [(k, x)] => quote k +++ ":" +++ stringify x +++ "}"
  | (k, x) :: r => quote k +++ ":" +++ stringify x +++ "," +++ properties_text r
  end.

(** The fuel [JSON.value] needs to read a value back. *)
Fixpoint need (v : json) : nat :=
  match v with
  | JArray items =>
      S ((fix elements (l : list json) : nat :=
            match l with
            | [] => O
            | x :: r => S (Nat.max (need x) (elements r))
            end) items)
  | JObject members =>
      S ((fix properties (l : list (string * json)) : nat :=
            match l with
            | [] => O
            | kv :: r => S (Nat.max (need (snd kv)) (properties r))
            end) members)
  | _ => 1%nat
  end.

Fixpoint elements_need (l : list json) : nat :=
  match l with
  | [] => O
  | x :: r => S (Nat.max (need x) (elements_need r))
  end.

Fixpoint properties_need (l : list (string * json)) : nat :=
  match l with
  | [] => O
  | kv :: r => S (Nat.max (need (snd kv)) (properties_need r))
  end.

(** [v] is read back from its text, whatever fuel above [need v] and
    whatever delimiter follows. *)
Definition reads_back (v : json) : Prop :=
  forall (fuel : nat) (rest : string),
    (need v <= fuel)%nat -> delimited rest = true ->
    value fuel (stringify v +++ rest) = Some (reread v, rest).

End Shape.

(** What the claims speak of, as predicates on a run. *)
Module Claims.

Import ColladaConvert Layout Run.

(** The byteSize contract of the geometry producer. *)
Definition geometry_invariant (g : ColladaGeometry) : Prop :=
  geometry_byteSize g
  = list_sum (map (fun seg => (length (indices seg) * 2
                               + length (vertices seg) * 4)%nat)
                (geometryData g)).

(** The byteSize contract of the animation producer. *)
Definition animation_invariant (a : ColladaAnimation) : Prop :=
  animation_byteSize a
  = (4 * list_sum (map (fun name => length (getAnimationData a name))
                     (animationOrder a)))%nat.

(** The writes filled the buffer: the cursor ended at its size. *)
Definition fills_exactly (w : written) : Prop :=
  finalOffset w = bufferSize w.

(** Whenever the geometry byte size is read, exactly one
    [prepareForExport] call came before. *)
Definition finalized_once (trace : list event) : Prop :=
  forall n, prepares_before_size trace = Some n -> n = 1%nat.

Definition count_prepares (trace : list event) : nat :=
  length (filter (fun e => match e with
                           | PrepareForExport => true
                           | _ => false
                           end) trace).

(** The per-animation float sequences, in the order of
    [animationOrder]. *)
Definition animation_sequences (a : ColladaAnimation) : list byte :=
  flat_map (fun name => float32_bytes (getAnimationData a name))
    (animationOrder a).

Definition has_technique (l : ColladaLighting.light_node) : bool :=
  match ColladaLighting.point l, ColladaLighting.spot l with
  | None, None => false
  | _, _ => true
  end.

(** The lights of a library, an absent library or list being empty. *)
Definition lights_of
    (library_lights : option (option (list ColladaLighting.light_node)))
    : list ColladaLighting.light_node :=
  match library_lights with
  | Some (Some l) => l
  | _ => []
  end.

(** The light mapping holds something: an own property, or an
    inherited record that has properties. *)
Definition populated (lights : ColladaLighting.lights_object) : Prop :=
  ColladaLighting.own lights <> []
  \/ exists data,
       ColladaLighting.proto lights = Some data /\ data <> [].

End Claims.

(** Concrete scenes and runs. *)
Module Examples.

Import ColladaConvert.

Definition num (z : Z) : JS.number := JS.number_of_Z z false.

(** One mesh whose last index is the largest 16-bit value. *)
Definition mesh : ColladaGeometry :=
  {| geometryData :=
       [{| indices := [0; 1; 65535]; vertices := [num 1; num 45] |}];
     geometry_byteSize := 14;
     geometry_getJSON := Some (JArray [JString "mesh"]) |}.

(** One mesh with an index one past the 16-bit range. *)
Definition mesh_overflow : ColladaGeometry :=
  {| geometryData := [{| indices := [0; 65536; 2]; vertices := [] |}];
     geometry_byteSize := 6;
     geometry_getJSON := Some (JArray [JString "mesh"]) |}.

(** Two animations; the order of export is walk, run. *)
Definition clips : ColladaAnimation :=
  {| hasAnimation := true;
     animation_getJSON := Some (JObject [("run", JNumber (num 2));
                                         ("walk", JNumber (num 1))]);
     animationOrder := ["walk"; "run"];
     getAnimationData :=
       fun name => if String.eqb name "walk" then [num 2]
                   else [num 3; num 4];
     animation_byteSize := 12 |}.

(** A library with one spot light, red, with a 45 degree cone. *)
Definition spot_library (id : string)
    : option (option (list ColladaLighting.light_node)) :=
  Some (Some [{| ColladaLighting.id := id;
                 ColladaLighting.point := None;
                 ColladaLighting.spot :=
                   Some {| ColladaLighting.spot_color := "255 0 0";
                           ColladaLighting.falloff_angle := "45.0" |} |}]).

(** The record expected for that light. *)
Definition spot_record (id : string) : json :=
  JObject [("id", JString id);
           ("color", JArray [JNumber (num 255); JNumber (num 0);
                             JNumber (num 0)]);
           ("type", JString "spot");
           ("coneAngle", JNumber (num 45))].

(** An ambient light: neither point nor spot. *)
Definition ambient : ColladaLighting.light_node :=
  {| ColladaLighting.id := "Ambient";
     ColladaLighting.point := None;
     ColladaLighting.spot := None |}.

(** The converter built from [opts] over a geometry producer. *)
Definition converter (opts : JS.object JS.value) (g : ColladaGeometry)
    : ColladaConvert.t :=
  {| config := make_config opts;
     colladaGeometry := g;
     colladaAnimation := clips;
     colladaLighting := ColladaLighting.new (spot_library "Spot");
     hierarchy := Some (JObject []) |}.

(** Options as the caller gives them. *)
Definition defaults : JS.object JS.value := [].
Definition sub_animation : JS.object JS.value :=
  [(SUB_ANIM, JS.VBool true)].
Definition without_animation : JS.object JS.value :=
  [("includeAnimation", JS.VBool false)].

(** A [prepareForExport] that leaves the producer as it is. *)
Definition finalize (g : ColladaGeometry) : ColladaGeometry := g.

Definition run (opts : JS.object JS.value) (g : ColladaGeometry)
    : Res written * state :=
  writeData finalize "model.mdl"
    {| this := converter opts g; trace := [] |}.

Definition written_of (r : Res written * state) : written :=
  match fst r with
  | Ok w => w
  | Throw _ => {| bufferSize := 0; finalOffset := 0; output := [] |}
  end.

(** The script on a scene with the spot light and the mesh. *)
Definition script (args : list string) : Res unit * list event :=
  main unit finalize
    (fun _ _ => mesh) (fun _ _ => clips) (fun _ _ => Some (JObject []))
    (fun _ => Ok "<COLLADA/>")
    (fun _ => "scenes") (fun _ => ".dae")
    (fun _ _ => "model") (fun dir file => dir +++ "/" +++ file)
    (fun _ => Some {| library_lights := spot_library "Spot";
                      libraries := tt |})
    args.

End Examples.

(** Predicates and readers in which further properties of the code are
    stated. *)
Module Behaviour.

Import ColladaConvert Layout Run.

(** The keys that pass [if (!PARAMS[key])]: the two flags, and the names
    every plain object inherits. *)
Definition passes (key : string) : Prop :=
  key = SKIP_BINARY \/ key = SUB_ANIM \/ In key JS.Object_prototype.

(** A reader of [n] big-endian unsigned 16-bit values. *)
Fixpoint read_uint16s (n : nat) (bs : list byte) : list Z :=
  match n with
  | O => []
  | S n' => readUIntBE (firstn 2 bs) :: read_uint16s n' (skipn 2 bs)
  end.

(** A reader of the index arrays of the geometry payload, from the
    numbers of indices and of vertex components of each segment. *)
Fixpoint read_indices (shape : list (nat * nat)) (bs : list byte)
    : list (list Z) :=
  match shape with
  | [] => []
  | (ni, nv) :: rest =>
      read_uint16s ni bs
      :: read_indices rest (skipn (ni * 2 + nv * 4) bs)
  end.

(** The numbers of indices and of vertex components, per segment. *)
Definition shape_of (geometryData : list segment) : list (nat * nat) :=
  map (fun seg => (length (indices seg), length (vertices seg)))
    geometryData.

(** The number of occurrences of a character in a string. *)
Fixpoint occurrences (c : ascii) (s : string) : nat :=
  match s with
  | EmptyString => O
  | String a r =>
      if Ascii.eqb a c then S (occurrences c r) else occurrences c r
  end.

(** The record of a light in the output, if it has one. *)
Definition record_of (l : ColladaLighting.light_node) : list json :=
  match ColladaLighting.light_data l with
  | Some data => [JObject data]
  | None => []
  end.

(** The lights of a list that are not skipped. *)
Definition kept (ls : list ColladaLighting.light_node)
    : list ColladaLighting.light_node :=
  filter (fun l => match ColladaLighting.light_data l with
                   | Some _ => true
                   | None => false
                   end) ls.

End Behaviour.

(** Further concrete inputs. *)
Module Samples.

Import ColladaConvert.

(** The options of a run with [-skip-binary]. *)
Definition skip_binary : JS.object JS.value :=
  [(SKIP_BINARY, JS.VBool true)].

(** A red spot light with a 45 degree cone. *)
Definition spot_light (id : string) : ColladaLighting.light_node :=
  {| ColladaLighting.id := id;
     ColladaLighting.point := None;
     ColladaLighting.spot :=
       Some {| ColladaLighting.spot_color := "255 0 0";
               ColladaLighting.falloff_angle := "45.0" |} |}.

(** A white point light. *)
Definition point_light (id : string) : ColladaLighting.light_node :=
  {| ColladaLighting.id := id;
     ColladaLighting.point :=
       Some {| ColladaLighting.point_color := "1 1 1" |};
     ColladaLighting.spot := None |}.

(** The record expected for the point light. *)
Definition point_record (id : string) : json :=
  JObject [("id", JString id);
           ("color", JArray [JNumber (Examples.num 1);
                             JNumber (Examples.num 1);
                             JNumber (Examples.num 1)]);
           ("type", JString "point")].

(** What [getJSON] returns for the one red spot light of
    [Examples.spot_library] when its id is [__proto__]: the values of
    the fields of its record, one entry each. *)
Definition proto_fields : json :=
  JArray [JString "__proto__";
          JArray [JNumber (Examples.num 255); JNumber (Examples.num 0);
                  JNumber (Examples.num 0)];
          JString "spot";
          JNumber (Examples.num 45)].

(** A converter over a scene whose one light is that spot light. *)
Definition proto_converter : ColladaConvert.t :=
  {| config := make_config [];
     colladaGeometry := Examples.mesh;
     colladaAnimation := Examples.clips;
     colladaLighting :=
       ColladaLighting.new (Examples.spot_library "__proto__");
     hierarchy := Some (JObject []) |}.

(** A spot light, an ambient light, and a point light. *)
Definition three_lights : list ColladaLighting.light_node :=
  [spot_light "Key"; Examples.ambient; point_light "Fill"].

End Samples.

(* ===================================================================== *)
(** * Properties of the Buffer writers                                     *)
(* ===================================================================== *)

Section BufferFacts.

Import Buffer.

Lemma length_be_bytes (n : nat) (v : Z) : length (be_bytes n v) = n.
Proof. induction n; simpl; congruence. Qed.

Lemma length_alloc (n : nat) : length (alloc n) = n.
Proof. apply repeat_length. Qed.

Lemma blit_nil (buf : t) (off : nat) : blit buf off [] = buf.
Proof.
  unfold blit. simpl. rewrite Nat.add_0_r. apply firstn_skipn.
Qed.

Lemma length_blit (buf : t) (off : nat) (bs : list byte) :
  (off + length bs <= length buf)%nat ->
  length (blit buf off bs) = length buf.
Proof.
  intros H. unfold blit.
  rewrite !length_app, length_firstn, length_skipn. lia.
Qed.

(** Two adjacent writes are one write of the concatenation. *)
Lemma blit_blit (buf : t) (off : nat) (xs ys : list byte) :
  (off + length xs <= length buf)%nat ->
  blit (blit buf off xs) (off + length xs) ys = blit buf off (xs ++ ys).
Proof.
  intros H. unfold blit.
  assert (Hf : length (firstn off buf) = off)
    by (rewrite length_firstn; lia).
  rewrite length_app.
  rewrite (app_assoc (firstn off buf) xs).
  rewrite firstn_app.
  replace (off + length xs - length (firstn off buf ++ xs))%nat with O
    by (rewrite length_app; lia).
  rewrite firstn_O, app_nil_r.
  rewrite firstn_all2 by (rewrite length_app; lia).
  rewrite skipn_app.
  rewrite (skipn_all2 (firstn off buf ++ xs))
    by (rewrite length_app; lia).
  rewrite length_app, Hf. simpl.
  replace (off + length xs + length ys - (off + length xs))%nat
    with (length ys) by lia.
  rewrite skipn_skipn.
  replace (length ys + (off + length xs))%nat
    with (off + (length xs + length ys))%nat by lia.
  rewrite <- !app_assoc. reflexivity.
Qed.

(** A write at the start of a fresh buffer: the bytes, then zeros. *)
Lemma blit_alloc (n : nat) (bs : list byte) :
  (length bs <= n)%nat ->
  blit (alloc n) 0 bs = bs ++ repeat x00 (n - length bs).
Proof.
  intros H. unfold blit, alloc. simpl. f_equal.
  replace n with (length bs + (n - length bs))%nat at 1 by lia.
  rewrite repeat_app, skipn_app, repeat_length, Nat.sub_diag.
  rewrite skipn_all2 by (rewrite repeat_length; lia). reflexivity.
Qed.

Lemma fits_true (buf : t) (off len : nat) :
  fits buf off len = true <-> (off + len <= length buf)%nat.
Proof. unfold fits. apply Nat.leb_le. Qed.

Lemma in_range_true (lo hi v : Z) :
  in_range lo hi v = true <-> lo <= v <= hi.
Proof. unfold in_range. rewrite andb_true_iff, !Z.leb_le. tauto. Qed.

Lemma writeUIntBE_Ok (width : nat) (max : Z) (buf : t) (v : Z) (off : nat) :
  0 <= v <= max -> (off + width <= length buf)%nat ->
  writeUIntBE width max buf v off = Ok (blit buf off (be_bytes width v)).
Proof.
  intros Hv Ho. unfold writeUIntBE.
  rewrite (proj2 (in_range_true 0 max v) Hv).
  rewrite (proj2 (fits_true buf off width) Ho). reflexivity.
Qed.

Lemma writeUIntBE_inv (width : nat) (max : Z) (buf buf' : t) (v : Z)
    (off : nat) :
  writeUIntBE width max buf v off = Ok buf' ->
  0 <= v <= max /\ (off + width <= length buf)%nat
  /\ buf' = blit buf off (be_bytes width v).
Proof.
  unfold writeUIntBE.
  destruct (in_range 0 max v) eqn:Hr; simpl; [| discriminate].
  destruct (fits buf off width) eqn:Hf; simpl; [| discriminate].
  intros H. inversion H.
  apply in_range_true in Hr. apply fits_true in Hf. auto.
Qed.

Lemma writeUIntBE_range (width : nat) (max : Z) (buf : t) (v : Z)
    (off : nat) :
  ~ (0 <= v <= max) ->
  writeUIntBE width max buf v off = Throw (ERR_OUT_OF_RANGE v).
Proof.
  intros Hv. unfold writeUIntBE.
  destruct (in_range 0 max v) eqn:Hr; [| reflexivity].
  apply in_range_true in Hr. contradiction.
Qed.

Lemma writeFloatBE_Ok (buf : t) (x : JS.number) (off : nat) :
  (off + 4 <= length buf)%nat ->
  writeFloatBE buf x off = Ok (blit buf off (be_bytes 4 (float32_bits x))).
Proof.
  intros Ho. unfold writeFloatBE.
  rewrite (proj2 (fits_true buf off 4) Ho). reflexivity.
Qed.

Lemma writeFloatBE_inv (buf buf' : t) (x : JS.number) (off : nat) :
  writeFloatBE buf x off = Ok buf' ->
  (off + 4 <= length buf)%nat
  /\ buf' = blit buf off (be_bytes 4 (float32_bits x)).
Proof.
  unfold writeFloatBE.
  destruct (fits buf off 4) eqn:Hf; simpl; [| discriminate].
  intros H. inversion H. apply fits_true in Hf. auto.
Qed.

End BufferFacts.

(* ===================================================================== *)
(** * The array writers                                                    *)
(* ===================================================================== *)

Section ArrayWriters.

Import Buffer ColladaConvert Layout.

Lemma room_true (buf : Buffer.t) (off n : nat) :
  room buf off n = true <-> (n = 0 \/ off + n <= length buf)%nat.
Proof.
  unfold room. rewrite orb_true_iff, Nat.eqb_eq, fits_true. tauto.
Qed.

Lemma room_false (buf : Buffer.t) (off n : nat) :
  room buf off n = false <-> (n <> 0 /\ length buf < off + n)%nat.
Proof.
  rewrite <- not_true_iff_false, room_true. lia.
Qed.

Lemma blit_blit_room (buf : Buffer.t) (off : nat) (xs ys : list byte) :
  room buf off (length xs) = true ->
  blit (blit buf off xs) (off + length xs) ys = blit buf off (xs ++ ys).
Proof.
  intros H. apply room_true in H. destruct H as [H | H].
  - destruct xs; [| discriminate]. simpl.
    rewrite blit_nil, Nat.add_0_r. reflexivity.
  - apply blit_blit. exact H.
Qed.

Lemma length_blit_room (buf : Buffer.t) (off : nat) (xs : list byte) :
  room buf off (length xs) = true -> length (blit buf off xs) = length buf.
Proof.
  intros H. apply room_true in H. destruct H as [H | H].
  - destruct xs; [| discriminate]. rewrite blit_nil. reflexivity.
  - apply length_blit. exact H.
Qed.

Lemma length_uint16_bytes (array : list Z) :
  length (uint16_bytes array) = (2 * length array)%nat.
Proof.
  unfold uint16_bytes.
  induction array as [| v r IH]; cbn [flat_map]; [reflexivity |].
  rewrite length_app, length_be_bytes, IH. simpl. lia.
Qed.

Lemma length_float32_bytes (array : list JS.number) :
  length (float32_bytes array) = (4 * length array)%nat.
Proof.
  unfold float32_bytes.
  induction array as [| v r IH]; cbn [flat_map]; [reflexivity |].
  rewrite length_app, length_be_bytes, IH. simpl. lia.
Qed.

Lemma length_segment_bytes (seg : segment) :
  length (segment_bytes seg)
  = (length (indices seg) * 2 + length (vertices seg) * 4)%nat.
Proof.
  unfold segment_bytes.
  rewrite length_app, length_uint16_bytes, length_float32_bytes. lia.
Qed.

(** *** [writeFloatArray] *)

Lemma writeFloatArray_loop_eq (array : list JS.number) :
  forall (buf : Buffer.t) (start i : nat),
    writeFloatArray_loop buf start i array
    = if room buf (start + i * 4) (length (float32_bytes array))
      then Ok (blit buf (start + i * 4) (float32_bytes array))
      else Throw ERR_BUFFER_OUT_OF_BOUNDS.
Proof.
  induction array as [| x rest IH]; intros buf start i.
  - simpl. rewrite blit_nil. reflexivity.
  - cbn [writeFloatArray_loop].
    change (float32_bytes (x :: rest))
      with (be_bytes 4 (float32_bits x) ++ float32_bytes rest).
    unfold writeFloatBE.
    remember (be_bytes 4 (float32_bits x)) as bx eqn:Ebx.
    assert (Hbx : length bx = 4%nat) by (subst bx; apply length_be_bytes).
    rewrite length_app, Hbx.
    destruct (fits buf (start + i * 4) 4) eqn:Hf; cbn [negb res_bind].
    + rewrite IH.
      assert (Hl : length (blit buf (start + i * 4) bx) = length buf).
      { apply length_blit. apply fits_true in Hf. lia. }
      replace (start + S i * 4)%nat with (start + i * 4 + length bx)%nat
        by lia.
      rewrite blit_blit by (apply fits_true in Hf; lia).
      destruct (room (blit buf (start + i * 4) bx)
                  (start + i * 4 + length bx) (length (float32_bytes rest)))
        eqn:Hr.
      * apply room_true in Hr. rewrite Hl in Hr.
        apply fits_true in Hf.
        rewrite (proj2 (room_true buf _ _)) by lia. reflexivity.
      * apply room_false in Hr. rewrite Hl in Hr.
        apply fits_true in Hf.
        rewrite (proj2 (room_false buf _ _)) by lia. reflexivity.
    + rewrite (proj2 (room_false buf _ _)); [reflexivity |].
      apply not_true_iff_false in Hf. rewrite fits_true in Hf. lia.
Qed.

Lemma writeFloatArray_eq (buf : Buffer.t) (start : nat) (array : list JS.number) :
  writeFloatArray buf start array
  = if room buf start (length (float32_bytes array))
    then Ok (blit buf start (float32_bytes array),
             length (float32_bytes array))
    else Throw ERR_BUFFER_OUT_OF_BOUNDS.
Proof.
  unfold writeFloatArray. rewrite writeFloatArray_loop_eq.
  replace (start + 0 * 4)%nat with start by lia.
  destruct (room buf start (length (float32_bytes array))); simpl;
    [| reflexivity].
  rewrite length_float32_bytes. do 2 f_equal. lia.
Qed.

(** *** [writeUIntArray] *)

Lemma first_bad_None (array : list Z) :
  first_bad array = None <-> Forall (fun v => 0 <= v <= 65535) array.
Proof.
  unfold first_bad. induction array as [| v r IH]; simpl.
  - split; auto.
  - unfold uint16 at 1. destruct (in_range 0 65535 v) eqn:Hv; simpl.
    + apply in_range_true in Hv. rewrite IH. split.
      * intros H. constructor; assumption.
      * intros H. inversion H. assumption.
    + split; [discriminate |]. intros H. inversion H as [| ? ? Hv' ?].
      apply in_range_true in Hv'. congruence.
Qed.

Lemma first_bad_Some (array : list Z) (v : Z) :
  first_bad array = Some v -> In v array /\ ~ (0 <= v <= 65535).
Proof.
  unfold first_bad. intros H. apply find_some in H. destruct H as [Hin Hb].
  split; [exact Hin |]. intros Hr. apply in_range_true in Hr.
  unfold uint16 in Hb. rewrite Hr in Hb. discriminate.
Qed.

Lemma first_bad_app (xs ys : list Z) :
  first_bad (xs ++ ys)
  = match first_bad xs with
    | Some v => Some v
    | None => first_bad ys
    end.
Proof.
  unfold first_bad. induction xs as [| x r IH]; simpl; [reflexivity |].
  destruct (negb (uint16 x)); [reflexivity | exact IH].
Qed.

(** An index outside the unsigned 16-bit range makes the loop throw; the
    first such index is reported when everything before it fits. *)
Lemma writeUIntArray_loop_eq (array : list Z) :
  forall (buf : Buffer.t) (start i : nat),
    match first_bad array with
    | None =>
        writeUIntArray_loop buf start i array
        = if room buf (start + i * 2) (length (uint16_bytes array))
          then Ok (blit buf (start + i * 2) (uint16_bytes array))
          else Throw ERR_BUFFER_OUT_OF_BOUNDS
    | Some v =>
        (exists e, writeUIntArray_loop buf start i array = Throw e)
        /\ (room buf (start + i * 2) (length (uint16_bytes array)) = true ->
            writeUIntArray_loop buf start i array
            = Throw (ERR_OUT_OF_RANGE v))
    end.
Proof.
  induction array as [| x rest IH]; intros buf start i.
  - simpl. rewrite blit_nil. reflexivity.
  - cbn [writeUIntArray_loop].
    change (uint16_bytes (x :: rest))
      with (be_bytes 2 x ++ uint16_bytes rest).
    unfold first_bad. cbn [find]. fold (first_bad rest).
    unfold writeUInt16BE, writeUIntBE. fold (uint16 x).
    remember (be_bytes 2 x) as bx eqn:Ebx.
    assert (Hbx : length bx = 2%nat) by (subst bx; apply length_be_bytes).
    rewrite length_app, Hbx.
    destruct (uint16 x) eqn:Hx; cbn [negb].
    + specialize (IH (blit buf (start + i * 2) bx) start (S i)).
      replace (start + S i * 2)%nat with (start + i * 2 + length bx)%nat
        in IH by lia.
      destruct (fits buf (start + i * 2) 2) eqn:Hf; cbn [negb res_bind].
      * assert (Hl : length (blit buf (start + i * 2) bx) = length buf).
        { apply length_blit. apply fits_true in Hf. lia. }
        apply fits_true in Hf.
        destruct (first_bad rest) as [v |].
        -- destruct IH as [IH1 IH2]. split; [exact IH1 |].
           intros Hr. apply IH2. apply room_true in Hr.
           apply room_true. rewrite Hl. lia.
        -- rewrite IH. rewrite blit_blit by lia.
           destruct (room (blit buf (start + i * 2) bx)
                       (start + i * 2 + length bx)
                       (length (uint16_bytes rest))) eqn:Hr.
           ++ apply room_true in Hr. rewrite Hl in Hr.
              rewrite (proj2 (room_true buf _ _)) by lia. reflexivity.
           ++ apply room_false in Hr. rewrite Hl in Hr.
              rewrite (proj2 (room_false buf _ _)) by lia. reflexivity.
      * apply not_true_iff_false in Hf. rewrite fits_true in Hf.
        destruct (first_bad rest) as [v |].
        -- split; [eexists; reflexivity |].
           intros Hr. apply room_true in Hr. lia.
        -- rewrite (proj2 (room_false buf _ _)) by lia. reflexivity.
    + split; [eexists; reflexivity | reflexivity].
Qed.

Lemma writeUIntArray_eq (buf : Buffer.t) (start : nat) (array : list Z) :
  first_bad array = None ->
  writeUIntArray buf start array
  = if room buf start (length (uint16_bytes array))
    then Ok (blit buf start (uint16_bytes array),
             length (uint16_bytes array))
    else Throw ERR_BUFFER_OUT_OF_BOUNDS.
Proof.
  intros Hb. unfold writeUIntArray.
  pose proof (writeUIntArray_loop_eq array buf start 0) as H.
  rewrite Hb in H. rewrite H.
  replace (start + 0 * 2)%nat with start by lia.
  destruct (room buf start (length (uint16_bytes array))); simpl;
    [| reflexivity].
  rewrite length_uint16_bytes. do 2 f_equal. lia.
Qed.

Lemma writeUIntArray_bad (buf : Buffer.t) (start : nat) (array : list Z) (v : Z) :
  first_bad array = Some v ->
  (exists e, writeUIntArray buf start array = Throw e)
  /\ (room buf start (length (uint16_bytes array)) = true ->
      writeUIntArray buf start array = Throw (ERR_OUT_OF_RANGE v)).
Proof.
  intros Hb. unfold writeUIntArray.
  pose proof (writeUIntArray_loop_eq array buf start 0) as H.
  rewrite Hb in H. replace (start + 0 * 2)%nat with start in H by lia.
  destruct H as [[e He] H2]. split.
  - exists e. rewrite He. reflexivity.
  - intros Hr. rewrite (H2 Hr). reflexivity.
Qed.

End ArrayWriters.

Section PayloadWriters.

Import Buffer ColladaConvert Layout.

Lemma room_app (buf : Buffer.t) (off : nat) (xs ys : list byte) :
  room buf off (length (xs ++ ys))
  = room buf off (length xs)
    && room (blit buf off xs) (off + length xs) (length ys).
Proof.
  rewrite length_app.
  destruct (room buf off (length xs)) eqn:Hx; cbn [andb].
  - pose proof (length_blit_room buf off xs Hx) as Hl.
    apply room_true in Hx.
    destruct (room (blit buf off xs) (off + length xs) (length ys)) eqn:Hy.
    + apply room_true in Hy. rewrite Hl in Hy. apply room_true. lia.
    + apply room_false in Hy. rewrite Hl in Hy. apply room_false. lia.
  - apply room_false in Hx. apply room_false. lia.
Qed.

(** Two writers that each write a fixed byte sequence at the cursor, or
    throw when it does not fit, compose into one such writer. *)
Lemma write_then (buf : Buffer.t) (off : nat) (xs ys : list byte)
    (k : Buffer.t -> nat -> Res (Buffer.t * nat)) :
  (forall b o,
      k b o = if room b o (length ys)
              then Ok (blit b o ys, (o + length ys)%nat)
              else Throw ERR_BUFFER_OUT_OF_BOUNDS) ->
  (if room buf off (length xs)
   then k (blit buf off xs) (off + length xs)%nat
   else Throw ERR_BUFFER_OUT_OF_BOUNDS)
  = if room buf off (length (xs ++ ys))
    then Ok (blit buf off (xs ++ ys), (off + length (xs ++ ys))%nat)
    else Throw ERR_BUFFER_OUT_OF_BOUNDS.
Proof.
  intros Hk. rewrite room_app.
  destruct (room buf off (length xs)) eqn:Hx; cbn [andb]; [| reflexivity].
  rewrite Hk.
  destruct (room (blit buf off xs) (off + length xs) (length ys));
    [| reflexivity].
  rewrite blit_blit_room by exact Hx.
  rewrite length_app. do 2 f_equal. lia.
Qed.

Lemma write_animations_eq (animationData : list (list JS.number)) :
  forall (buf : Buffer.t) (off : nat),
    write_animations buf off animationData
    = if room buf off (length (animation_bytes animationData))
      then Ok (blit buf off (animation_bytes animationData),
               (off + length (animation_bytes animationData))%nat)
      else Throw ERR_BUFFER_OUT_OF_BOUNDS.
Proof.
  induction animationData as [| a rest IH]; intros buf off.
  - simpl. rewrite blit_nil, Nat.add_0_r. reflexivity.
  - cbn [write_animations]. rewrite writeFloatArray_eq.
    change (animation_bytes (a :: rest))
      with (float32_bytes a ++ animation_bytes rest).
    rewrite <- (write_then buf off (float32_bytes a) (animation_bytes rest)
                  (fun b o => write_animations b o rest)) by exact IH.
    destruct (room buf off (length (float32_bytes a))); reflexivity.
Qed.

Lemma all_indices_cons (seg : segment) (rest : list segment) :
  all_indices (seg :: rest) = indices seg ++ all_indices rest.
Proof. reflexivity. Qed.

Lemma geometry_bytes_cons (seg : segment) (rest : list segment) :
  geometry_bytes (seg :: rest)
  = uint16_bytes (indices seg)
    ++ float32_bytes (vertices seg) ++ geometry_bytes rest.
Proof.
  unfold geometry_bytes. cbn [flat_map]. unfold segment_bytes.
  rewrite <- app_assoc. reflexivity.
Qed.

(** With every index in range, the geometry loop writes the geometry
    bytes at the cursor, or throws when they do not fit. *)
Lemma write_geometry_eq (geometryData : list segment) :
  forall (buf : Buffer.t) (off : nat),
    first_bad (all_indices geometryData) = None ->
    write_geometry buf off geometryData
    = if room buf off (length (geometry_bytes geometryData))
      then Ok (blit buf off (geometry_bytes geometryData),
               (off + length (geometry_bytes geometryData))%nat)
      else Throw ERR_BUFFER_OUT_OF_BOUNDS.
Proof.
  induction geometryData as [| seg rest IH]; intros buf off Hb.
  - simpl. rewrite blit_nil, Nat.add_0_r. reflexivity.
  - rewrite all_indices_cons, first_bad_app in Hb.
    destruct (first_bad (indices seg)) eqn:Hs; [discriminate |].
    cbn [write_geometry]. rewrite writeUIntArray_eq by exact Hs.
    rewrite geometry_bytes_cons.
    rewrite <- (write_then buf off (uint16_bytes (indices seg))
                  (float32_bytes (vertices seg) ++ geometry_bytes rest)
                  (fun b o =>
                     (r <- writeFloatArray b o (vertices seg);;
                      write_geometry (fst r) (o + snd r)%nat rest)%res)).
    + destruct (room buf off (length (uint16_bytes (indices seg))));
        reflexivity.
    + intros b o. rewrite writeFloatArray_eq.
      rewrite <- (write_then b o (float32_bytes (vertices seg))
                    (geometry_bytes rest)
                    (fun b' o' => write_geometry b' o' rest)).
      * destruct (room b o (length (float32_bytes (vertices seg))));
          reflexivity.
      * intros b' o'. apply IH. exact Hb.
Qed.

(** With an index out of range, the geometry loop throws; it reports the
    first such index when the geometry bytes fit. *)
Lemma write_geometry_bad (geometryData : list segment) (v : Z) :
  forall (buf : Buffer.t) (off : nat),
    first_bad (all_indices geometryData) = Some v ->
    (exists e, write_geometry buf off geometryData = Throw e)
    /\ (room buf off (length (geometry_bytes geometryData)) = true ->
        write_geometry buf off geometryData = Throw (ERR_OUT_OF_RANGE v)).
Proof.
  induction geometryData as [| seg rest IH]; intros buf off Hb.
  - discriminate.
  - rewrite all_indices_cons, first_bad_app in Hb.
    cbn [write_geometry]. rewrite geometry_bytes_cons.
    destruct (first_bad (indices seg)) as [w |] eqn:Hs.
    + inversion Hb; subst w.
      destruct (writeUIntArray_bad buf off (indices seg) v Hs)
        as [[e He] H2].
      split.
      * exists e. rewrite He. reflexivity.
      * intros Hr. rewrite room_app in Hr.
        apply andb_true_iff in Hr. destruct Hr as [Hr _].
        rewrite (H2 Hr). reflexivity.
    + rewrite writeUIntArray_eq by exact Hs.
      destruct (room buf off (length (uint16_bytes (indices seg))))
        eqn:Hr1; cbn [res_bind fst snd].
      2:{ split; [eexists; reflexivity |].
          intros Hr. rewrite room_app, Hr1 in Hr. discriminate. }
      rewrite writeFloatArray_eq.
      destruct (room (blit buf off (uint16_bytes (indices seg)))
                  (off + length (uint16_bytes (indices seg)))
                  (length (float32_bytes (vertices seg))))
        eqn:Hr2; cbn [res_bind fst snd].
      2:{ split; [eexists; reflexivity |].
          intros Hr. rewrite room_app, Hr1 in Hr. cbn [andb] in Hr.
          rewrite room_app, Hr2 in Hr. discriminate. }
      destruct (IH (blit (blit buf off (uint16_bytes (indices seg)))
                      (off + length (uint16_bytes (indices seg)))
                      (float32_bytes (vertices seg)))
                  (off + length (uint16_bytes (indices seg))
                   + length (float32_bytes (vertices seg)))%nat Hb)
        as [IH1 IH2].
      split; [exact IH1 |].
      intros Hr. apply IH2.
      rewrite room_app, Hr1 in Hr. cbn [andb] in Hr.
      rewrite room_app, Hr2 in Hr. exact Hr.
Qed.

End PayloadWriters.

(* ===================================================================== *)
(** * [writeData] in closed form                                           *)
(* ===================================================================== *)

Section WriteDataFacts.

Import ColladaConvert Layout Run.

Variable prepareForExport : ColladaGeometry -> ColladaGeometry.

Local Abbreviation prepared := (prepared prepareForExport).
Local Abbreviation writeData := (writeData prepareForExport).

(** A run of [writeData] is the events before the allocation, then the
    writes into the buffer; when these succeed the buffer goes to the
    stream, and when one throws nothing does. *)
Lemma writeData_eq (self : t) (outputFile : string) (tr : list event) :
  writeData outputFile {| this := self; trace := tr |}
  = match encode (prepared self) with
    | Ok r =>
        (Ok {| bufferSize := allocated (prepared self);
               finalOffset := snd r;
               output := fst r |},
         {| this := prepared self;
            trace := tr ++ events_before self outputFile
                        ++ [StreamWrite (fst r); StreamEnd] |})
    | Throw e =>
        (Throw e,
         {| this := prepared self;
            trace := tr ++ events_before self outputFile |})
    end.
Proof.
  destruct self as [cfg g a l h].
  destruct cfg as [attribs bin sub geo ani hie mat].
  destruct geo, bin;
    cbv beta iota zeta delta
      [ColladaConvert.writeData encode Run.prepared events_before allocated
       jsonLength jsonString jsonData collects animationData bind ret lift
       emit get_this set_geometry res_bind this trace config
       colladaGeometry colladaAnimation colladaLighting hierarchy
       includeGeometry includeBinary includeAnimation includeHierarchy
       Nat.add];
    repeat
      (match goal with
       | |- context [match ?r with Ok _ => _ | Throw _ => _ end] =>
           lazymatch r with
           | match _ with Ok _ => _ | Throw _ => _ end => fail
           | _ => destruct r
           end
       end;
       cbv beta iota);
    rewrite <- ?app_assoc; reflexivity.
Qed.

End WriteDataFacts.

Section EncodeFacts.

Import Buffer ColladaConvert Layout Run.

Lemma length_bytes_of_string (s : string) :
  length (bytes_of_string s) = String.length s.
Proof.
  unfold bytes_of_string. rewrite length_map.
  induction s as [| c r IH]; simpl; congruence.
Qed.

Lemma length_header (self : ColladaConvert.t) :
  length (header self) = (4 + jsonLength self)%nat.
Proof.
  unfold header. rewrite length_app, length_be_bytes, length_bytes_of_string.
  reflexivity.
Qed.

Lemma allocated_ge (self : ColladaConvert.t) :
  (4 + jsonLength self <= allocated self)%nat.
Proof. unfold allocated. destruct (includeBinary (config self)); lia. Qed.

(** The size formula of lines 136 to 139. *)
Lemma allocated_eq (self : ColladaConvert.t) :
  allocated self
  = (4 + jsonLength self
     + (if includeBinary (config self)
        then geometry_byteSize (colladaGeometry self)
             + animation_byteSize (colladaAnimation self)
        else 0))%nat.
Proof. unfold allocated. destruct (includeBinary (config self)); lia. Qed.

Lemma length_payload (self : ColladaConvert.t) :
  includeBinary (config self) = true ->
  length (payload self)
  = (length (geometry_bytes (geometryData (colladaGeometry self)))
     + length (animation_bytes (animationData self)))%nat.
Proof. intros H. unfold payload. rewrite H. apply length_app. Qed.

(** The two header writes on the fresh buffer. *)
Lemma write_header (self : ColladaConvert.t) :
  Z.of_nat (jsonLength self) <= 4294967295 ->
  (buffer <- writeUInt32BE (alloc (allocated self))
               (Z.of_nat (jsonLength self)) 0;;
   write buffer (jsonString self) 4 (jsonLength self))%res
  = Ok (blit (alloc (allocated self)) 0 (header self)).
Proof.
  intros Hlen. pose proof (allocated_ge self) as Hge.
  unfold writeUInt32BE.
  rewrite writeUIntBE_Ok by (rewrite ?length_alloc; lia).
  cbn [res_bind]. unfold write.
  set (b4 := be_bytes 4 (Z.of_nat (jsonLength self))).
  assert (H4 : length b4 = 4%nat) by apply length_be_bytes.
  assert (Hl : length (blit (alloc (allocated self)) 0 b4)
               = allocated self).
  { rewrite length_blit; rewrite length_alloc; lia. }
  rewrite Hl.
  destruct (Nat.ltb_spec (allocated self) 4) as [Hlt | _]; [lia |].
  rewrite Nat.min_l by lia.
  rewrite firstn_all2
    by (rewrite length_bytes_of_string; unfold jsonLength, byteLength; lia).
  f_equal. unfold header. fold b4.
  rewrite <- blit_blit by (rewrite length_alloc; lia).
  rewrite H4. reflexivity.
Qed.

Lemma encode_header_range (self : ColladaConvert.t) :
  4294967295 < Z.of_nat (jsonLength self) ->
  encode self = Throw (ERR_OUT_OF_RANGE (Z.of_nat (jsonLength self))).
Proof.
  intros H. unfold encode, writeUInt32BE.
  rewrite writeUIntBE_range by lia. reflexivity.
Qed.

Lemma encode_after_header (self : ColladaConvert.t) :
  Z.of_nat (jsonLength self) <= 4294967295 ->
  encode self
  = let buffer := blit (alloc (allocated self)) 0 (header self) in
    if includeBinary (config self) then
      (r <- write_geometry buffer (4 + jsonLength self)
              (geometryData (colladaGeometry self));;
       write_animations (fst r) (snd r) (animationData self))%res
    else Ok (buffer, (4 + jsonLength self)%nat).
Proof.
  intros Hlen. pose proof (write_header self Hlen) as H.
  unfold encode. cbv zeta.
  destruct (writeUInt32BE (alloc (allocated self))
              (Z.of_nat (jsonLength self)) 0) as [b1 | e];
    cbn [res_bind] in H |- *; [| discriminate].
  rewrite H. reflexivity.
Qed.

(** With a header length that fits 32 bits and every index in range, the
    writes succeed exactly when header and payload fit the allocated
    size, and then the buffer is header, payload, and untouched zeros. *)
Lemma encode_eq (self : ColladaConvert.t) :
  Z.of_nat (jsonLength self) <= 4294967295 ->
  (includeBinary (config self) = true ->
   first_bad (all_indices (geometryData (colladaGeometry self))) = None) ->
  encode self
  = if Nat.leb (length (header self) + length (payload self))
         (allocated self)
    then Ok (header self ++ payload self
             ++ repeat x00 (allocated self
                            - (length (header self)
                               + length (payload self))),
             (length (header self) + length (payload self))%nat)
    else Throw ERR_BUFFER_OUT_OF_BOUNDS.
Proof.
  intros Hlen Hidx. rewrite encode_after_header by exact Hlen. cbv zeta.
  pose proof (allocated_ge self) as Hge.
  pose proof (length_header self) as Hh.
  assert (Hroom : room (alloc (allocated self)) 0 (length (header self))
                  = true).
  { apply room_true. right. rewrite length_alloc. lia. }
  unfold payload. destruct (includeBinary (config self)) eqn:Hbin.
  - specialize (Hidx eq_refl).
    set (gb := geometry_bytes (geometryData (colladaGeometry self))).
    set (ab := animation_bytes (animationData self)).
    set (b2 := blit (alloc (allocated self)) 0 (header self)).
    assert (Hb2 : length b2 = allocated self).
    { unfold b2. rewrite length_blit_room by exact Hroom.
      apply length_alloc. }
    rewrite write_geometry_eq by exact Hidx. fold gb.
    transitivity
      (if room b2 (4 + jsonLength self) (length (gb ++ ab))
       then Ok (blit b2 (4 + jsonLength self) (gb ++ ab),
                (4 + jsonLength self + length (gb ++ ab))%nat)
       else Throw ERR_BUFFER_OUT_OF_BOUNDS).
    + rewrite <- (write_then b2 (4 + jsonLength self) gb ab
                    (fun b o => write_animations b o (animationData self)))
        by (intros b o; apply write_animations_eq).
      destruct (room b2 (4 + jsonLength self) (length gb)); reflexivity.
    + destruct (Nat.leb_spec (length (header self) + length (gb ++ ab))
                  (allocated self)) as [Hfit | Hfit].
      * rewrite (proj2 (room_true b2 _ _)) by (rewrite Hb2; lia).
        unfold b2. rewrite <- Hh at 1.
        change (length (header self))
          with (0 + length (header self))%nat at 1.
        rewrite blit_blit_room by exact Hroom.
        rewrite blit_alloc by (rewrite !length_app in *; lia).
        rewrite <- app_assoc.
        rewrite (length_app (header self) (gb ++ ab)), Hh. reflexivity.
      * rewrite (proj2 (room_false b2 _ _)) by (rewrite Hb2; lia).
        reflexivity.
  - cbn [length app]. rewrite Nat.add_0_r.
    rewrite (proj2 (Nat.leb_le _ _)) by lia.
    rewrite blit_alloc by lia. rewrite Hh. reflexivity.
Qed.

(** With an index out of range and the payload enabled, the writes
    throw; the error is the range error for the first such index when
    the header length fits 32 bits and the geometry bytes fit. *)
Lemma encode_bad (self : ColladaConvert.t) (v : Z) :
  includeBinary (config self) = true ->
  first_bad (all_indices (geometryData (colladaGeometry self))) = Some v ->
  (exists e, encode self = Throw e)
  /\ (Z.of_nat (jsonLength self) <= 4294967295 ->
      (length (header self)
       + length (geometry_bytes (geometryData (colladaGeometry self)))
       <= allocated self)%nat ->
      encode self = Throw (ERR_OUT_OF_RANGE v)).
Proof.
  intros Hbin Hbad.
  destruct (Z_le_gt_dec (Z.of_nat (jsonLength self)) 4294967295)
    as [Hlen | Hlen].
  - rewrite encode_after_header by exact Hlen. cbv zeta. rewrite Hbin.
    set (b2 := blit (alloc (allocated self)) 0 (header self)).
    destruct (write_geometry_bad
                (geometryData (colladaGeometry self)) v b2
                (4 + jsonLength self) Hbad) as [[e He] H2].
    split.
    + exists e. rewrite He. reflexivity.
    + intros _ Hfit. rewrite H2; [reflexivity |].
      apply room_true. right. unfold b2.
      rewrite length_blit, length_alloc;
        rewrite ?length_alloc; rewrite length_header in *;
        pose proof (allocated_ge self); lia.
  - rewrite encode_header_range by lia. split.
    + eexists; reflexivity.
    + intros H. lia.
Qed.

(** What a successful sequence of writes implies. *)
Lemma encode_inv (self : ColladaConvert.t) (buf : Buffer.t) (off : nat) :
  encode self = Ok (buf, off) ->
  Z.of_nat (jsonLength self) <= 4294967295
  /\ (includeBinary (config self) = true ->
      first_bad (all_indices (geometryData (colladaGeometry self))) = None)
  /\ off = (length (header self) + length (payload self))%nat
  /\ (off <= allocated self)%nat
  /\ buf = header self ++ payload self ++ repeat x00 (allocated self - off).
Proof.
  intros H.
  destruct (Z_le_gt_dec (Z.of_nat (jsonLength self)) 4294967295)
    as [Hlen | Hlen].
  2:{ rewrite encode_header_range in H by lia. discriminate. }
  assert (Hidx : includeBinary (config self) = true ->
                 first_bad (all_indices
                              (geometryData (colladaGeometry self))) = None).
  { intros Hbin.
    destruct (first_bad (all_indices (geometryData (colladaGeometry self))))
      as [v |] eqn:Hb; [| reflexivity].
    destruct (encode_bad self v Hbin Hb) as [[e He] _].
    rewrite He in H. discriminate. }
  rewrite encode_eq in H by assumption.
  destruct (Nat.leb_spec (length (header self) + length (payload self))
              (allocated self)) as [Hfit | Hfit]; [| discriminate].
  inversion H; subst. auto.
Qed.

End EncodeFacts.

(* ===================================================================== *)
(** * JSON: what [stringify] writes, [parse] reads                         *)
(* ===================================================================== *)

Section StringFacts.

Lemma append_nil_r (s : string) : s +++ "" = s.
Proof. induction s as [| c r IH]; simpl; congruence. Qed.

Lemma append_assoc (a b c : string) : (a +++ b) +++ c = a +++ (b +++ c).
Proof. induction a as [| x r IH]; simpl; congruence. Qed.

Lemma length_append (a b : string) :
  String.length (a +++ b) = (String.length a + String.length b)%nat.
Proof. induction a as [| x r IH]; simpl; congruence. Qed.

End StringFacts.

Section StringLiterals.

(** One character, escaped, is read back as that character. *)
Lemma string_body_escape (c : ascii) (tail : string) :
  string_body (escape c +++ tail)
  = with_prefix (String c) (string_body tail).
Proof.
  destruct c as [[] [] [] [] [] [] [] []]; reflexivity.
Qed.

Lemma string_body_escape_all (s rest : string) :
  string_body (escape_all s +++ String dquote rest) = Some (s, rest).
Proof.
  induction s as [| c r IH].
  - reflexivity.
  - cbn [escape_all]. rewrite append_assoc, string_body_escape, IH.
    reflexivity.
Qed.

(** A quoted string followed by [rest] is read back whole. *)
Lemma string_body_quote (s rest : string) :
  exists body,
    quote s +++ rest = String dquote body
    /\ string_body body = Some (s, rest).
Proof.
  exists (escape_all s +++ String dquote rest). split.
  - unfold quote. cbn [String.append]. rewrite append_assoc. reflexivity.
  - apply string_body_escape_all.
Qed.

End StringLiterals.

Section NumberTokens.

Import Shape.

Lemma delimiter_cases (c : ascii) :
  delimiter c = true ->
  c = ","%char \/ c = "]"%char \/ c = "}"%char.
Proof.
  unfold delimiter. rewrite !orb_true_iff, !Ascii.eqb_eq. tauto.
Qed.

Lemma delimited_no_digit (rest : string) :
  delimited rest = true -> no_digit_head rest = true.
Proof.
  destruct rest as [| c r]; [reflexivity |]. simpl. intros H.
  destruct (delimiter_cases c H) as [-> | [-> | ->]]; reflexivity.
Qed.

(** Digits are read up to the first character that is not one. *)
Lemma digits_ext (s rest : string) :
  no_digit_head rest = true ->
  forall (acc : N) (count : nat),
    JS.digits 10 (s +++ rest) acc count
    = let '(v, n, r) := JS.digits 10 s acc count in (v, n, r +++ rest).
Proof.
  intros Hrest. induction s as [| c s' IH]; intros acc count.
  - cbn [String.append JS.digits]. destruct rest as [| c r]; [reflexivity |].
    cbn [JS.digits]. unfold no_digit_head, is_digit in Hrest.
    destruct (JS.digit_value c) as [d |]; [| reflexivity].
    apply negb_true_iff in Hrest. rewrite Hrest. reflexivity.
  - cbn [String.append JS.digits].
    destruct (JS.digit_value c) as [d |]; [| reflexivity].
    destruct (d <? 10)%N; [apply IH | reflexivity].
Qed.

Lemma digits_all (s : string) :
  all_digits s = true ->
  forall (acc : N) (count : nat),
    exists v,
      JS.digits 10 s acc count = (v, (count + String.length s)%nat, "").
Proof.
  induction s as [| c s' IH]; intros Hs acc count.
  - exists acc. cbn. rewrite Nat.add_0_r. reflexivity.
  - cbn [all_digits] in Hs. apply andb_true_iff in Hs.
    destruct Hs as [Hc Hs]. cbn [JS.digits]. unfold is_digit in Hc.
    destruct (JS.digit_value c) as [d |]; [| discriminate].
    rewrite Hc.
    destruct (IH Hs (acc * 10 + d)%N (S count)) as [v Hv].
    exists v. rewrite Hv. cbn [String.length]. do 2 f_equal. lia.
Qed.

Lemma fraction_part_ext (iv : N) (s rest : string) :
  delimited rest = true ->
  fraction_part iv (s +++ rest)
  = let '(v, n, r, ok) := fraction_part iv s in (v, n, r +++ rest, ok).
Proof.
  intros Hrest. destruct s as [| c s'].
  - cbn [String.append]. destruct rest as [| c r]; [reflexivity |].
    destruct (delimiter_cases c Hrest) as [-> | [-> | ->]]; reflexivity.
  - cbn [String.append fraction_part].
    destruct (Ascii.eqb c "."); [| reflexivity].
    rewrite digits_ext by (apply delimited_no_digit; exact Hrest).
    destruct (JS.digits 10 s' iv 0) as [[v n] r]. reflexivity.
Qed.

Lemma sign_prefix_ext (s rest : string) :
  delimited rest = true ->
  JS.sign_prefix (s +++ rest)
  = let '(neg, r) := JS.sign_prefix s in (neg, r +++ rest).
Proof.
  intros Hrest. destruct s as [| c s'].
  - cbn [String.append]. destruct rest as [| c r]; [reflexivity |].
    destruct (delimiter_cases c Hrest) as [-> | [-> | ->]]; reflexivity.
  - cbn [String.append JS.sign_prefix].
    destruct (Ascii.eqb c "-"); [reflexivity |].
    destruct (Ascii.eqb c "+"); reflexivity.
Qed.

Lemma exponent_part_ext (s rest : string) :
  delimited rest = true ->
  exponent_part (s +++ rest)
  = let '(ex, r, ok) := exponent_part s in (ex, r +++ rest, ok).
Proof.
  intros Hrest. destruct s as [| c s'].
  - cbn [String.append]. destruct rest as [| c r]; [reflexivity |].
    destruct (delimiter_cases c Hrest) as [-> | [-> | ->]]; reflexivity.
  - cbn [String.append exponent_part].
    destruct (Ascii.eqb c "e" || Ascii.eqb c "E"); [| reflexivity].
    rewrite sign_prefix_ext by exact Hrest.
    destruct (JS.sign_prefix s') as [eneg r1].
    rewrite digits_ext by (apply delimited_no_digit; exact Hrest).
    destruct (JS.digits 10 r1 0 0) as [[ev n] r2]. reflexivity.
Qed.

Lemma leading_ok_ext (s rest : string) (n : nat) :
  delimited rest = true ->
  leading_ok (s +++ rest) n
  = match s with
    | EmptyString => negb (Nat.eqb n 0) && negb (String.eqb rest "")
    | _ => leading_ok s n
    end.
Proof.
  intros Hrest. destruct s as [| c s']; [| reflexivity].
  cbn [String.append]. destruct rest as [| c r]; [cbn; btauto |].
  destruct (delimiter_cases c Hrest) as [-> | [-> | ->]];
    cbn; rewrite andb_true_r; reflexivity.
Qed.

(** A number token is read the same way when a delimiter follows. *)
Lemma unsigned_token_ext (neg : bool) (s rest : string) :
  delimited rest = true ->
  unsigned_token neg (s +++ rest)
  = match unsigned_token neg s with
    | Some (y, r) => Some (y, r +++ rest)
    | None => None
    end.
Proof.
  intros Hrest. unfold unsigned_token.
  rewrite digits_ext by (apply delimited_no_digit; exact Hrest).
  destruct (JS.digits 10 s 0 0) as [[iv icount] s2] eqn:Hd.
  rewrite leading_ok_ext by exact Hrest.
  rewrite fraction_part_ext by exact Hrest.
  destruct (fraction_part iv s2) as [[[v fcount] s3] frac_ok] eqn:Hf.
  rewrite exponent_part_ext by exact Hrest.
  destruct (exponent_part s3) as [[ex s4] exp_ok] eqn:He.
  destruct s as [| c s'].
  - cbn in Hd. inversion Hd; subst. reflexivity.
  - destruct (leading_ok (String c s') icount && frac_ok && exp_ok);
      reflexivity.
Qed.

Lemma number_token_ext (s rest : string) :
  s <> "" ->
  delimited rest = true ->
  number_token (s +++ rest)
  = match number_token s with
    | Some (y, r) => Some (y, r +++ rest)
    | None => None
    end.
Proof.
  intros Hs Hrest. destruct s as [| c s']; [congruence |].
  cbn [String.append number_token].
  destruct (Ascii.eqb c "-").
  - apply unsigned_token_ext. exact Hrest.
  - apply (unsigned_token_ext false (String c s') rest Hrest).
Qed.

End NumberTokens.

Section NumberShapes.

Import Shape.

Lemma is_digit_not_special (c : ascii) :
  is_digit c = true ->
  Ascii.eqb c "-" = false /\ Ascii.eqb c "+" = false
  /\ Ascii.eqb c "." = false /\ is_ws c = false
  /\ Ascii.eqb c "n" = false /\ Ascii.eqb c "t" = false
  /\ Ascii.eqb c "f" = false /\ Ascii.eqb c dquote = false
  /\ Ascii.eqb c "[" = false /\ Ascii.eqb c "{" = false
  /\ Ascii.eqb c "]" = false /\ Ascii.eqb c "}" = false.
Proof.
  destruct c as [[] [] [] [] [] [] [] []]; intros H;
    try discriminate H; repeat split; reflexivity.
Qed.

Lemma all_digits_app (a b : string) :
  all_digits (a +++ b) = all_digits a && all_digits b.
Proof.
  induction a as [| c r IH]; [reflexivity |].
  cbn [String.append all_digits]. rewrite IH, andb_assoc. reflexivity.
Qed.

Lemma all_digits_zeros (n : nat) : all_digits (JS.zeros n) = true.
Proof. induction n as [| n IH]; [reflexivity | exact IH]. Qed.

Lemma take_drop (n : nat) (s : string) : JS.take n s +++ JS.drop n s = s.
Proof.
  revert s. induction n as [| n IH]; intros [| c r]; try reflexivity.
  cbn [JS.take JS.drop String.append]. rewrite IH. reflexivity.
Qed.

Lemma all_digits_take_drop (n : nat) (s : string) :
  all_digits s = true ->
  all_digits (JS.take n s) = true /\ all_digits (JS.drop n s) = true.
Proof.
  intros H. rewrite <- (take_drop n s), all_digits_app in H.
  apply andb_true_iff in H. exact H.
Qed.

Lemma length_drop (n : nat) (s : string) :
  String.length (JS.drop n s) = (String.length s - n)%nat.
Proof.
  revert s. induction n as [| n IH]; intros [| c r]; try reflexivity.
  cbn [JS.drop String.length]. rewrite IH. reflexivity.
Qed.

Lemma all_digits_chars_of_uint (u : Decimal.uint) :
  all_digits (JS.chars_of_uint u) = true.
Proof. induction u; [reflexivity | exact IHu ..]. Qed.

(** A positive number is written without a leading zero. *)
Lemma to_uint_head (p : positive) :
  match Pos.to_uint p with
  | Decimal.Nil | Decimal.D0 _ => False
  | _ => True
  end.
Proof.
  pose proof (DecimalPos.Unsigned.to_of (Pos.to_uint p)) as H.
  rewrite DecimalPos.Unsigned.of_to in H. cbn [N.to_uint] in H.
  pose proof (DecimalPos.Unsigned.to_uint_nonzero p) as Hz.
  pose proof (DecimalFacts.nzhead_nonzero (Pos.to_uint p)) as Hn.
  unfold Decimal.unorm in H.
  destruct (Decimal.nzhead (Pos.to_uint p)) eqn:Hh;
    rewrite H; try exact I.
  - apply Hz. exact H.
  - exact (Hn _ eq_refl).
Qed.

Lemma decimal_of_pos_shape (p : positive) :
  all_digits (JS.decimal_of_pos p) = true
  /\ exists c r,
       JS.decimal_of_pos p = String c r /\ Ascii.eqb c "0" = false.
Proof.
  split; [apply all_digits_chars_of_uint |].
  unfold JS.decimal_of_pos. pose proof (to_uint_head p) as H.
  destruct (Pos.to_uint p); try contradiction;
    cbn [JS.chars_of_uint]; eexists _, _; split; reflexivity.
Qed.

(** A well-formed integer part, fraction and exponent make a token. *)
Lemma unsigned_token_shape (neg : bool) (int frac ex : string) :
  int_shape int -> frac_shape frac -> exp_shape ex ->
  exists y, unsigned_token neg (int +++ frac +++ ex) = Some (y, "").
Proof.
  intros [Hint Hlead] Hfrac Hex. unfold unsigned_token.
  assert (Hex_head : no_digit_head ex = true)
    by (destruct Hex; reflexivity).
  assert (Hrest : no_digit_head (frac +++ ex) = true)
    by (destruct Hfrac; [exact Hex_head | reflexivity]).
  rewrite digits_ext by exact Hrest.
  destruct (digits_all int Hint 0%N 0%nat) as [iv Hiv]. rewrite Hiv.
  cbn [String.append Nat.add].
  assert (Hl : leading_ok (int +++ frac +++ ex) (String.length int) = true).
  { destruct int as [| c r]; [contradiction |].
    cbn [String.append leading_ok String.length].
    destruct (Ascii.eqb c "0"); [| reflexivity].
    rewrite (Hlead eq_refl). reflexivity. }
  rewrite Hl. clear Hl.
  assert (Hf : exists v n,
             fraction_part iv (frac +++ ex) = (v, n, ex, true)).
  { destruct Hfrac as [| f Hf Hne].
    - exists iv, 0%nat. destruct Hex; reflexivity.
    - cbn [String.append fraction_part Ascii.eqb Bool.eqb].
      rewrite digits_ext by exact Hex_head.
      destruct (digits_all f Hf iv 0%nat) as [v Hv]. rewrite Hv.
      exists v, (String.length f). cbn [Nat.add String.append].
      destruct f; [congruence | reflexivity]. }
  destruct Hf as [v [n Hf]]. rewrite Hf.
  assert (He : exists e, exponent_part ex = (e, "", true)).
  { destruct Hex as [| sgn d Hsgn Hd Hne].
    - exists 0. reflexivity.
    - cbn [exponent_part Ascii.eqb Bool.eqb orb].
      assert (Hs : exists b, JS.sign_prefix (sgn +++ d) = (b, d)).
      { destruct Hsgn as [-> | [-> | ->]].
        - destruct d as [| c r]; [congruence |].
          cbn [all_digits] in Hd. apply andb_true_iff in Hd.
          destruct (is_digit_not_special c (proj1 Hd)) as [H1 [H2 _]].
          exists false. cbn [String.append JS.sign_prefix].
          rewrite H1, H2. reflexivity.
        - exists false. reflexivity.
        - exists true. reflexivity. }
      destruct Hs as [b Hs]. rewrite Hs.
      destruct (digits_all d Hd 0%N 0%nat) as [ev Hev]. rewrite Hev.
      eexists. cbn [Nat.add].
      destruct d; [congruence | reflexivity]. }
  destruct He as [e He]. rewrite He. cbn [andb].
  eexists. reflexivity.
Qed.

Lemma int_shape_head (int : string) :
  int_shape int ->
  exists c r, int = String c r /\ is_digit c = true.
Proof.
  intros [Hd Hl]. destruct int as [| c r]; [contradiction |].
  exists c, r. split; [reflexivity |].
  cbn [all_digits] in Hd. apply andb_true_iff in Hd. apply Hd.
Qed.

(** The digits of a positive number, laid out with the decimal point
    at any position, make a number token. *)
Lemma layout_shape (p : positive) (n : Z) :
  exists int frac ex,
    JS.layout (JS.decimal_of_pos p) n = int +++ frac +++ ex
    /\ int_shape int /\ frac_shape frac /\ exp_shape ex.
Proof.
  destruct (decimal_of_pos_shape p) as [Hd [c [r [Hds Hc]]]].
  unfold JS.layout. set (ds := JS.decimal_of_pos p) in *.
  set (k := Z.of_nat (String.length ds)).
  assert (Hk : k = Z.of_nat (S (String.length r)))
    by (unfold k; rewrite Hds; reflexivity).
  destruct ((k <=? n) && (n <=? 21)) eqn:H1.
  { exists (ds +++ JS.zeros (Z.to_nat (n - k))), "", "".
    rewrite !append_nil_r. split; [reflexivity |].
    split; [| split; constructor].
    split.
    - rewrite all_digits_app, Hd, all_digits_zeros. reflexivity.
    - rewrite Hds. cbn [String.append]. rewrite Hc. discriminate. }
  destruct ((0 <? n) && (n <=? 21)) eqn:H2.
  { apply andb_true_iff in H2. destruct H2 as [H2 H2'].
    apply Z.ltb_lt in H2. apply Z.leb_le in H2'.
    assert (Hlt : n < k).
    { destruct (Z.leb_spec k n) as [Hle | Hlt]; [| exact Hlt].
      rewrite (proj2 (Z.leb_le n 21) H2') in H1. discriminate. }
    destruct (all_digits_take_drop (Z.to_nat n) ds Hd) as [Ht Hdr].
    exists (JS.take (Z.to_nat n) ds),
      (String "." (JS.drop (Z.to_nat n) ds)), "".
    rewrite append_nil_r. split; [reflexivity |].
    split; [| split; [| constructor]].
    - split; [exact Ht |].
      rewrite Hds. destruct (Z.to_nat n) eqn:Hn; [lia |].
      cbn [JS.take]. rewrite Hc. discriminate.
    - constructor; [exact Hdr |].
      intros Hnil.
      assert (Hlen : String.length (JS.drop (Z.to_nat n) ds) = 0%nat)
        by (rewrite Hnil; reflexivity).
      rewrite length_drop in Hlen. unfold k in Hlt. lia. }
  destruct ((-6 <? n) && (n <=? 0)) eqn:H3.
  { exists "0", (String "." (JS.zeros (Z.to_nat (- n)) +++ ds)), "".
    rewrite append_nil_r. split; [reflexivity |].
    split; [| split; [| constructor]].
    - split; [reflexivity | reflexivity].
    - constructor.
      + rewrite all_digits_app, all_digits_zeros, Hd. reflexivity.
      + rewrite Hds. destruct (JS.zeros (Z.to_nat (- n))); discriminate. }
  set (e := n - 1).
  set (sgn := if e <? 0 then "-" else "+").
  set (ed := JS.decimal_of_pos (Z.to_pos (Z.abs e))).
  assert (Hex : exp_shape (String "e" (sgn +++ ed))).
  { destruct (decimal_of_pos_shape (Z.to_pos (Z.abs e)))
      as [Hed [c' [r' [Heds _]]]].
    constructor.
    - unfold sgn. destruct (e <? 0); auto.
    - exact Hed.
    - fold ed in Heds. rewrite Heds. discriminate. }
  assert (Hcd : is_digit c = true).
  { rewrite Hds in Hd. cbn [all_digits] in Hd.
    apply andb_true_iff in Hd. apply Hd. }
  assert (Hr : all_digits r = true).
  { rewrite Hds in Hd. cbn [all_digits] in Hd.
    apply andb_true_iff in Hd. apply Hd. }
  rewrite Hds. destruct r as [| c2 r2].
  - exists (String c ""), "", (String "e" (sgn +++ ed)).
    split; [reflexivity |].
    split; [| split; [constructor | exact Hex]].
    split; [cbn [all_digits]; rewrite Hcd; reflexivity | reflexivity].
  - exists (String c ""), (String "." (String c2 r2)),
      (String "e" (sgn +++ ed)).
    split.
    + reflexivity.
    + split; [| split; [| exact Hex]].
      * split; [cbn [all_digits]; rewrite Hcd; reflexivity | reflexivity].
      * constructor; [exact Hr | discriminate].
Qed.

(** Every finite number is written as one number token. *)
Lemma number_token_toString (x : JS.number) :
  is_finite x = true ->
  exists y, number_token (JS.Number_toString x) = Some (y, "").
Proof.
  destruct x as [s | s | | s m e]; try discriminate; intros _.
  - eexists. reflexivity.
  - unfold JS.Number_toString, JS.toString_finite.
    destruct (JS.shortest _ _ _ _ _ _) as [p t].
    destruct (layout_shape p
                (t + Z.of_nat (String.length (JS.decimal_of_pos p))))
      as [int [frac [ex [Heq [Hi [Hf Hx]]]]]].
    rewrite Heq.
    destruct (unsigned_token_shape true int frac ex Hi Hf Hx) as [y1 H1].
    destruct (unsigned_token_shape false int frac ex Hi Hf Hx) as [y0 H0].
    destruct (int_shape_head int Hi) as [c [r [-> Hc]]].
    destruct (is_digit_not_special c Hc) as [Hm _].
    destruct s.
    + exists y1. cbn [String.append number_token Ascii.eqb Bool.eqb].
      exact H1.
    + exists y0. cbn [String.append number_token]. rewrite Hm.
      exact H0.
Qed.

End NumberShapes.

Section Roundtrip.

Import Shape.

(** Induction on JSON values, through the lists they nest. *)
Lemma json_induction (P : json -> Prop) :
  P JNull ->
  (forall b, P (JBool b)) ->
  (forall n, P (JNumber n)) ->
  (forall s, P (JString s)) ->
  (forall items, Forall P items -> P (JArray items)) ->
  (forall members,
      Forall (fun kv => P (snd kv)) members -> P (JObject members)) ->
  forall v, P v.
Proof.
  intros Hnull Hbool Hnum Hstr Harr Hobj.
  fix IH 1. intros [| b | n | s | items | members].
  - exact Hnull.
  - apply Hbool.
  - apply Hnum.
  - apply Hstr.
  - apply Harr. induction items as [| x r IHr]; constructor.
    + apply IH.
    + exact IHr.
  - apply Hobj. induction members as [| [k x] r IHr]; constructor.
    + apply IH.
    + exact IHr.
Qed.

Lemma stringify_array (items : list json) :
  stringify (JArray items) = String "[" (elements_text items).
Proof.
  reflexivity.
Qed.

Lemma stringify_object (members : list (string * json)) :
  stringify (JObject members) = String "{" (properties_text members).
Proof.
  reflexivity.
Qed.

Lemma need_array (items : list json) :
  need (JArray items) = S (elements_need items).
Proof.
  reflexivity.
Qed.

Lemma need_object (members : list (string * json)) :
  need (JObject members) = S (properties_need members).
Proof.
  reflexivity.
Qed.

Lemma need_pos (v : json) : (1 <= need v)%nat.
Proof. destruct v; cbn [need]; lia. Qed.

Lemma number_token_head (s : string) (y : JS.number) (r : string) :
  number_token s = Some (y, r) ->
  exists c s', s = String c s'
               /\ (Ascii.eqb c "-" = true \/ is_digit c = true).
Proof.
  destruct s as [| c s']; [discriminate |]. intros H.
  exists c, s'. split; [reflexivity |].
  cbn [number_token] in H.
  destruct (Ascii.eqb c "-"); [left; reflexivity | right].
  unfold unsigned_token in H. cbn [JS.digits] in H. unfold is_digit.
  destruct (JS.digit_value c) as [d |].
  - destruct (d <? 10)%N; [reflexivity |].
    destruct (fraction_part 0 (String c s')) as [[[v fc] s3] fok].
    destruct (exponent_part s3) as [[ex s4] eok].
    cbn [leading_ok Nat.eqb negb] in H.
    destruct (Ascii.eqb c "0"); discriminate.
  - destruct (fraction_part 0 (String c s')) as [[[v fc] s3] fok].
    destruct (exponent_part s3) as [[ex s4] eok].
    cbn [leading_ok Nat.eqb negb] in H.
    destruct (Ascii.eqb c "0"); discriminate.
Qed.

(** The first character of a written value: what [JSON.value] branches
    on. *)
Lemma stringify_head (v : json) :
  exists c r, stringify v = String c r /\ value_head c = true.
Proof.
  destruct v as [| [] | n | s | items | members];
    try (eexists _, _; split; reflexivity).
  - cbn [stringify]. unfold stringify_number.
    destruct (is_finite n) eqn:Hf.
    + destruct (number_token_toString n Hf) as [y Hy].
      destruct (number_token_head _ _ _ Hy) as [c [s' [Hs Hc]]].
      exists c, s'. split; [exact Hs |]. unfold value_head.
      destruct Hc as [Hc | Hc]; rewrite Hc; btauto.
    + eexists _, _; split; reflexivity.
Qed.

Lemma value_head_facts (c : ascii) :
  value_head c = true ->
  is_ws c = false /\ Ascii.eqb c "]" = false /\ Ascii.eqb c "}" = false.
Proof.
  destruct c as [[] [] [] [] [] [] [] []]; intros H;
    try discriminate H; repeat split; reflexivity.
Qed.

Lemma skip_ws_delimited (rest : string) :
  delimited rest = true -> skip_ws rest = rest.
Proof.
  destruct rest as [| c r]; [reflexivity |]. cbn [delimited]. intros H.
  destruct (delimiter_cases c H) as [-> | [-> | ->]]; reflexivity.
Qed.

Lemma number_head_facts (c : ascii) :
  Ascii.eqb c "-" = true \/ is_digit c = true ->
  is_ws c = false
  /\ Ascii.eqb c "n" = false /\ Ascii.eqb c "t" = false
  /\ Ascii.eqb c "f" = false /\ Ascii.eqb c dquote = false
  /\ Ascii.eqb c "[" = false /\ Ascii.eqb c "{" = false.
Proof.
  destruct c as [[] [] [] [] [] [] [] []]; intros [H | H];
    try discriminate H; repeat split; reflexivity.
Qed.

Lemma value_number (n : JS.number) (fuel : nat) (rest : string) :
  is_finite n = true -> delimited rest = true ->
  value (S fuel) (JS.Number_toString n +++ rest)
  = match number_token (JS.Number_toString n) with
    | Some (y, _) => Some (JNumber y, rest)
    | None => None
    end.
Proof.
  intros Hf Hrest.
  destruct (number_token_toString n Hf) as [y Hy].
  pose proof (number_token_head _ _ _ Hy) as [c [s' [Hs Hc]]].
  assert (Hne : JS.Number_toString n <> "") by (rewrite Hs; discriminate).
  pose proof (number_token_ext (JS.Number_toString n) rest Hne Hrest) as Hx.
  rewrite Hy in Hx |- *. rewrite Hs in Hx |- *.
  cbn [String.append] in Hx |- *.
  destruct (number_head_facts c Hc) as [Hw [H1 [H2 [H3 [H4 [H5 H6]]]]]].
  cbn [value skip_ws]. rewrite Hw, H1, H2, H3, H4, H5, H6, Hx.
  reflexivity.
Qed.

End Roundtrip.

(** Decide the tests of the parser on literal characters. *)
Ltac literal_chars :=
  repeat
    (match goal with
     | |- context [is_ws (Ascii ?a ?b ?c ?d ?e ?f ?g ?h)] =>
         let t := constr:(is_ws (Ascii a b c d e f g h)) in
         let v := eval vm_compute in t in
         change t with v
     | |- context [Ascii.eqb (Ascii ?a ?b ?c ?d ?e ?f ?g ?h)
                     (Ascii ?a' ?b' ?c' ?d' ?e' ?f' ?g' ?h')] =>
         let t := constr:(Ascii.eqb (Ascii a b c d e f g h)
                            (Ascii a' b' c' d' e' f' g' h')) in
         let v := eval vm_compute in t in
         change t with v
     end;
     cbv iota).

Section RoundtripValues.

Import Shape.

Lemma elements_read (items : list json) :
  Forall reads_back items -> items <> [] ->
  forall (fuel : nat) (rest : string),
    (elements_need items <= fuel)%nat -> delimited rest = true ->
    elements fuel (elements_text items +++ rest)
    = Some (map reread items, rest).
Proof.
  induction items as [| x r IH]; intros Hall Hne fuel rest Hfuel Hrest;
    [congruence |].
  inversion Hall as [| ? ? Hx Hr]; subst.
  cbn [elements_need] in Hfuel.
  destruct fuel as [| f]; [lia |].
  destruct r as [| x2 r'].
  - cbn [elements_text elements map]. rewrite append_assoc.
    rewrite (Hx f ("]" +++ rest)) by (try reflexivity; lia).
    reflexivity.
  - change (elements_text (x :: x2 :: r'))
      with (stringify x +++ "," +++ elements_text (x2 :: r')).
    cbn [elements map]. rewrite !append_assoc.
    rewrite (Hx f ("," +++ elements_text (x2 :: r') +++ rest))
      by (try reflexivity; lia).
    cbn [String.append skip_ws]. literal_chars.
    rewrite (IH Hr) by (try discriminate; try assumption; lia).
    reflexivity.
Qed.

Lemma properties_read (members : list (string * json)) :
  Forall (fun kv => reads_back (snd kv)) members -> members <> [] ->
  forall (fuel : nat) (rest : string),
    (properties_need members <= fuel)%nat -> delimited rest = true ->
    JSON.members fuel (properties_text members +++ rest)
    = Some (map (fun kv => (fst kv, reread (snd kv))) members, rest).
Proof.
  induction members as [| [k x] r IH];
    intros Hall Hne fuel rest Hfuel Hrest; [congruence |].
  inversion Hall as [| ? ? Hx Hr]; subst. cbn [snd] in Hx.
  cbn [properties_need snd] in Hfuel.
  destruct fuel as [| f]; [lia |].
  destruct r as [| [k2 x2] r'].
  - cbn [properties_text JSON.members map fst snd].
    destruct (string_body_quote k (":" +++ stringify x +++ "}" +++ rest))
      as [body [Hq Hb]].
    rewrite !append_assoc. rewrite Hq.
    cbn [skip_ws]. unfold dquote. literal_chars. rewrite Hb.
    cbn [String.append skip_ws]. literal_chars.
    rewrite (Hx f (String "}" rest)) by (try reflexivity; lia).
    reflexivity.
  - change (properties_text ((k, x) :: (k2, x2) :: r'))
      with (quote k +++ ":" +++ stringify x +++ ","
            +++ properties_text ((k2, x2) :: r')).
    cbn [JSON.members map fst snd].
    destruct (string_body_quote k
                (":" +++ stringify x +++ ","
                 +++ properties_text ((k2, x2) :: r') +++ rest))
      as [body [Hq Hb]].
    rewrite !append_assoc. rewrite Hq.
    cbn [skip_ws]. unfold dquote. literal_chars. rewrite Hb.
    cbn [String.append skip_ws]. literal_chars.
    rewrite (Hx f (String "," (properties_text ((k2, x2) :: r') +++ rest)))
      by (try reflexivity; lia).
    cbn [String.append skip_ws]. literal_chars.
    rewrite (IH Hr) by (try discriminate; try assumption; lia).
    reflexivity.
Qed.

Lemma value_stringify (v : json) : reads_back v.
Proof.
  induction v as [| b | n | s | items IH | members IH]
    using json_induction; intros fuel rest Hfuel Hrest.
  - destruct fuel; [cbn in Hfuel; lia | reflexivity].
  - destruct fuel; [cbn in Hfuel; lia |]. destruct b; reflexivity.
  - destruct fuel; [cbn in Hfuel; lia |].
    cbn [stringify reread]. unfold stringify_number.
    destruct (is_finite n) eqn:Hf.
    + rewrite value_number by assumption.
      destruct (number_token_toString n Hf) as [y Hy]. rewrite Hy.
      reflexivity.
    + reflexivity.
  - destruct fuel; [cbn in Hfuel; lia |].
    cbn [stringify reread].
    destruct (string_body_quote s rest) as [body [Hq Hb]].
    rewrite Hq. cbn [value skip_ws]. unfold dquote. literal_chars.
    rewrite Hb. reflexivity.
  - rewrite need_array in Hfuel. rewrite stringify_array.
    destruct fuel as [| f]; [lia |].
    cbn [String.append value skip_ws reread]. unfold dquote.
    literal_chars.
    destruct items as [| x r].
    + reflexivity.
    + destruct (stringify_head x) as [c [t [Hs Hc]]].
      destruct (value_head_facts c Hc) as [Hw [Hb _]].
      assert (Hskip : exists t',
                 elements_text (x :: r) +++ rest = String c t').
      { destruct r; cbn [elements_text]; rewrite Hs;
          eexists; reflexivity. }
      destruct Hskip as [t' Ht].
      rewrite (elements_read (x :: r) IH) by (try discriminate;
        try assumption; lia).
      rewrite Ht. cbn [skip_ws]. rewrite Hw, Hb. reflexivity.
  - rewrite need_object in Hfuel. rewrite stringify_object.
    destruct fuel as [| f]; [lia |].
    cbn [String.append value skip_ws reread]. unfold dquote.
    literal_chars.
    destruct members as [| [k x] r].
    + reflexivity.
    + assert (Hskip : exists t',
                 properties_text ((k, x) :: r) +++ rest
                 = String dquote t').
      { destruct r as [| [k2 x2] r']; cbn [properties_text]; unfold quote;
          eexists; reflexivity. }
      destruct Hskip as [t' Ht].
      rewrite (properties_read ((k, x) :: r) IH) by (try discriminate;
        try assumption; lia).
      rewrite Ht. reflexivity.
Qed.

Lemma length_stringify_pos (v : json) :
  (1 <= String.length (stringify v))%nat.
Proof.
  destruct (stringify_head v) as [c [r [H _]]]. rewrite H. simpl. lia.
Qed.

Lemma need_le_length (v : json) :
  (need v <= String.length (stringify v))%nat.
Proof.
  induction v as [| b | n | s | items IH | members IH]
    using json_induction;
    try (apply length_stringify_pos).
  - rewrite need_array, stringify_array. cbn [String.length].
    apply le_n_S.
    induction IH as [| x r Hx Hr IHr]; [cbn; lia |].
    cbn [elements_need].
    destruct r as [| x2 r'].
    + cbn [elements_text elements_need]. rewrite length_append.
      cbn [String.length]. lia.
    + change (elements_text (x :: x2 :: r'))
        with (stringify x +++ "," +++ elements_text (x2 :: r')).
      rewrite !length_append. cbn [String.length]. lia.
  - rewrite need_object, stringify_object. cbn [String.length].
    apply le_n_S.
    induction IH as [| [k x] r Hx Hr IHr]; [cbn; lia |].
    cbn [properties_need snd] in *.
    destruct r as [| [k2 x2] r'].
    + cbn [properties_text properties_need]. rewrite !length_append.
      cbn [String.length]. lia.
    + change (properties_text ((k, x) :: (k2, x2) :: r'))
        with (quote k +++ ":" +++ stringify x +++ ","
              +++ properties_text ((k2, x2) :: r')).
      rewrite !length_append. cbn [String.length]. lia.
Qed.

(** [JSON.parse(JSON.stringify(v))] succeeds, with the value read
    back. *)
Lemma parse_stringify (v : json) : parse (stringify v) = Some (reread v).
Proof.
  unfold parse.
  rewrite <- (append_nil_r (stringify v)) at 2.
  rewrite (value_stringify v) by
    (try reflexivity; pose proof (need_le_length v); lia).
  reflexivity.
Qed.

End RoundtripValues.

(* ===================================================================== *)
(** * The container that a run writes                                      *)
(* ===================================================================== *)

Section Container.

Import Buffer ColladaConvert Layout Run.

Lemma byte_of_Z_value (z : Z) :
  Z.of_N (N_of_ascii (ascii_of_byte (Buffer.byte_of_Z z))) = z mod 256.
Proof.
  unfold Buffer.byte_of_Z. rewrite ascii_of_byte_of_ascii.
  assert (H : 0 <= z mod 256 < 256) by (apply Z.mod_pos_bound; lia).
  rewrite N_ascii_embedding by lia. lia.
Qed.

(** Reading the four bytes written by [writeUInt32BE] gives the value
    back. *)
Lemma readUIntBE_be_bytes (v : Z) :
  0 <= v <= 4294967295 -> readUIntBE (be_bytes 4 v) = v.
Proof.
  intros H. unfold readUIntBE. cbn [be_bytes fold_left].
  rewrite !byte_of_Z_value.
  change (8 * Z.of_nat 3) with 24. change (8 * Z.of_nat 2) with 16.
  change (8 * Z.of_nat 1) with 8. change (8 * Z.of_nat 0) with 0.
  rewrite !Z.shiftr_div_pow2 by lia.
  change (2 ^ 24) with 16777216. change (2 ^ 16) with 65536.
  change (2 ^ 8) with 256. change (2 ^ 0) with 1.
  Z.div_mod_to_equations. lia.
Qed.

Lemma string_of_bytes_of_string (s : string) :
  string_of_bytes (bytes_of_string s) = s.
Proof.
  unfold string_of_bytes, bytes_of_string. rewrite map_map.
  rewrite (map_ext _ (fun a => a)) by (intros a; apply ascii_of_byte_of_ascii).
  rewrite map_id. apply string_of_list_ascii_of_string.
Qed.

Lemma firstn_app_exact {A} (a b : list A) (n : nat) :
  length a = n -> firstn n (a ++ b) = a.
Proof.
  intros <-. rewrite firstn_app, Nat.sub_diag, firstn_O, app_nil_r.
  apply firstn_all.
Qed.

Lemma skipn_app_exact {A} (a b : list A) (n : nat) :
  length a = n -> skipn n (a ++ b) = b.
Proof.
  intros <-. rewrite skipn_app, Nat.sub_diag, skipn_O, skipn_all.
  reflexivity.
Qed.

(** Header, payload and padding are read back as header and the rest. *)
Lemma read_container_layout (self : ColladaConvert.t) (rest : list byte) :
  Z.of_nat (jsonLength self) <= 4294967295 ->
  read_container (header self ++ rest) = Some (jsonString self, rest).
Proof.
  intros Hlen. unfold read_container, header.
  pose proof (length_be_bytes 4 (Z.of_nat (jsonLength self))) as H4.
  pose proof (length_bytes_of_string (jsonString self)) as Hjs.
  change (String.length (jsonString self)) with (jsonLength self) in Hjs.
  assert (Hr : 0 <= Z.of_nat (jsonLength self) <= 4294967295) by lia.
  rewrite <- app_assoc.
  rewrite (firstn_app_exact _ _ 4 H4).
  rewrite (skipn_app_exact _ _ 4 H4).
  rewrite (readUIntBE_be_bytes _ Hr), Nat2Z.id.
  rewrite (proj2 (Nat.leb_le _ _)) by (rewrite !length_app; lia).
  rewrite (firstn_app_exact _ rest _ Hjs).
  rewrite string_of_bytes_of_string.
  rewrite app_assoc.
  rewrite skipn_app_exact by (rewrite length_app; lia).
  reflexivity.
Qed.

(** *** The header object *)

Lemma get_own_reread (members : list (string * json)) (key : string) :
  JS.get_own (map (fun kv => (fst kv, reread (snd kv))) members) key
  = option_map reread (JS.get_own members key).
Proof.
  induction members as [| [k v] r IH]; [reflexivity |].
  cbn [map JS.get_own fst snd]. destruct (String.eqb k key);
    [reflexivity | exact IH].
Qed.

(** The header text parses as a JSON object with the members of
    [jsonData] that are defined, read back. *)
Lemma parse_jsonString (self : ColladaConvert.t) :
  JSON.parse (jsonString self)
  = Some (JObject (map (fun kv => (fst kv, reread (snd kv)))
                     (defined_members (jsonData self)))).
Proof. unfold jsonString, ColladaConvert.stringify_object.
       apply parse_stringify. Qed.

(** The members of the header, by flag and producer. *)
Lemma header_members (self : ColladaConvert.t) :
  defined_members (jsonData self)
  = (if includeGeometry (config self)
     then member "geometry" (geometry_getJSON (colladaGeometry self))
     else [])
    ++ member "lights" (ColladaLighting.getJSON (colladaLighting self))
    ++ (if includeHierarchy (config self)
        then member "hierarchy" (hierarchy self) else [])
    ++ (if collects self
        then member "animation" (animation_getJSON (colladaAnimation self))
        else []).
Proof.
  unfold jsonData.
  destruct (includeGeometry (config self)),
    (includeHierarchy (config self)), (collects self),
    (geometry_getJSON (colladaGeometry self)),
    (ColladaLighting.getJSON (colladaLighting self)),
    (hierarchy self), (animation_getJSON (colladaAnimation self));
    reflexivity.
Qed.

(** *** Runs *)

Variable prepareForExport : ColladaGeometry -> ColladaGeometry.

Lemma run_Ok (self : ColladaConvert.t) (outputFile : string)
    (tr : list event) (w : written) (s' : state) :
  writeData prepareForExport outputFile {| this := self; trace := tr |}
  = (Ok w, s') ->
  encode (prepared prepareForExport self) = Ok (output w, finalOffset w)
  /\ bufferSize w = allocated (prepared prepareForExport self)
  /\ this s' = prepared prepareForExport self
  /\ trace s' = tr ++ events_before self outputFile
                   ++ [StreamWrite (output w); StreamEnd].
Proof.
  rewrite writeData_eq.
  destruct (encode (prepared prepareForExport self)) as [[b o] | e];
    intros H; inversion H; subst; cbn; auto.
Qed.

Lemma run_Throw (self : ColladaConvert.t) (outputFile : string)
    (tr : list event) (e : error) (s' : state) :
  writeData prepareForExport outputFile {| this := self; trace := tr |}
  = (Throw e, s') ->
  encode (prepared prepareForExport self) = Throw e
  /\ this s' = prepared prepareForExport self
  /\ trace s' = tr ++ events_before self outputFile.
Proof.
  rewrite writeData_eq.
  destruct (encode (prepared prepareForExport self)) as [[b o] | e'];
    intros H; inversion H; subst; cbn; auto.
Qed.

Lemma flushed_app (t1 t2 : list event) :
  flushed (t1 ++ t2) = flushed t1 ++ flushed t2.
Proof. unfold flushed. apply flat_map_app. Qed.

Lemma flushed_events_before (self : ColladaConvert.t) (outputFile : string) :
  flushed (events_before self outputFile) = [].
Proof.
  unfold events_before.
  destruct (includeGeometry (config self)), (includeBinary (config self));
    reflexivity.
Qed.

(** The file that a completed run leaves: header, payload, and the bytes
    of the buffer that no write reached. *)
Lemma run_layout (self : ColladaConvert.t) (outputFile : string)
    (tr : list event) (w : written) (s' : state) :
  writeData prepareForExport outputFile {| this := self; trace := tr |}
  = (Ok w, s') ->
  let p := prepared prepareForExport self in
  Z.of_nat (jsonLength p) <= 4294967295
  /\ finalOffset w = (length (header p) + length (payload p))%nat
  /\ (finalOffset w <= bufferSize w)%nat
  /\ output w
     = header p ++ payload p ++ repeat x00 (bufferSize w - finalOffset w)
  /\ length (output w) = bufferSize w
  /\ flushed (trace s') = flushed tr ++ output w.
Proof.
  intros H p. destruct (run_Ok _ _ _ _ _ H) as [He [Hs [_ Ht]]].
  fold p in He, Hs. destruct (encode_inv _ _ _ He) as [Hl [_ [Ho [Hle Hb]]]].
  rewrite Hs. repeat split; try assumption.
  - rewrite Hb at 1. rewrite !length_app, repeat_length. lia.
  - rewrite Ht, !flushed_app, flushed_events_before. cbn.
    rewrite app_nil_r. reflexivity.
Qed.

End Container.

(* ===================================================================== *)
(** * Light extraction                                                     *)
(* ===================================================================== *)

Section Lighting.

Import ColladaLighting Claims.

Lemma light_data_None (l : light_node) :
  light_data l = None <-> has_technique l = false.
Proof.
  unfold light_data, has_technique.
  destruct (point l), (spot l); split; intros H;
    try reflexivity; discriminate.
Qed.

Lemma light_data_nonempty (l : light_node) (data : JS.object json) :
  light_data l = Some data -> data <> [].
Proof.
  unfold light_data.
  destruct (point l), (spot l); intros H; inversion H; discriminate.
Qed.

(** A light with neither technique leaves the mapping as it is. *)
Lemma add_light_skipped (lights : lights_object) (l : light_node) :
  has_technique l = false -> add_light lights l = lights.
Proof.
  intros H. unfold add_light.
  rewrite (proj2 (light_data_None l) H). reflexivity.
Qed.

Lemma addLights_without (lights : lights_object)
    (pre post : list light_node) (l : light_node) :
  has_technique l = false ->
  addLights lights (Some (pre ++ l :: post))
  = addLights lights (Some (pre ++ post)).
Proof.
  intros H. unfold addLights. rewrite !fold_left_app. cbn [fold_left].
  rewrite add_light_skipped by exact H. reflexivity.
Qed.

Lemma length_insert_index {V} (i : N) (p : string * V)
    (l : list (N * (string * V))) :
  length (JS.insert_index i p l) = S (length l).
Proof.
  induction l as [| [j q] r IH]; [reflexivity |].
  cbn [JS.insert_index]. destruct (i <? j)%N; cbn [length]; congruence.
Qed.

(** Enumeration reorders the properties, it loses none. *)
Lemma length_own_properties {V} (o : JS.object V) :
  length (JS.own_properties o) = length o.
Proof.
  unfold JS.own_properties. rewrite length_app, length_map.
  induction o as [| p r IH]; [reflexivity |].
  cbn [fold_right filter].
  destruct (JS.array_index (fst p)); cbn [length].
  - rewrite length_insert_index. lia.
  - lia.
Qed.

Lemma own_properties_nil {V} (o : JS.object V) :
  JS.own_properties o = [] <-> o = [].
Proof.
  split; intros H.
  - apply length_zero_iff_nil. rewrite <- length_own_properties, H.
    reflexivity.
  - subst. reflexivity.
Qed.

Lemma set_own_nonempty {V} (o : JS.object V) (k : string) (v : V) :
  JS.set_own o k v <> [].
Proof.
  destruct o as [| [k' w] r]; cbn [JS.set_own]; [discriminate |].
  destruct (String.eqb k' k); discriminate.
Qed.

Lemma populated_enumerate (lights : lights_object) :
  populated lights -> enumerate lights <> [].
Proof.
  intros [H | [data [Hp Hd]]] He; unfold enumerate in He;
    apply app_eq_nil in He; destruct He as [He1 He2].
  - apply map_eq_nil in He1. apply (proj1 (own_properties_nil _)) in He1. contradiction.
  - apply map_eq_nil in He1. apply (proj1 (own_properties_nil _)) in He1.
    rewrite Hp, He1 in He2. cbn [JS.get_own] in He2.
    apply map_eq_nil in He2.
    rewrite forallb_filter_id in He2
      by (apply forallb_forall; reflexivity).
    apply (proj1 (own_properties_nil _)) in He2. contradiction.
Qed.

Lemma add_light_populated (lights : lights_object) (l : light_node) :
  has_technique l = true \/ populated lights ->
  populated (add_light lights l).
Proof.
  intros H. unfold add_light.
  destruct (light_data l) as [data |] eqn:Hd.
  - unfold assign. destruct (String.eqb (id l) "__proto__").
    + right. exists data. split; [reflexivity |].
      apply (light_data_nonempty l). exact Hd.
    + left. cbn [own]. apply set_own_nonempty.
  - destruct H as [H | H]; [| exact H].
    apply light_data_None in Hd. congruence.
Qed.

Lemma fold_add_light_populated (ls : list light_node) :
  forall lights,
    populated lights -> populated (fold_left add_light ls lights).
Proof.
  induction ls as [| l r IH]; intros lights H; [exact H |].
  cbn [fold_left]. apply IH. apply add_light_populated. right. exact H.
Qed.

Lemma fold_add_light_skipped (ls : list light_node) :
  forall lights,
    forallb (fun l => negb (has_technique l)) ls = true ->
    fold_left add_light ls lights = lights.
Proof.
  induction ls as [| l r IH]; intros lights H; [reflexivity |].
  cbn [forallb] in H. apply andb_true_iff in H. destruct H as [Hl Hr].
  cbn [fold_left]. rewrite add_light_skipped
    by (apply negb_true_iff; exact Hl).
  apply IH. exact Hr.
Qed.

Lemma fold_add_light_some (ls : list light_node) :
  forall lights,
    existsb has_technique ls = true ->
    populated (fold_left add_light ls lights).
Proof.
  induction ls as [| l r IH]; intros lights H; [discriminate |].
  cbn [existsb] in H. cbn [fold_left].
  destruct (has_technique l) eqn:Hl.
  - apply fold_add_light_populated. apply add_light_populated.
    left. exact Hl.
  - rewrite add_light_skipped by exact Hl. apply IH. exact H.
Qed.

(** The mapping built from a library enumerates nothing exactly when no
    light of the library has a point or spot technique. *)
Lemma enumerate_new
    (library_lights : option (option (list light_node))) :
  enumerate (new library_lights) = []
  <-> existsb has_technique (lights_of library_lights) = false.
Proof.
  destruct library_lights as [[ls |] |]; cbn [new addLights lights_of];
    try (split; reflexivity).
  destruct (existsb has_technique ls) eqn:He.
  - split; [| discriminate]. intros H.
    apply (populated_enumerate _ (fold_add_light_some ls empty He)) in H.
    contradiction.
  - split; [reflexivity |]. intros _.
    rewrite fold_add_light_skipped; [reflexivity |].
    apply forallb_forall. intros l Hl. apply negb_true_iff.
    destruct (has_technique l) eqn:Hh; [| reflexivity].
    assert (existsb has_technique ls = true)
      by (apply existsb_exists; exists l; auto).
    congruence.
Qed.

Lemma getJSON_None (lights : lights_object) :
  getJSON lights = None <-> enumerate lights = [].
Proof.
  unfold getJSON. destruct (enumerate lights); split; intros H;
    try reflexivity; discriminate.
Qed.

(** The spot light of the scenario, under an ordinary property key. *)
Lemma getJSON_spot (key : string) :
  key <> "__proto__" ->
  getJSON (new (Examples.spot_library key))
  = Some (JArray [Examples.spot_record key]).
Proof.
  intros Hk. apply String.eqb_neq in Hk.
  unfold Examples.spot_library, new, addLights. cbn [fold_left].
  unfold add_light, light_data.
  cbn [point spot id spot_color falloff_angle JS.set_own String.eqb
       Ascii.eqb Bool.eqb].
  unfold assign. cbn [id]. rewrite Hk.
  unfold getJSON, enumerate, JS.own_properties.
  cbn [own proto empty JS.set_own fold_right filter fst snd map app].
  assert (Hc : parse_color "255 0 0"
               = JArray [JNumber (Examples.num 255);
                         JNumber (Examples.num 0);
                         JNumber (Examples.num 0)])
    by (vm_compute; reflexivity).
  assert (Ha : JS.parseFloat "45.0" = Examples.num 45)
    by (vm_compute; reflexivity).
  rewrite Hc, Ha.
  destruct (JS.array_index key); reflexivity.
Qed.

End Lighting.

(* ===================================================================== *)
(** * The resolved configuration                                           *)
(* ===================================================================== *)

Section Configuration.

Import ColladaConvert.

Lemma override_eq (opts : JS.object JS.value) (name : string) (flag : bool) :
  override opts name flag = flag && negb (JS.is_false (JS.get opts name)).
Proof.
  unfold override. destruct (JS.is_false (JS.get opts name)), flag;
    reflexivity.
Qed.

End Configuration.

(* ===================================================================== *)
(** * The claims                                                           *)
(* ===================================================================== *)

Section RunFacts.

Import Buffer ColladaConvert Layout Run Claims.

Variable prepareForExport : ColladaGeometry -> ColladaGeometry.

Lemma config_prepared (self : ColladaConvert.t) :
  config (prepared prepareForExport self) = config self.
Proof.
  unfold prepared. destruct (includeGeometry (config self)); reflexivity.
Qed.

Lemma lighting_prepared (self : ColladaConvert.t) :
  colladaLighting (prepared prepareForExport self) = colladaLighting self.
Proof.
  unfold prepared. destruct (includeGeometry (config self)); reflexivity.
Qed.

Lemma prepared_without_geometry (self : ColladaConvert.t) :
  includeGeometry (config self) = false ->
  prepared prepareForExport self = self.
Proof. intros H. unfold prepared. rewrite H. reflexivity. Qed.

Lemma length_geometry_bytes (geometryData : list segment) :
  length (geometry_bytes geometryData)
  = list_sum (map (fun seg => (length (indices seg) * 2
                               + length (vertices seg) * 4)%nat)
                geometryData).
Proof.
  unfold geometry_bytes.
  induction geometryData as [| seg r IH]; [reflexivity |].
  cbn [flat_map map list_sum fold_right].
  rewrite length_app, length_segment_bytes, IH. reflexivity.
Qed.

Lemma animation_bytes_map (f : string -> list JS.number)
    (names : list string) :
  animation_bytes (map f names)
  = flat_map (fun name => float32_bytes (f name)) names.
Proof.
  unfold animation_bytes.
  induction names as [| n r IH]; [reflexivity |].
  cbn [map flat_map]. rewrite IH. reflexivity.
Qed.

Lemma length_animation_sequences (a : ColladaAnimation) :
  length (animation_sequences a)
  = (4 * list_sum (map (fun name => length (getAnimationData a name))
                     (animationOrder a)))%nat.
Proof.
  unfold animation_sequences.
  induction (animationOrder a) as [| n r IH]; [reflexivity |].
  cbn [map flat_map].
  rewrite length_app, length_float32_bytes, IH.
  unfold list_sum. cbn [fold_right]. lia.
Qed.

Lemma animation_bytes_collected (self : ColladaConvert.t) :
  collects self = true ->
  animation_bytes (animationData self)
  = animation_sequences (colladaAnimation self).
Proof.
  intros H. unfold animationData. rewrite H. apply animation_bytes_map.
Qed.

Lemma animation_bytes_not_collected (self : ColladaConvert.t) :
  collects self = false -> animation_bytes (animationData self) = [].
Proof. intros H. unfold animationData. rewrite H. reflexivity. Qed.

(** A run completes when the header length fits 32 bits, every index is
    an unsigned 16-bit value, and header and payload fit the allocated
    size. *)
Lemma run_completes (self : ColladaConvert.t) (outputFile : string)
    (tr : list event) :
  let p := prepared prepareForExport self in
  Z.of_nat (jsonLength p) <= 4294967295 ->
  (includeBinary (config p) = true ->
   Forall (fun v => 0 <= v <= 65535)
     (all_indices (geometryData (colladaGeometry p)))) ->
  (length (header p) + length (payload p) <= allocated p)%nat ->
  exists w s',
    writeData prepareForExport outputFile {| this := self; trace := tr |}
    = (Ok w, s')
    /\ bufferSize w = allocated p
    /\ finalOffset w = (length (header p) + length (payload p))%nat
    /\ output w
       = header p ++ payload p
         ++ repeat x00 (allocated p
                        - (length (header p) + length (payload p))).
Proof.
  intros p Hlen Hidx Hfit. rewrite writeData_eq. fold p.
  rewrite encode_eq; try assumption.
  2:{ intros Hb. apply first_bad_None. apply Hidx. exact Hb. }
  rewrite (proj2 (Nat.leb_le _ _)) by exact Hfit.
  eexists _, _. split; [reflexivity |]. cbn. auto.
Qed.

(** A run on a geometry with an index outside the unsigned 16-bit range
    throws, when the payload is enabled, and hands nothing to the
    stream. *)
Lemma run_rejects (self : ColladaConvert.t) (outputFile : string)
    (tr : list event) (v : Z) :
  let p := prepared prepareForExport self in
  includeBinary (config p) = true ->
  first_bad (all_indices (geometryData (colladaGeometry p))) = Some v ->
  exists e s',
    writeData prepareForExport outputFile {| this := self; trace := tr |}
    = (Throw e, s')
    /\ flushed (trace s') = flushed tr
    /\ (Z.of_nat (jsonLength p) <= 4294967295 ->
        (length (header p)
         + length (geometry_bytes (geometryData (colladaGeometry p)))
         <= allocated p)%nat ->
        e = ERR_OUT_OF_RANGE v).
Proof.
  intros p Hbin Hbad. rewrite writeData_eq. fold p.
  destruct (encode_bad p v Hbin Hbad) as [[e He] H2].
  rewrite He. eexists _, _. split; [reflexivity |]. cbn [trace]. split.
  - rewrite flushed_app, flushed_events_before, app_nil_r. reflexivity.
  - intros Hlen Hfit. specialize (H2 Hlen Hfit). congruence.
Qed.

Lemma trace_of_run (self : ColladaConvert.t) (outputFile : string)
    (tr : list event) :
  exists tail,
    trace (snd (writeData prepareForExport outputFile
                  {| this := self; trace := tr |}))
    = tr ++ events_before self outputFile ++ tail
    /\ (tail = [] \/ exists b, tail = [StreamWrite b; StreamEnd]).
Proof.
  rewrite writeData_eq.
  destruct (encode (prepared prepareForExport self)) as [[b o] | e].
  - exists [StreamWrite b; StreamEnd]. split; [reflexivity |].
    right. exists b. reflexivity.
  - exists []. rewrite app_nil_r. split; [reflexivity | left; reflexivity].
Qed.

End RunFacts.

Section ClaimsOfTheEncoder.

Import Buffer ColladaConvert Layout Run Claims.

Variable prepareForExport : ColladaGeometry -> ColladaGeometry.

(** C1. The file that a run writes begins with the byte length of the
    UTF-8 JSON header, as a 4-byte big-endian unsigned integer, and the
    header follows immediately: reading 4 bytes and then exactly that
    many bytes gives the text of [JSON.stringify(jsonData)], which
    [JSON.parse] accepts as an object.  The file is the buffer handed to
    the stream. *)
Theorem C1_header_length_prefix (self : ColladaConvert.t)
    (outputFile : string) (tr : list event) (w : written) (s' : state) :
  writeData prepareForExport outputFile {| this := self; trace := tr |}
  = (Ok w, s') ->
  let p := prepared prepareForExport self in
  let n := readUIntBE (firstn 4 (output w)) in
  n = Z.of_nat (Buffer.byteLength (jsonString p))
  /\ firstn (Z.to_nat n) (skipn 4 (output w))
     = Buffer.bytes_of_string (jsonString p)
  /\ (exists text rest members,
        read_container (output w) = Some (text, rest)
        /\ text = jsonString p
        /\ JSON.parse text = Some (JObject members))
  /\ flushed (trace s') = flushed tr ++ output w.
Proof.
  intros H p n.
  destruct (run_layout prepareForExport _ _ _ _ _ H)
    as [Hlen [_ [_ [Hout [_ Hfl]]]]].
  fold p in Hlen, Hout.
  pose proof (read_container_layout p
                (payload p ++ repeat x00 (bufferSize w - finalOffset w))
                Hlen) as Hread.
  rewrite <- Hout in Hread.
  pose proof (length_be_bytes 4 (Z.of_nat (jsonLength p))) as H4.
  assert (Hn : n = Z.of_nat (jsonLength p)).
  { unfold n. rewrite Hout. unfold header. rewrite <- app_assoc.
    rewrite (firstn_app_exact _ _ 4 H4).
    apply readUIntBE_be_bytes. lia. }
  split; [exact Hn |]. split.
  - rewrite Hn, Nat2Z.id, Hout. unfold header. rewrite <- app_assoc.
    rewrite (skipn_app_exact _ _ 4 H4).
    apply firstn_app_exact. apply length_bytes_of_string.
  - split; [| exact Hfl].
    exists (jsonString p), (payload p
                            ++ repeat x00 (bufferSize w - finalOffset w)).
    eexists. split; [exact Hread |]. split; [reflexivity |].
    apply parse_jsonString.
Qed.

(** C2, as amended.  The buffer of a run is allocated with size exactly
    4 + headerLength + (geometry byteSize + animation byteSize if
    includeBinary, else 0), and it is the buffer handed to the stream,
    of that size.  Assuming the byteSize invariants of the two producers
    and, when includeBinary is set, that the animation sequences are
    collected (includeAnimation and hasAnimation) or that the animation
    byteSize is 0, a run whose header length fits 32 bits and whose
    indices are unsigned 16-bit values completes, and its writes fill
    the buffer exactly: the cursor ends at the size, and the buffer is
    the header followed by the payload. *)
Theorem C2_buffer_filled_exactly (self : ColladaConvert.t)
    (outputFile : string) (tr : list event) :
  let p := prepared prepareForExport self in
  let result :=
    writeData prepareForExport outputFile {| this := self; trace := tr |} in
  (forall w s',
      result = (Ok w, s') ->
      bufferSize w
      = (4 + jsonLength p
         + (if includeBinary (config p)
            then geometry_byteSize (colladaGeometry p)
                 + animation_byteSize (colladaAnimation p)
            else 0))%nat
      /\ length (output w) = bufferSize w)
  /\ (geometry_invariant (colladaGeometry p) ->
      animation_invariant (colladaAnimation p) ->
      (includeBinary (config p) = true ->
       collects p = true \/ animation_byteSize (colladaAnimation p) = 0%nat) ->
      Z.of_nat (jsonLength p) <= 4294967295 ->
      Forall (fun v => 0 <= v <= 65535)
        (all_indices (geometryData (colladaGeometry p))) ->
      exists w s',
        result = (Ok w, s')
        /\ fills_exactly w
        /\ output w = header p ++ payload p).
Proof.
  intros p result. split.
  - intros w s' H.
    destruct (run_Ok prepareForExport _ _ _ _ _ H) as [_ [Hs _]].
    destruct (run_layout prepareForExport _ _ _ _ _ H)
      as [_ [_ [_ [_ [Hl _]]]]].
    fold p in Hs. split; [rewrite Hs; apply allocated_eq | exact Hl].
  - intros Hg Ha Hc Hlen Hidx.
    assert (Hfit : (length (header p) + length (payload p)
                    = allocated p)%nat).
    { rewrite length_header. unfold payload, allocated.
      destruct (includeBinary (config p)) eqn:Hbin; [| cbn; lia].
      rewrite length_app, length_geometry_bytes.
      unfold geometry_invariant in Hg. rewrite <- Hg.
      destruct (collects p) eqn:Hcol.
      - rewrite animation_bytes_collected by exact Hcol.
        rewrite length_animation_sequences.
        unfold animation_invariant in Ha. rewrite <- Ha. lia.
      - rewrite animation_bytes_not_collected by exact Hcol.
        destruct (Hc eq_refl) as [Hx | Hx]; [discriminate |].
        rewrite Hx. cbn [length]. lia. }
    destruct (run_completes prepareForExport self outputFile tr Hlen
                (fun _ => Hidx))
      as [w [s' [Hr [Hb [Ho Hout]]]]]; [fold p; lia |].
    exists w, s'. fold p in Hb, Ho, Hout. split; [exact Hr |]. split.
    + unfold fills_exactly. rewrite Hb, Ho. exact Hfit.
    + rewrite Hout, Hfit, Nat.sub_diag. cbn [repeat].
      rewrite app_nil_r. reflexivity.
Qed.

(** C3, as amended.  In a run with includeGeometry set, the finalization
    step of the geometry producer is invoked exactly once, right after
    the stream is created and before the summary is extracted and the
    byte size is read.  In a run with includeGeometry clear it is never
    invoked, and the byte size is still read whenever includeBinary is
    set. *)
Theorem C3_finalization_follows_includeGeometry (self : ColladaConvert.t)
    (outputFile : string) :
  let tr :=
    trace (snd (writeData prepareForExport outputFile
                  {| this := self; trace := [] |})) in
  (includeGeometry (config self) = true ->
   count_prepares tr = 1%nat
   /\ finalized_once tr
   /\ exists rest,
        tr = CreateWriteStream outputFile :: PrepareForExport
             :: GeometryGetJSON :: rest
        /\ count_prepares rest = 0%nat)
  /\ (includeGeometry (config self) = false ->
      count_prepares tr = 0%nat
      /\ (includeBinary (config self) = true ->
          prepares_before_size tr = Some 0%nat)
      /\ (includeBinary (config self) = false ->
          prepares_before_size tr = None)).
Proof.
  intros tr.
  destruct (trace_of_run prepareForExport self outputFile [])
    as [tail [Ht Htail]].
  fold tr in Ht. cbn [app] in Ht. unfold events_before in Ht.
  split; intros Hg; rewrite Hg in Ht;
    destruct (includeBinary (config self));
    destruct Htail as [-> | [b ->]]; rewrite Ht;
    repeat split; try reflexivity;
    try (intros n Hn; cbn in Hn; congruence);
    try (intros Hx; discriminate Hx);
    try (eexists; split; reflexivity).
Qed.

(** C4.  When the binary payload is written (includeBinary), indices up
    to and including 65535 are accepted: with such indices, a header
    length that fits 32 bits and room for the payload, the run completes
    and writes them.  An index of 65536 or more makes the run throw, and
    nothing has been handed to the output stream; the error is the
    out-of-range error of [writeUInt16BE] for the first index outside
    the unsigned 16-bit range, when the header length fits 32 bits and
    the geometry bytes fit the buffer.  [writeUInt16BE] itself writes
    65535 as FF FF and throws on 65536 and above. *)
Theorem C4_index_ceiling (self : ColladaConvert.t) (outputFile : string)
    (tr : list event) :
  includeBinary (config self) = true ->
  let p := prepared prepareForExport self in
  let idx := all_indices (geometryData (colladaGeometry p)) in
  let result :=
    writeData prepareForExport outputFile {| this := self; trace := tr |} in
  (Forall (fun v => 0 <= v <= 65535) idx ->
   Z.of_nat (jsonLength p) <= 4294967295 ->
   (length (header p) + length (payload p) <= allocated p)%nat ->
   exists w,
     fst result = Ok w
     /\ firstn (length (header p) + length (payload p)) (output w)
        = header p ++ payload p
     /\ flushed (trace (snd result)) = flushed tr ++ output w)
  /\ (forall v,
         In v idx -> 65536 <= v ->
         exists e v0,
           fst result = Throw e
           /\ flushed (trace (snd result)) = flushed tr
           /\ first_bad idx = Some v0
           /\ (Forall (fun i => 0 <= i) idx -> 65536 <= v0)
           /\ (Z.of_nat (jsonLength p) <= 4294967295 ->
               (length (header p)
                + length (geometry_bytes (geometryData (colladaGeometry p)))
                <= allocated p)%nat ->
               e = ERR_OUT_OF_RANGE v0))
  /\ (forall buf off,
         (off + 2 <= length buf)%nat ->
         Buffer.writeUInt16BE buf 65535 off
         = Ok (Buffer.blit buf off [xff; xff]))
  /\ (forall buf off v,
         65536 <= v ->
         Buffer.writeUInt16BE buf v off = Throw (ERR_OUT_OF_RANGE v)).
Proof.
  intros Hbin p idx result.
  assert (Hbp : includeBinary (config p) = true)
    by (unfold p; rewrite config_prepared; exact Hbin).
  split; [| split; [| split]].
  - intros Hidx Hlen Hfit.
    destruct (run_completes prepareForExport self outputFile tr Hlen
                (fun _ => Hidx) Hfit) as [w [s' [Hr [_ [_ Hout]]]]].
    fold p in Hout. exists w. unfold result. rewrite Hr. cbn [fst snd].
    split; [reflexivity |]. split.
    + rewrite Hout, app_assoc.
      apply firstn_app_exact. apply length_app.
    + apply (run_layout prepareForExport _ _ _ _ _ Hr).
  - intros v Hin Hv.
    destruct (first_bad idx) as [v0 |] eqn:Hb.
    2:{ apply first_bad_None in Hb.
        rewrite Forall_forall in Hb. specialize (Hb v Hin). lia. }
    destruct (run_rejects prepareForExport self outputFile tr v0 Hbp Hb)
      as [e [s' [Hr [Hfl He]]]].
    exists e, v0. unfold result. rewrite Hr. cbn [fst snd].
    repeat split; try assumption.
    intros Hpos. destruct (first_bad_Some idx v0 Hb) as [Hin0 Hr0].
    rewrite Forall_forall in Hpos. specialize (Hpos v0 Hin0). lia.
  - intros buf off Hoff. unfold writeUInt16BE.
    rewrite writeUIntBE_Ok by lia. reflexivity.
  - intros buf off v Hv. unfold writeUInt16BE.
    apply writeUIntBE_range. lia.
Qed.

(** C6, as amended.  In the binary payload of a completed run that
    collects the animation sequences (includeAnimation set and
    hasAnimation true), the float sequences of the animations come
    after all geometry segments, one after the other in the order of
    [animationOrder], each as consecutive big-endian 32-bit floats;
    what follows them, if anything, is bytes that no write reached. *)
Theorem C6_animation_order (self : ColladaConvert.t) (outputFile : string)
    (tr : list event) (w : written) (s' : state) :
  writeData prepareForExport outputFile {| this := self; trace := tr |}
  = (Ok w, s') ->
  includeBinary (config self) = true ->
  collects (prepared prepareForExport self) = true ->
  let p := prepared prepareForExport self in
  skipn (4 + jsonLength p) (output w)
  = geometry_bytes (geometryData (colladaGeometry p))
    ++ flat_map
         (fun name =>
            flat_map (fun x => Buffer.be_bytes 4 (Buffer.float32_bits x))
              (getAnimationData (colladaAnimation p) name))
         (animationOrder (colladaAnimation p))
    ++ repeat x00 (bufferSize w - finalOffset w).
Proof.
  intros H Hbin Hcol p. subst p.
  destruct (run_layout prepareForExport _ _ _ _ _ H)
    as [_ [_ [_ [Hout _]]]].
  rewrite Hout.
  rewrite skipn_app_exact by apply length_header.
  unfold payload. rewrite (config_prepared prepareForExport self), Hbin.
  rewrite animation_bytes_collected by exact Hcol.
  rewrite <- app_assoc. reflexivity.
Qed.

(** C10.  In a run with includeBinary set and includeGeometry clear (a
    sub-animation run, for one), the geometry producer is left as it
    is, the buffer size still includes its byteSize, the payload still
    begins with the index and vertex arrays of every geometry segment,
    and the header has no geometry key. *)
Theorem C10_geometry_written_without_key (self : ColladaConvert.t)
    (outputFile : string) (tr : list event) (w : written) (s' : state) :
  includeBinary (config self) = true ->
  includeGeometry (config self) = false ->
  writeData prepareForExport outputFile {| this := self; trace := tr |}
  = (Ok w, s') ->
  this s' = self
  /\ bufferSize w
     = (4 + jsonLength self
        + (geometry_byteSize (colladaGeometry self)
           + animation_byteSize (colladaAnimation self)))%nat
  /\ (exists rest,
        skipn (4 + jsonLength self) (output w)
        = flat_map
            (fun seg => uint16_bytes (indices seg)
                        ++ float32_bytes (vertices seg))
            (geometryData (colladaGeometry self))
          ++ rest)
  /\ (exists text rest members,
        read_container (output w) = Some (text, rest)
        /\ JSON.parse text = Some (JObject members)
        /\ ~ In "geometry" (map fst members)).
Proof.
  intros Hbin Hgeo H.
  pose proof (prepared_without_geometry prepareForExport self Hgeo) as Hp.
  destruct (run_Ok prepareForExport _ _ _ _ _ H) as [_ [Hs [Ht _]]].
  destruct (run_layout prepareForExport _ _ _ _ _ H)
    as [Hlen [_ [_ [Hout _]]]].
  rewrite Hp in Hs, Ht, Hlen, Hout.
  split; [exact Ht |]. split.
  { rewrite Hs. unfold allocated. rewrite Hbin. reflexivity. }
  split.
  { rewrite Hout. rewrite skipn_app_exact by apply length_header.
    unfold payload. rewrite Hbin. rewrite <- app_assoc.
    eexists. reflexivity. }
  exists (jsonString self),
    (payload self ++ repeat x00 (bufferSize w - finalOffset w)).
  eexists. split; [| split].
  - rewrite Hout. apply read_container_layout. exact Hlen.
  - apply parse_jsonString.
  - rewrite map_map. cbn [fst]. rewrite header_members, Hgeo.
    cbn [app].
    destruct (ColladaLighting.getJSON (colladaLighting self)),
      (includeHierarchy (config self)), (hierarchy self),
      (collects self), (animation_getJSON (colladaAnimation self));
      cbn; intuition discriminate.
Qed.

End ClaimsOfTheEncoder.

Section ClaimsOfLightsAndOptions.

Import ColladaConvert Layout Run Claims.

(** The [lights] member of the header is what [getJSON] returned. *)
Lemma header_lights (self : ColladaConvert.t) :
  JS.get_own (defined_members (jsonData self)) "lights"
  = ColladaLighting.getJSON (colladaLighting self).
Proof.
  rewrite header_members.
  destruct (includeGeometry (config self)),
    (geometry_getJSON (colladaGeometry self)),
    (ColladaLighting.getJSON (colladaLighting self)),
    (includeHierarchy (config self)), (hierarchy self),
    (collects self), (animation_getJSON (colladaAnimation self));
    reflexivity.
Qed.

Lemma header_has_lights (self : ColladaConvert.t) :
  In "lights" (map fst (defined_members (jsonData self)))
  <-> ColladaLighting.getJSON (colladaLighting self) <> None.
Proof.
  rewrite header_members.
  destruct (includeGeometry (config self)),
    (geometry_getJSON (colladaGeometry self)),
    (ColladaLighting.getJSON (colladaLighting self)),
    (includeHierarchy (config self)), (hierarchy self),
    (collects self), (animation_getJSON (colladaAnimation self));
    cbn; intuition (try discriminate; try congruence).
Qed.

(** What a completed run wrote is read back as the header text of the
    prepared object, and that text parses as the object of its
    members. *)
Lemma run_header (prepareForExport : ColladaGeometry -> ColladaGeometry)
    (self : ColladaConvert.t) (outputFile : string) (tr : list event)
    (w : written) (s' : state) :
  writeData prepareForExport outputFile {| this := self; trace := tr |}
  = (Ok w, s') ->
  let p := prepared prepareForExport self in
  exists rest,
    read_container (output w) = Some (jsonString p, rest)
    /\ JSON.parse (jsonString p)
       = Some (JObject (map (fun kv => (fst kv, reread (snd kv)))
                          (defined_members (jsonData p)))).
Proof.
  intros H p.
  destruct (run_layout prepareForExport _ _ _ _ _ H)
    as [Hlen [_ [_ [Hout _]]]].
  fold p in Hlen, Hout. eexists. split.
  - rewrite Hout. apply read_container_layout. exact Hlen.
  - apply parse_jsonString.
Qed.

Lemma reread_spot_record (key : string) :
  reread (JArray [Examples.spot_record key])
  = JArray [Examples.spot_record key].
Proof.
  assert (H255 : reread (JNumber (Examples.num 255))
                 = JNumber (Examples.num 255))
    by (vm_compute; reflexivity).
  assert (H0 : reread (JNumber (Examples.num 0))
               = JNumber (Examples.num 0))
    by (vm_compute; reflexivity).
  assert (H45 : reread (JNumber (Examples.num 45))
                = JNumber (Examples.num 45))
    by (vm_compute; reflexivity).
  unfold Examples.spot_record.
  change (reread (JArray [JObject
            [("id", JString key);
             ("color", JArray [JNumber (Examples.num 255);
                               JNumber (Examples.num 0);
                               JNumber (Examples.num 0)]);
             ("type", JString "spot");
             ("coneAngle", JNumber (Examples.num 45))]]))
    with (JArray [JObject
            [("id", JString key);
             ("color", JArray [reread (JNumber (Examples.num 255));
                               reread (JNumber (Examples.num 0));
                               reread (JNumber (Examples.num 0))]);
             ("type", JString "spot");
             ("coneAngle", reread (JNumber (Examples.num 45)))]]).
  rewrite H255, H0, H45. reflexivity.
Qed.

(** C5.  For every options object the resolved configuration has
    includeGeometry = includeBinary and not isSubAnimation,
    includeAnimation = includeBinary, includeHierarchy = not
    isSubAnimation, includeMaterial = not isSubAnimation, each turned off
    when its override is [false] and by nothing else; so includeGeometry
    and includeAnimation hold only if includeBinary does, and
    isSubAnimation makes includeGeometry, includeHierarchy and
    includeMaterial false whatever the overrides. *)
Theorem C5_resolved_configuration (opts : JS.object JS.value) :
  let c := make_config opts in
  let sub := JS.ToBoolean (isSubAnimation c) in
  let off (name : string) := JS.is_false (JS.get opts name) in
  includeBinary c = negb (JS.ToBoolean (JS.get opts SKIP_BINARY))
  /\ isSubAnimation c = JS.get opts SUB_ANIM
  /\ includeGeometry c
     = includeBinary c && negb sub && negb (off "includeGeometry")
  /\ includeAnimation c = includeBinary c && negb (off "includeAnimation")
  /\ includeHierarchy c = negb sub && negb (off "includeHierarchy")
  /\ includeMaterial c = negb sub && negb (off "includeMaterial")
  /\ (includeGeometry c = true -> includeBinary c = true)
  /\ (includeAnimation c = true -> includeBinary c = true)
  /\ (sub = true ->
      includeGeometry c = false /\ includeHierarchy c = false
      /\ includeMaterial c = false).
Proof.
  intros c sub off. subst c sub off. unfold make_config.
  cbn [includeBinary isSubAnimation includeGeometry includeAnimation
       includeHierarchy includeMaterial].
  rewrite !override_eq.
  destruct (JS.ToBoolean (JS.get opts SKIP_BINARY)),
    (JS.ToBoolean (JS.get opts SUB_ANIM)),
    (JS.is_false (JS.get opts "includeGeometry")),
    (JS.is_false (JS.get opts "includeAnimation")),
    (JS.is_false (JS.get opts "includeHierarchy")),
    (JS.is_false (JS.get opts "includeMaterial"));
    cbn; repeat split; intros; try reflexivity; try discriminate.
Qed.

(** C7.  A light record with neither a point nor a spot technique is
    skipped: the mapping, and so the output, is the one of the library
    without that record.  The lights key is absent from the JSON header
    of the written file exactly when the extracted mapping holds
    nothing, which is when no light of the library has a point or spot
    technique. *)
Theorem C7_unsupported_lights_skipped :
  (forall lights l,
      ColladaLighting.point l = None -> ColladaLighting.spot l = None ->
      ColladaLighting.add_light lights l = lights)
  /\ (forall pre l post,
         ColladaLighting.point l = None -> ColladaLighting.spot l = None ->
         ColladaLighting.new (Some (Some (pre ++ l :: post)))
         = ColladaLighting.new (Some (Some (pre ++ post))))
  /\ (forall library_lights,
         ColladaLighting.enumerate (ColladaLighting.new library_lights) = []
         <-> existsb has_technique (lights_of library_lights) = false)
  /\ (forall prepareForExport self outputFile tr w s',
         writeData prepareForExport outputFile
           {| this := self; trace := tr |} = (Ok w, s') ->
         exists text rest members,
           read_container (output w) = Some (text, rest)
           /\ JSON.parse text = Some (JObject members)
           /\ (~ In "lights" (map fst members)
               <-> ColladaLighting.enumerate (colladaLighting self) = [])).
Proof.
  assert (Hskip : forall l,
             ColladaLighting.point l = None ->
             ColladaLighting.spot l = None -> has_technique l = false).
  { intros l Hp Hs. unfold has_technique. rewrite Hp, Hs. reflexivity. }
  split; [| split; [| split]].
  - intros lights l Hp Hs. apply add_light_skipped. auto.
  - intros pre l post Hp Hs. cbn [ColladaLighting.new].
    apply addLights_without. auto.
  - apply enumerate_new.
  - intros prepareForExport self outputFile tr w s' H.
    destruct (run_header prepareForExport _ _ _ _ _ H) as [rest [Hr Hp]].
    eexists _, rest, _. split; [exact Hr |]. split; [exact Hp |].
    rewrite map_map. cbn [fst]. rewrite header_has_lights.
    rewrite (lighting_prepared prepareForExport self).
    rewrite <- getJSON_None.
    destruct (ColladaLighting.getJSON (colladaLighting self));
      intuition (try discriminate; try congruence).
Qed.

(** C9, at the failing input.  For an input with one spot light, color
    "255 0 0" and falloff angle "45.0", whose id is [__proto__], the
    assignment [this.lights[id] = data] defines no property and makes
    the record the prototype of the mapping: [getJSON] returns the four
    values of the record's fields, and the lights array of the header of
    the written file holds these four entries, not one record.  Under
    every other id the lights array holds exactly the one record: that
    id, type "spot", color [255, 0, 0], coneAngle 45. *)
Theorem C9_spot_light_named_proto :
  ColladaLighting.getJSON
    (ColladaLighting.new (Examples.spot_library "__proto__"))
  = Some Samples.proto_fields
  /\ Samples.proto_fields <> JArray [Examples.spot_record "__proto__"]
  /\ (forall prepareForExport self outputFile tr w s',
         colladaLighting self
         = ColladaLighting.new (Examples.spot_library "__proto__") ->
         writeData prepareForExport outputFile
           {| this := self; trace := tr |} = (Ok w, s') ->
         exists text rest members,
           read_container (output w) = Some (text, rest)
           /\ JSON.parse text = Some (JObject members)
           /\ JS.get_own members "lights" = Some Samples.proto_fields)
  /\ (exists w text rest members,
         fst (writeData Examples.finalize "model.mdl"
                {| this := Samples.proto_converter; trace := [] |}) = Ok w
         /\ read_container (output w) = Some (text, rest)
         /\ JSON.parse text = Some (JObject members)
         /\ JS.get_own members "lights" = Some Samples.proto_fields)
  /\ (forall key,
         key <> "__proto__" ->
         ColladaLighting.getJSON
           (ColladaLighting.new (Examples.spot_library key))
         = Some (JArray [Examples.spot_record key])
         /\ forall prepareForExport self outputFile tr w s',
              colladaLighting self
              = ColladaLighting.new (Examples.spot_library key) ->
              writeData prepareForExport outputFile
                {| this := self; trace := tr |} = (Ok w, s') ->
              exists text rest members,
                read_container (output w) = Some (text, rest)
                /\ JSON.parse text = Some (JObject members)
                /\ JS.get_own members "lights"
                   = Some (JArray [Examples.spot_record key])).
Proof.
  assert (Hg : ColladaLighting.getJSON
                 (ColladaLighting.new (Examples.spot_library "__proto__"))
               = Some Samples.proto_fields)
    by (vm_compute; reflexivity).
  assert (Hr : reread Samples.proto_fields = Samples.proto_fields)
    by (vm_compute; reflexivity).
  assert (Hrun : forall prepareForExport self outputFile tr w s',
             colladaLighting self
             = ColladaLighting.new (Examples.spot_library "__proto__") ->
             writeData prepareForExport outputFile
               {| this := self; trace := tr |} = (Ok w, s') ->
             exists text rest members,
               read_container (output w) = Some (text, rest)
               /\ JSON.parse text = Some (JObject members)
               /\ JS.get_own members "lights" = Some Samples.proto_fields).
  { intros prepareForExport self outputFile tr w s' Hl H.
    destruct (run_header prepareForExport _ _ _ _ _ H) as [rest [Hrd Hp]].
    eexists _, rest, _. split; [exact Hrd |]. split; [exact Hp |].
    rewrite get_own_reread, header_lights.
    rewrite (lighting_prepared prepareForExport self), Hl, Hg.
    cbn [option_map]. rewrite Hr. reflexivity. }
  split; [exact Hg |].
  split; [intros H; discriminate H |].
  split; [exact Hrun |].
  split.
  - destruct (writeData Examples.finalize "model.mdl"
                {| this := Samples.proto_converter; trace := [] |})
      as [[w | e] s'] eqn:H.
    + destruct (Hrun Examples.finalize Samples.proto_converter "model.mdl"
                  [] w s' eq_refl H) as [text [rest [members Hm]]].
      exists w, text, rest, members. split; [reflexivity | exact Hm].
    + exfalso. vm_compute in H. discriminate H.
  - intros key Hk. split; [apply getJSON_spot; exact Hk |].
    intros prepareForExport self outputFile tr w s' Hl H.
    destruct (run_header prepareForExport _ _ _ _ _ H) as [rest [Hrd Hp]].
    eexists _, rest, _. split; [exact Hrd |]. split; [exact Hp |].
    rewrite get_own_reread, header_lights.
    rewrite (lighting_prepared prepareForExport self), Hl.
    rewrite getJSON_spot by exact Hk. cbn [option_map].
    rewrite reread_spot_record. reflexivity.
Qed.

(** An unknown flag is rejected by the check of lines 38 to 42 when
    [PARAMS[key]] is falsy, with a message that names the flag and the
    allowed flags. *)
Lemma check_params_rejects (key : string) (rest : list string) :
  JS.ToBoolean (JS.get PARAMS key) = false ->
  check_params (key :: rest)
  = Throw (Error ("Unknown param: " +++ key
                  +++ ". Allowed params: -skip-binary, -sub-anim")).
Proof. intros H. cbn [check_params]. rewrite H. reflexivity. Qed.

(** C8, at the failing input.  The flag [constructor] is outside the
    recognized set, yet [PARAMS["constructor"]] is the function inherited
    from [Object.prototype], which is truthy: the check lets the flag
    through, the input is parsed and the run completes. *)
Theorem C8_inherited_name_passes_the_check :
  JS.get PARAMS "constructor" = JS.VObject
  /\ check_params
       (JS.for_in_keys (otherArgsMap ["scenes/model.dae"; "constructor"]))
     = Ok tt
  /\ fst (Examples.script ["scenes/model.dae"; "constructor"]) = Ok tt
  /\ In ParseString
       (snd (Examples.script ["scenes/model.dae"; "constructor"]))
  /\ fst (Examples.script ["scenes/model.dae"; "bogus"])
     = Throw (Error ("Unknown param: bogus"
                     +++ ". Allowed params: -skip-binary, -sub-anim"))
  /\ snd (Examples.script ["scenes/model.dae"; "bogus"])
     = [ReadFile "scenes/model.dae"].
Proof.
  split; [vm_compute; reflexivity |].
  split; [vm_compute; reflexivity |].
  split; [vm_compute; reflexivity |].
  split; [vm_compute; tauto |].
  split; vm_compute; reflexivity.
Qed.

End ClaimsOfLightsAndOptions.

(* ===================================================================== *)
(** * The claims on concrete runs                                          *)
(* ===================================================================== *)

Section ConcreteRuns.

Import ColladaConvert Layout Run Claims Examples.

Lemma C1_header_length_prefix_witness :
  run defaults mesh
  = (Ok (written_of (run defaults mesh)), snd (run defaults mesh))
  /\ exists text rest members,
       read_container (output (written_of (run defaults mesh)))
       = Some (text, rest)
       /\ text = jsonString (prepared finalize (converter defaults mesh))
       /\ JSON.parse text = Some (JObject members).
Proof.
  assert (H : run defaults mesh
              = (Ok (written_of (run defaults mesh)),
                 snd (run defaults mesh)))
    by (vm_compute; reflexivity).
  split; [exact H |].
  exact (proj1 (proj2 (proj2
           (C1_header_length_prefix finalize (converter defaults mesh)
              "model.mdl" [] _ _ H)))).
Defined.

(** C2 as stated fails: with includeAnimation overridden to false the
    animation sequences are not collected, yet their byteSize is part of
    the allocated size; both invariants hold, the run completes, and
    the cursor ends 12 bytes before the end of the buffer. *)
Lemma C2_counterexample :
  geometry_invariant mesh
  /\ animation_invariant clips
  /\ fst (run without_animation mesh)
     = Ok (written_of (run without_animation mesh))
  /\ bufferSize (written_of (run without_animation mesh)) = 138%nat
  /\ finalOffset (written_of (run without_animation mesh)) = 126%nat
  /\ ~ fills_exactly (written_of (run without_animation mesh)).
Proof.
  split; [vm_compute; reflexivity |].
  split; [vm_compute; reflexivity |].
  split; [vm_compute; reflexivity |].
  split; [vm_compute; reflexivity |].
  split; [vm_compute; reflexivity |].
  unfold fills_exactly. vm_compute. discriminate.
Qed.

Lemma C2_buffer_filled_exactly_witness :
  (geometry_invariant mesh
   /\ animation_invariant clips
   /\ collects (prepared finalize (converter defaults mesh)) = true
   /\ Z.of_nat (jsonLength (prepared finalize (converter defaults mesh)))
      <= 4294967295
   /\ Forall (fun v => 0 <= v <= 65535) (all_indices (geometryData mesh)))
  /\ exists w s',
       run defaults mesh = (Ok w, s')
       /\ fills_exactly w
       /\ output w
          = header (prepared finalize (converter defaults mesh))
            ++ payload (prepared finalize (converter defaults mesh)).
Proof.
  assert (Hg : geometry_invariant mesh) by (vm_compute; reflexivity).
  assert (Ha : animation_invariant clips) by (vm_compute; reflexivity).
  assert (Hc : collects (prepared finalize (converter defaults mesh))
               = true) by (vm_compute; reflexivity).
  assert (Hl : Z.of_nat
                 (jsonLength (prepared finalize (converter defaults mesh)))
               <= 4294967295) by (vm_compute; discriminate).
  assert (Hi : Forall (fun v => 0 <= v <= 65535)
                 (all_indices (geometryData mesh)))
    by (repeat constructor; lia).
  split; [repeat split; assumption |].
  exact (proj2 (C2_buffer_filled_exactly finalize (converter defaults mesh)
                  "model.mdl" [])
           Hg Ha (fun _ => or_introl Hc) Hl Hi).
Defined.

(** C3 as stated fails: in a sub-animation run the geometry byte size is
    read for the buffer size and [prepareForExport] was never called. *)
Lemma C3_counterexample :
  includeBinary (config (converter sub_animation mesh)) = true
  /\ prepares_before_size (trace (snd (run sub_animation mesh)))
     = Some 0%nat
  /\ ~ finalized_once (trace (snd (run sub_animation mesh))).
Proof.
  split; [vm_compute; reflexivity |].
  assert (H : prepares_before_size (trace (snd (run sub_animation mesh)))
              = Some 0%nat) by (vm_compute; reflexivity).
  split; [exact H |].
  intros Hf. specialize (Hf 0%nat H). discriminate.
Qed.

Lemma C3_finalization_follows_includeGeometry_witness :
  includeGeometry (config (converter defaults mesh)) = true
  /\ count_prepares (trace (snd (run defaults mesh))) = 1%nat
  /\ finalized_once (trace (snd (run defaults mesh))).
Proof.
  assert (H : includeGeometry (config (converter defaults mesh)) = true)
    by (vm_compute; reflexivity).
  split; [exact H |].
  destruct (proj1 (C3_finalization_follows_includeGeometry finalize
                     (converter defaults mesh) "model.mdl") H)
    as [H1 [H2 _]].
  split; [exact H1 | exact H2].
Defined.

Lemma C4_index_ceiling_witness :
  (includeBinary (config (converter defaults mesh)) = true
   /\ In 65535 (all_indices (geometryData mesh))
   /\ exists w, fst (run defaults mesh) = Ok w)
  /\ (includeBinary (config (converter defaults mesh_overflow)) = true
      /\ In 65536 (all_indices (geometryData mesh_overflow))
      /\ fst (run defaults mesh_overflow) = Throw (ERR_OUT_OF_RANGE 65536)
      /\ flushed (trace (snd (run defaults mesh_overflow))) = []).
Proof.
  assert (Hb : includeBinary (config (converter defaults mesh)) = true)
    by (vm_compute; reflexivity).
  assert (Hb' : includeBinary (config (converter defaults mesh_overflow))
                = true) by (vm_compute; reflexivity).
  assert (Hin : In 65535 (all_indices (geometryData mesh)))
    by (vm_compute; tauto).
  assert (Hin' : In 65536 (all_indices (geometryData mesh_overflow)))
    by (vm_compute; tauto).
  split.
  - split; [exact Hb |]. split; [exact Hin |].
    destruct (proj1 (C4_index_ceiling finalize (converter defaults mesh)
                       "model.mdl" [] Hb)) as [w [Hw _]].
    + repeat constructor; lia.
    + vm_compute. discriminate.
    + vm_compute. lia.
    + exists w. exact Hw.
  - split; [exact Hb' |]. split; [exact Hin' |].
    destruct (proj1 (proj2 (C4_index_ceiling finalize
                              (converter defaults mesh_overflow)
                              "model.mdl" [] Hb'))
                65536 Hin') as [e [v0 [He [Hf [Hbad [_ Herr]]]]]];
      [lia |].
    assert (Hv0 : v0 = 65536).
    { assert (Hx : first_bad (all_indices
                     (geometryData (colladaGeometry
                        (prepared finalize
                           (converter defaults mesh_overflow)))))
                   = Some 65536) by (vm_compute; reflexivity).
      congruence. }
    split; [| exact Hf].
    unfold run. rewrite He, (Herr ltac:(vm_compute; discriminate)
                   ltac:(vm_compute; lia)), Hv0.
    reflexivity.
Defined.

Lemma C5_resolved_configuration_witness :
  includeGeometry (make_config sub_animation) = false
  /\ includeAnimation (make_config sub_animation) = true
  /\ includeHierarchy (make_config sub_animation) = false
  /\ includeMaterial (make_config sub_animation) = false.
Proof.
  destruct (C5_resolved_configuration sub_animation)
    as [_ [_ [_ [Ha [_ [_ [_ [_ Hs]]]]]]]].
  destruct (Hs ltac:(vm_compute; reflexivity)) as [H1 [H2 H3]].
  split; [exact H1 |]. split; [rewrite Ha; vm_compute; reflexivity |].
  split; [exact H2 | exact H3].
Defined.

(** C6 as stated fails: with includeAnimation overridden to false the
    run completes with a binary payload, the order of export is walk,
    run, and the 12 bytes after the geometry segment are bytes that no
    write reached, not the float sequences of the two animations. *)
Lemma C6_counterexample :
  fst (run without_animation mesh)
  = Ok (written_of (run without_animation mesh))
  /\ includeBinary (config (converter without_animation mesh)) = true
  /\ animationOrder clips = ["walk"; "run"]
  /\ skipn (4 + jsonLength
                 (prepared finalize (converter without_animation mesh)))
       (output (written_of (run without_animation mesh)))
     = geometry_bytes (geometryData mesh) ++ repeat x00 12
  /\ animation_sequences clips
     = float32_bytes [num 2] ++ float32_bytes [num 3; num 4]
  /\ ~ (exists rest,
          skipn (4 + jsonLength
                      (prepared finalize (converter without_animation mesh)))
            (output (written_of (run without_animation mesh)))
          = geometry_bytes (geometryData mesh)
            ++ animation_sequences clips ++ rest).
Proof.
  split; [vm_compute; reflexivity |].
  split; [vm_compute; reflexivity |].
  split; [reflexivity |].
  split; [vm_compute; reflexivity |].
  split; [vm_compute; reflexivity |].
  intros [rest H]. vm_compute in H. discriminate H.
Qed.

Lemma C6_animation_order_witness :
  run defaults mesh
  = (Ok (written_of (run defaults mesh)), snd (run defaults mesh))
  /\ skipn (4 + jsonLength (prepared finalize (converter defaults mesh)))
       (output (written_of (run defaults mesh)))
     = geometry_bytes (geometryData mesh)
       ++ (float32_bytes [num 2] ++ float32_bytes [num 3; num 4])
       ++ [].
Proof.
  assert (H : run defaults mesh
              = (Ok (written_of (run defaults mesh)),
                 snd (run defaults mesh)))
    by (vm_compute; reflexivity).
  split; [exact H |].
  rewrite (C6_animation_order finalize (converter defaults mesh)
             "model.mdl" [] _ _ H)
    by (vm_compute; reflexivity).
  vm_compute. reflexivity.
Defined.

Lemma C7_unsupported_lights_skipped_witness :
  ColladaLighting.new
    (Some (Some [ambient;
                 {| ColladaLighting.id := "Spot";
                    ColladaLighting.point := None;
                    ColladaLighting.spot :=
                      Some {| ColladaLighting.spot_color := "255 0 0";
                              ColladaLighting.falloff_angle := "45.0" |} |}]))
  = ColladaLighting.new (spot_library "Spot")
  /\ ColladaLighting.enumerate (ColladaLighting.new (Some (Some [ambient])))
     = [].
Proof.
  split.
  - exact (proj1 (proj2 C7_unsupported_lights_skipped)
             [] ambient _ eq_refl eq_refl).
  - apply (proj1 (proj2 (proj2 C7_unsupported_lights_skipped))).
    vm_compute. reflexivity.
Defined.

Lemma C10_geometry_written_without_key_witness :
  (includeBinary (config (converter sub_animation mesh)) = true
   /\ includeGeometry (config (converter sub_animation mesh)) = false
   /\ run sub_animation mesh
      = (Ok (written_of (run sub_animation mesh)),
         snd (run sub_animation mesh)))
  /\ bufferSize (written_of (run sub_animation mesh))
     = (4 + jsonLength (converter sub_animation mesh) + (14 + 12))%nat.
Proof.
  assert (Hb : includeBinary (config (converter sub_animation mesh)) = true)
    by (vm_compute; reflexivity).
  assert (Hg : includeGeometry (config (converter sub_animation mesh))
               = false) by (vm_compute; reflexivity).
  assert (H : run sub_animation mesh
              = (Ok (written_of (run sub_animation mesh)),
                 snd (run sub_animation mesh)))
    by (vm_compute; reflexivity).
  split; [repeat split; assumption |].
  exact (proj1 (proj2 (C10_geometry_written_without_key finalize
                         (converter sub_animation mesh) "model.mdl" []
                         _ _ Hb Hg H))).
Defined.

End ConcreteRuns.

(* ===================================================================== *)
(** * Plain objects: lookup, assignment and enumeration                    *)
(* ===================================================================== *)

From Stdlib Require Import Permutation.

Section ObjectFacts.

Import JS.

Context {V : Type}.

Lemma get_own_set_own (o : object V) (k : string) (v : V) (k' : string) :
  get_own (set_own o k v) k'
  = if String.eqb k k' then Some v else get_own o k'.
Proof.
  induction o as [| [k0 w] rest IH]; cbn [set_own get_own].
  - reflexivity.
  - destruct (String.eqb k0 k) eqn:E0; cbn [get_own].
    + apply String.eqb_eq in E0. subst k0.
      destruct (String.eqb k k'); reflexivity.
    + destruct (String.eqb k0 k') eqn:E1.
      * apply String.eqb_eq in E1. subst k0.
        rewrite String.eqb_sym, E0. reflexivity.
      * exact IH.
Qed.

Lemma keys_set_own (o : object V) (k : string) (v : V) (k' : string) :
  In k' (map fst (set_own o k v)) <-> k' = k \/ In k' (map fst o).
Proof.
  induction o as [| [k0 w] rest IH]; cbn [set_own map fst In].
  - intuition.
  - destruct (String.eqb k0 k) eqn:E0; cbn [map fst In].
    + apply String.eqb_eq in E0. subst k0. intuition.
    + rewrite IH. intuition.
Qed.

Lemma get_own_None (o : object V) (k : string) :
  get_own o k = None <-> ~ In k (map fst o).
Proof.
  induction o as [| [k0 w] rest IH]; cbn [get_own map fst In].
  - intuition.
  - destruct (String.eqb k0 k) eqn:E0.
    + apply String.eqb_eq in E0. intuition discriminate.
    + apply String.eqb_neq in E0. rewrite IH. intuition.
Qed.

Lemma NoDup_set_own (o : object V) (k : string) (v : V) :
  NoDup (map fst o) -> NoDup (map fst (set_own o k v)).
Proof.
  induction o as [| [k0 w] rest IH]; cbn [set_own map fst]; intros H.
  - constructor; [intros [] | constructor].
  - inversion H as [| ? ? Hn Hr]; subst.
    destruct (String.eqb k0 k) eqn:E0; cbn [map fst].
    + constructor; assumption.
    + apply String.eqb_neq in E0.
      constructor; [| apply IH; exact Hr].
      rewrite keys_set_own. intros [He | Hi]; [congruence | contradiction].
Qed.

Lemma length_set_own (o : object V) (k : string) (v : V) :
  length (set_own o k v)
  = match get_own o k with
    | Some _ => length o
    | None => S (length o)
    end.
Proof.
  induction o as [| [k0 w] rest IH]; cbn [set_own get_own length].
  - reflexivity.
  - destruct (String.eqb k0 k); cbn [length]; [reflexivity |].
    rewrite IH. destruct (get_own rest k); reflexivity.
Qed.

(** With distinct keys, a lookup finds exactly the pairs of the object. *)
Lemma get_own_In (o : object V) (k : string) (v : V) :
  NoDup (map fst o) -> (get_own o k = Some v <-> In (k, v) o).
Proof.
  induction o as [| [k0 w] rest IH]; cbn [get_own map fst In]; intros H.
  - intuition discriminate.
  - inversion H as [| ? ? Hn Hr]; subst.
    destruct (String.eqb k0 k) eqn:E0.
    + apply String.eqb_eq in E0. subst k0. split.
      * intros [= ->]. left. reflexivity.
      * intros [[= ->] | Hi]; [reflexivity |].
        exfalso. apply Hn. apply (in_map fst) in Hi. exact Hi.
    + apply String.eqb_neq in E0. rewrite (IH Hr). split.
      * intros Hi. right. exact Hi.
      * intros [[= -> _] | Hi]; [congruence | exact Hi].
Qed.

Lemma get_own_Permutation (o o' : object V) (k : string) :
  NoDup (map fst o) -> Permutation o o' -> get_own o' k = get_own o k.
Proof.
  intros Hn Hp.
  assert (Hn' : NoDup (map fst o'))
    by (eapply Permutation_NoDup; [apply Permutation_map; exact Hp | exact Hn]).
  destruct (get_own o k) as [v |] eqn:E.
  - apply (get_own_In o' k v Hn').
    eapply Permutation_in; [exact Hp |].
    apply (get_own_In o k v Hn). exact E.
  - destruct (get_own o' k) as [v' |] eqn:E'; [| reflexivity].
    apply (get_own_In o' k v' Hn') in E'.
    apply (Permutation_in _ (Permutation_sym Hp)) in E'.
    apply (get_own_In o k v' Hn) in E'. congruence.
Qed.

Lemma insert_index_Permutation (i : N) (p : string * V)
    (l : list (N * (string * V))) :
  Permutation (insert_index i p l) ((i, p) :: l).
Proof.
  induction l as [| [j q] rest IH]; cbn [insert_index].
  - apply Permutation_refl.
  - destruct (i <? j)%N; [apply Permutation_refl |].
    eapply perm_trans; [apply perm_skip; exact IH | apply perm_swap].
Qed.

(** Enumeration visits every own property once. *)
Lemma own_properties_Permutation (o : object V) :
  Permutation (own_properties o) o.
Proof.
  unfold own_properties.
  induction o as [| p rest IH]; cbn [fold_right filter].
  - apply Permutation_refl.
  - destruct (array_index (fst p)) as [i |].
    + eapply perm_trans.
      * apply Permutation_app_tail. apply Permutation_map.
        apply insert_index_Permutation.
      * cbn [map snd app]. apply perm_skip. exact IH.
    + eapply perm_trans; [| apply perm_skip; exact IH].
      apply Permutation_sym, Permutation_middle.
Qed.

(** No key being an array index, enumeration is creation order. *)
Lemma own_properties_plain (o : object V) :
  Forall (fun p => array_index (fst p) = None) o -> own_properties o = o.
Proof.
  unfold own_properties.
  induction 1 as [| p rest Hp Hr IH]; cbn [fold_right filter].
  - reflexivity.
  - rewrite Hp. cbn [app] in *.
    assert (Hi : fold_right
                   (fun p acc => match array_index (fst p) with
                                 | Some i => insert_index i p acc
                                 | None => acc
                                 end) [] rest = []).
    { clear IH. induction Hr as [| q r Hq Hr' IHr]; cbn [fold_right].
      - reflexivity.
      - rewrite Hq. exact IHr. }
    rewrite Hi in *. cbn [map app] in *. f_equal. exact IH.
Qed.

Lemma for_in_keys_In (o : object V) (k : string) :
  In k (for_in_keys o) <-> In k (map fst o).
Proof.
  unfold for_in_keys.
  pose proof (Permutation_map fst (own_properties_Permutation o)) as Hp.
  split; intros H.
  - eapply Permutation_in; [exact Hp | exact H].
  - eapply Permutation_in; [apply Permutation_sym; exact Hp | exact H].
Qed.

Lemma for_in_keys_NoDup (o : object V) :
  NoDup (map fst o) -> NoDup (for_in_keys o).
Proof.
  intros H. unfold for_in_keys.
  eapply Permutation_NoDup; [| exact H].
  apply Permutation_sym, Permutation_map, own_properties_Permutation.
Qed.

End ObjectFacts.

Section AssignFacts.

Import JS.

(** [o[key] = v] repeated over a list of pairs: the last pair with a key
    decides, and the key [__proto__] defines nothing. *)
Lemma get_own_fold_set (ps : list (string * value)) (t : object value)
    (k : string) :
  get_own (fold_left (fun t p => set t (fst p) (snd p)) ps t) k
  = if String.eqb k "__proto__" then get_own t k
    else match get_own (rev ps) k with
         | Some v => Some v
         | None => get_own t k
         end.
Proof.
  induction ps as [| [k0 v0] ps IH] using rev_ind.
  - cbn. destruct (String.eqb k "__proto__"); reflexivity.
  - rewrite fold_left_app, rev_app_distr. cbn [fold_left rev app fst snd].
    unfold set at 1. cbn [get_own].
    destruct (String.eqb k0 "__proto__") eqn:E0.
    + apply String.eqb_eq in E0. subst k0. rewrite IH.
      destruct (String.eqb k "__proto__") eqn:E; [reflexivity |].
      rewrite String.eqb_sym, E. reflexivity.
    + rewrite get_own_set_own, IH.
      destruct (String.eqb k0 k) eqn:E1.
      * apply String.eqb_eq in E1. subst k0. rewrite E0. reflexivity.
      * reflexivity.
Qed.

(** [Object.assign(target, source)]: a property of the source wins over
    the target's; [__proto__] is left alone. *)
Lemma get_own_Object_assign (target source : object value) (k : string) :
  NoDup (map fst source) ->
  get_own (Object_assign target source) k
  = if String.eqb k "__proto__" then get_own target k
    else match get_own source k with
         | Some v => Some v
         | None => get_own target k
         end.
Proof.
  intros Hn. unfold Object_assign. rewrite get_own_fold_set.
  destruct (String.eqb k "__proto__"); [reflexivity |].
  rewrite (get_own_Permutation source (rev (own_properties source)) k Hn).
  - reflexivity.
  - eapply perm_trans;
      [apply Permutation_sym, own_properties_Permutation
      | apply Permutation_rev].
Qed.

End AssignFacts.

(* ===================================================================== *)
(** * The command line: flags, the check, and the order of effects         *)
(* ===================================================================== *)

Section FlagFacts.

Import JS ColladaConvert Behaviour.

Lemma get_own_flags (flags : list string) :
  forall (r : object value) (k : string),
    get_own (fold_left (fun result val => set result val (VBool true))
               flags r) k
    = if existsb (String.eqb k) flags && negb (String.eqb k "__proto__")
      then Some (VBool true) else get_own r k.
Proof.
  induction flags as [| f fs IH]; intros r k; cbn [fold_left existsb].
  - reflexivity.
  - rewrite IH. unfold set.
    destruct (String.eqb k "__proto__") eqn:Ep.
    + cbn [negb]. rewrite !andb_false_r.
      destruct (String.eqb f "__proto__") eqn:Efp; [reflexivity |].
      rewrite get_own_set_own.
      destruct (String.eqb f k) eqn:Ef; [| reflexivity].
      apply String.eqb_eq in Ef, Ep. subst.
      rewrite String.eqb_refl in Efp. discriminate.
    + cbn [negb]. rewrite !andb_true_r.
      destruct (existsb (String.eqb k) fs); [rewrite orb_true_r; reflexivity |].
      rewrite orb_false_r.
      destruct (String.eqb k f) eqn:Ef.
      * apply String.eqb_eq in Ef. subst f. rewrite Ep.
        rewrite get_own_set_own, String.eqb_refl. reflexivity.
      * destruct (String.eqb f "__proto__"); [reflexivity |].
        rewrite get_own_set_own, String.eqb_sym, Ef. reflexivity.
Qed.

Lemma NoDup_flags (flags : list string) :
  forall r : object value,
    NoDup (map fst r) ->
    NoDup (map fst (fold_left (fun result val => set result val (VBool true))
                      flags r)).
Proof.
  induction flags as [| f fs IH]; intros r H; cbn [fold_left].
  - exact H.
  - apply IH. unfold set.
    destruct (String.eqb f "__proto__"); [exact H |].
    apply NoDup_set_own. exact H.
Qed.

Lemma NoDup_otherArgsMap (args : list string) :
  NoDup (map fst (otherArgsMap args)).
Proof. apply NoDup_flags. constructor. Qed.

Lemma get_own_otherArgsMap (args : list string) (k : string) :
  get_own (otherArgsMap args) k
  = if existsb (String.eqb k) (tl args) && negb (String.eqb k "__proto__")
    then Some (VBool true) else None.
Proof. unfold otherArgsMap. rewrite get_own_flags. reflexivity. Qed.

Lemma existsb_eqb_In (k : string) (l : list string) :
  existsb (String.eqb k) l = true <-> In k l.
Proof.
  rewrite existsb_exists. split.
  - intros [x [Hi He]]. apply String.eqb_eq in He. subst x. exact Hi.
  - intros Hi. exists k. split; [exact Hi | apply String.eqb_refl].
Qed.

Lemma PARAMS_truthy (key : string) :
  ToBoolean (get PARAMS key) = true <-> passes key.
Proof.
  unfold passes, get, PARAMS. cbn [get_own].
  destruct (String.eqb SKIP_BINARY key) eqn:E1.
  { apply String.eqb_eq in E1. cbn. intuition. }
  destruct (String.eqb SUB_ANIM key) eqn:E2.
  { apply String.eqb_eq in E2. cbn. intuition. }
  apply String.eqb_neq in E1, E2.
  destruct (existsb (String.eqb key) Object_prototype) eqn:E3.
  - apply existsb_eqb_In in E3. cbn [ToBoolean]. intuition.
  - cbn [ToBoolean]. split; [discriminate |].
    intros [H | [H | H]]; [congruence | congruence |].
    apply existsb_eqb_In in H. congruence.
Qed.

Lemma check_params_Ok (keys : list string) :
  check_params keys = Ok tt <-> Forall passes keys.
Proof.
  induction keys as [| k rest IH]; cbn [check_params].
  - split; [constructor | reflexivity].
  - destruct (ToBoolean (get PARAMS k)) eqn:E; cbn [negb].
    + rewrite IH. apply PARAMS_truthy in E. split.
      * intros H. constructor; assumption.
      * intros H. inversion H. assumption.
    + split; [discriminate |].
      intros H. inversion H as [| ? ? Hk _]; subst.
      apply PARAMS_truthy in Hk. congruence.
Qed.

(** The keys of the flag map: the arguments after the input file, but
    for [__proto__]. *)
Lemma otherArgsMap_keys (args : list string) (k : string) :
  In k (map fst (otherArgsMap args))
  <-> In k (tl args) /\ k <> "__proto__".
Proof.
  pose proof (get_own_None (otherArgsMap args) k) as Hn.
  rewrite get_own_otherArgsMap in Hn.
  destruct (existsb (String.eqb k) (tl args)) eqn:E1;
    destruct (String.eqb k "__proto__") eqn:E2; cbn [andb negb] in Hn.
  - apply String.eqb_eq in E2. split; [| tauto].
    intros Hi. exfalso. apply (proj1 Hn); [reflexivity | exact Hi].
  - apply existsb_eqb_In in E1. apply String.eqb_neq in E2. split.
    + intros _. split; assumption.
    + intros _.
      destruct (in_dec string_dec k (map fst (otherArgsMap args)))
        as [Hi | Hi]; [exact Hi |].
      apply (proj2 Hn) in Hi. discriminate.
  - split.
    + intros Hi. exfalso. apply (proj1 Hn); [reflexivity | exact Hi].
    + intros [Hi _]. apply existsb_eqb_In in Hi. congruence.
  - split.
    + intros Hi. exfalso. apply (proj1 Hn); [reflexivity | exact Hi].
    + intros [Hi _]. apply existsb_eqb_In in Hi. congruence.
Qed.

(** The options of the converter built by the script, under a key that
    is not [directory] and that a plain object does not inherit. *)
Lemma get_cli_option (args : list string) (fileDir k : string) :
  String.eqb k "directory" = false ->
  String.eqb k "__proto__" = false ->
  existsb (String.eqb k) Object_prototype = false ->
  get (Object_assign [("directory", VString fileDir)] (otherArgsMap args)) k
  = if existsb (String.eqb k) (tl args) then VBool true else VUndefined.
Proof.
  intros Hd Hp Ho. unfold get.
  rewrite (get_own_Object_assign _ _ k (NoDup_otherArgsMap args)).
  rewrite Hp, get_own_otherArgsMap, Hp, andb_true_r.
  destruct (existsb (String.eqb k) (tl args)); [reflexivity |].
  cbn [get_own]. rewrite String.eqb_sym, Hd, Ho. reflexivity.
Qed.

(** Flags that each pass the check make the loop over the flag map
    pass. *)
Lemma check_params_flags (args : list string) :
  Forall passes (tl args) ->
  check_params (for_in_keys (otherArgsMap args)) = Ok tt.
Proof.
  intros H. apply check_params_Ok, Forall_forall. intros k Hk.
  apply for_in_keys_In, otherArgsMap_keys in Hk.
  rewrite Forall_forall in H. apply H, Hk.
Qed.

End FlagFacts.

(* ===================================================================== *)
(** * Reading the arrays back                                              *)
(* ===================================================================== *)

Section ReaderFacts.

Import Buffer ColladaConvert Layout Run Behaviour.

Lemma readUIntBE_be_bytes_2 (v : Z) :
  0 <= v <= 65535 -> readUIntBE (be_bytes 2 v) = v.
Proof.
  intros H. unfold readUIntBE. cbn [be_bytes fold_left].
  rewrite !byte_of_Z_value.
  change (8 * Z.of_nat 1) with 8. change (8 * Z.of_nat 0) with 0.
  rewrite !Z.shiftr_div_pow2 by lia.
  change (2 ^ 8) with 256. change (2 ^ 0) with 1.
  Z.div_mod_to_equations. lia.
Qed.

Lemma read_uint16s_bytes (array : list Z) (rest : list byte) :
  Forall (fun v => 0 <= v <= 65535) array ->
  read_uint16s (length array) (uint16_bytes array ++ rest) = array.
Proof.
  induction 1 as [| v t Hv Ht IH]; [reflexivity |].
  unfold uint16_bytes in *. cbn [length flat_map read_uint16s].
  rewrite <- app_assoc.
  rewrite (firstn_app_exact _ _ 2 (length_be_bytes 2 v)).
  rewrite (skipn_app_exact _ _ 2 (length_be_bytes 2 v)).
  rewrite readUIntBE_be_bytes_2 by exact Hv. f_equal. exact IH.
Qed.

Lemma read_indices_geometry (geometryData : list segment) :
  forall rest,
    Forall (fun v => 0 <= v <= 65535) (all_indices geometryData) ->
    read_indices (shape_of geometryData)
      (geometry_bytes geometryData ++ rest)
    = map indices geometryData.
Proof.
  induction geometryData as [| seg gd IH]; intros rest H; [reflexivity |].
  rewrite all_indices_cons in H. apply Forall_app in H.
  destruct H as [Hs Hr].
  rewrite geometry_bytes_cons. cbn [shape_of map read_indices].
  f_equal.
  - rewrite <- app_assoc. apply read_uint16s_bytes. exact Hs.
  - rewrite app_assoc, <- (app_assoc _ _ rest).
    rewrite skipn_app_exact.
    + apply IH. exact Hr.
    + rewrite length_app, length_uint16_bytes, length_float32_bytes. lia.
Qed.

Lemma blit_frame (buf : Buffer.t) (off : nat) (bs : list byte) :
  (off + length bs <= length buf)%nat ->
  firstn off (blit buf off bs) = firstn off buf
  /\ firstn (length bs) (skipn off (blit buf off bs)) = bs
  /\ skipn (off + length bs) (blit buf off bs)
     = skipn (off + length bs) buf.
Proof.
  intros H. unfold blit.
  assert (Hf : length (firstn off buf) = off)
    by (rewrite length_firstn; lia).
  split; [apply firstn_app_exact; exact Hf |]. split.
  - rewrite (skipn_app_exact _ _ off Hf). apply firstn_app_exact.
    reflexivity.
  - rewrite app_assoc. apply skipn_app_exact.
    rewrite length_app, Hf. reflexivity.
Qed.

End ReaderFacts.

(* ===================================================================== *)
(** * The light mapping and the colour components                          *)
(* ===================================================================== *)

Section LightFacts.

Import JS ColladaLighting Behaviour.

Lemma set_own_fresh {V} (o : object V) (k : string) (v : V) :
  get_own o k = None -> set_own o k v = o ++ [(k, v)].
Proof.
  induction o as [| [k0 w] rest IH]; cbn [get_own set_own app]; intros H.
  - reflexivity.
  - destruct (String.eqb k0 k); [discriminate |].
    rewrite IH by exact H. reflexivity.
Qed.

Lemma keys_after_set_own {V} (o : object V) (k : string) (v : V) :
  map fst (set_own o k v)
  = match get_own o k with
    | Some _ => map fst o
    | None => map fst o ++ [k]
    end.
Proof.
  induction o as [| [k0 w] rest IH]; cbn [get_own set_own map fst app].
  - reflexivity.
  - destruct (String.eqb k0 k) eqn:E; cbn [map fst].
    + apply String.eqb_eq in E. subst k0. reflexivity.
    + rewrite IH. destruct (get_own rest k); reflexivity.
Qed.

Lemma fold_add_light_fresh (ls : list light_node) :
  forall (o : object json) (pr : option (object json)),
    NoDup (map fst o ++ map id (kept ls)) ->
    Forall (fun l => id l <> "__proto__") (kept ls) ->
    fold_left add_light ls {| own := o; proto := pr |}
    = {| own := o ++ flat_map
                       (fun l => match light_data l with
                                 | Some data => [(id l, JObject data)]
                                 | None => []
                                 end) ls;
         proto := pr |}.
Proof.
  induction ls as [| l ls IH]; intros o pr Hn Hp; cbn [fold_left flat_map].
  - rewrite app_nil_r. reflexivity.
  - unfold add_light at 2. cbn [kept filter] in Hn, Hp.
    destruct (light_data l) as [data |] eqn:Hd.
    + cbn [map] in Hn. inversion Hp as [| ? ? Hl Hp']; subst.
      unfold assign. apply String.eqb_neq in Hl. rewrite Hl. cbn [own proto].
      assert (Hfresh : get_own o (id l) = None).
      { apply get_own_None. intros Hi.
        apply NoDup_remove_2 in Hn. apply Hn, in_or_app. left. exact Hi. }
      rewrite (set_own_fresh _ _ _ Hfresh), IH.
      * rewrite <- app_assoc. reflexivity.
      * rewrite map_app, <- app_assoc. exact Hn.
      * exact Hp'.
    + cbn [app]. apply IH; assumption.
Qed.

Lemma length_split (sep : ascii) (s : string) :
  length (split sep s) = S (occurrences sep s).
Proof.
  induction s as [| c r IH]; cbn [split occurrences]; [reflexivity |].
  destruct (split sep r) as [| h t]; [discriminate |].
  cbn [length] in IH. destruct (Ascii.eqb c sep); cbn [length]; lia.
Qed.

Lemma is_digit_cases (c : ascii) :
  Shape.is_digit c = true ->
  (c = "0" \/ c = "1" \/ c = "2" \/ c = "3" \/ c = "4" \/ c = "5" \/ c = "6"
   \/ c = "7" \/ c = "8" \/ c = "9")%char.
Proof.
  destruct c as [[] [] [] [] [] [] [] []]; intros H;
    try discriminate H; tauto.
Qed.

Lemma skipWhiteSpace_digit (c : ascii) (r : string) :
  Shape.is_digit c = true -> skipWhiteSpace (String c r) = String c r.
Proof.
  intros H.
  destruct (is_digit_cases c H)
    as [-> | [-> | [-> | [-> | [-> | [-> | [-> | [-> | [-> | ->]]]]]]]]];
    destruct r as [| b [| b2 r2]]; reflexivity.
Qed.

Lemma sign_prefix_digit (c : ascii) (r : string) :
  Shape.is_digit c = true -> sign_prefix (String c r) = (false, String c r).
Proof.
  intros H.
  destruct (is_digit_cases c H)
    as [-> | [-> | [-> | [-> | [-> | [-> | [-> | [-> | [-> | ->]]]]]]]]];
    reflexivity.
Qed.

(** [parseInt] on decimal digits followed by nothing or by a decimal
    point and anything: the value of the digits. *)
Lemma parseInt_digits (d rest : string) :
  Shape.all_digits d = true -> d <> "" ->
  rest = "" \/ (exists f, rest = String "." f) ->
  parseInt (d +++ rest)
  = number_of_Z (Z.of_N (fst (fst (digits 10 d 0%N O)))) false.
Proof.
  intros Hd Hne Hrest.
  assert (Hnd : Shape.no_digit_head rest = true)
    by (destruct Hrest as [-> | [f ->]]; reflexivity).
  destruct d as [| c d']; [contradiction |].
  pose proof Hd as Hd0. cbn [Shape.all_digits] in Hd.
  apply andb_true_iff in Hd. destruct Hd as [Hc Hd'].
  unfold parseInt. cbn [String.append].
  rewrite (skipWhiteSpace_digit c _ Hc), (sign_prefix_digit c _ Hc).
  match goal with
  | |- context [let '(R, s1) := ?m in _] =>
      assert (Hradix : m = (10%N, String c (d' +++ rest)))
  end.
  { destruct (is_digit_cases c Hc)
      as [-> | [-> | [-> | [-> | [-> | [-> | [-> | [-> | [-> | ->]]]]]]]]];
      try reflexivity.
    destruct d' as [| c' d''].
    - cbn [String.append]. destruct Hrest as [-> | [f ->]]; reflexivity.
    - cbn [String.append]. cbn [Shape.all_digits] in Hd'.
      apply andb_true_iff in Hd'. destruct Hd' as [Hc' _].
      destruct (is_digit_cases c' Hc')
        as [-> | [-> | [-> | [-> | [-> | [-> | [-> | [-> | [-> | ->]]]]]]]]];
        reflexivity. }
  rewrite Hradix.
  change (String c (d' +++ rest)) with (String c d' +++ rest).
  rewrite (digits_ext (String c d') rest Hnd).
  destruct (digits_all (String c d') Hd0 0%N O) as [v Hv].
  rewrite Hv. cbn [fst Nat.add String.length]. reflexivity.
Qed.

(** [parseInt] yields no fraction: NaN or the Number value of an
    integer. *)
Lemma parseInt_integer (str : string) :
  parseInt str = NaN \/ exists z szero, parseInt str = number_of_Z z szero.
Proof.
  unfold parseInt.
  destruct (sign_prefix (skipWhiteSpace str)) as [neg s0].
  match goal with
  | |- context [let '(_, _) := ?m in _] => destruct m as [radix s1]
  end.
  destruct (digits radix s1 0%N O) as [[v count] r].
  destruct count; [left; reflexivity |].
  right. eexists. eexists. reflexivity.
Qed.

End LightFacts.

(* ===================================================================== *)
(** * Runs without a binary payload                                        *)
(* ===================================================================== *)

Section HeaderOnly.

Import Buffer ColladaConvert Layout Run.

Variable prepareForExport : ColladaGeometry -> ColladaGeometry.

(** [-skip-binary] clears includeBinary, includeGeometry and
    includeAnimation. *)
Lemma skip_binary_config (opts : JS.object JS.value) :
  JS.ToBoolean (JS.get opts SKIP_BINARY) = true ->
  includeBinary (make_config opts) = false
  /\ includeGeometry (make_config opts) = false
  /\ includeAnimation (make_config opts) = false.
Proof.
  intros Hskip. unfold make_config, override.
  cbn [includeBinary includeGeometry includeAnimation].
  rewrite Hskip. cbn [negb andb].
  destruct (JS.is_false (JS.get opts "includeGeometry")),
    (JS.is_false (JS.get opts "includeAnimation")); repeat split.
Qed.

(** Without includeBinary and includeGeometry the run writes the header
    alone. *)
Lemma run_header_only (self : ColladaConvert.t) (outputFile : string)
    (tr : list event) :
  includeBinary (config self) = false ->
  includeGeometry (config self) = false ->
  Z.of_nat (jsonLength self) <= 4294967295 ->
  writeData prepareForExport outputFile {| this := self; trace := tr |}
  = (Ok {| bufferSize := 4 + jsonLength self;
           finalOffset := 4 + jsonLength self;
           output := header self |},
     {| this := self;
        trace := tr ++ [CreateWriteStream outputFile;
                        StreamWrite (header self); StreamEnd] |}).
Proof.
  intros Hb Hg Hlen.
  pose proof (prepared_without_geometry prepareForExport self Hg) as Hp.
  assert (He : encode self
               = Ok (header self, (4 + jsonLength self)%nat)).
  { rewrite encode_eq; [| exact Hlen | rewrite Hb; discriminate].
    assert (Hpay : payload self = [])
      by (unfold payload; rewrite Hb; reflexivity).
    assert (Hall : allocated self = (4 + jsonLength self)%nat)
      by (unfold allocated; rewrite Hb; reflexivity).
    rewrite Hpay, Hall, length_header. cbn [length].
    rewrite Nat.add_0_r, Nat.leb_refl, Nat.sub_diag. cbn [repeat app].
    rewrite app_nil_r. reflexivity. }
  rewrite writeData_eq, Hp, He. cbn [fst snd].
  unfold events_before, allocated. rewrite Hg, Hb. reflexivity.
Qed.

End HeaderOnly.

(* ===================================================================== *)
(** * Properties of the command line                                       *)
(* ===================================================================== *)

Section CommandLineProperties.

Import JS ColladaConvert Run Behaviour.

(** X1.  The flag map built from the command line has exactly one key
    for every distinct argument after the input file, each with the
    value [true]; a repeated flag is one key, the first argument is
    not a flag, and an argument [__proto__] defines no key. *)
Theorem otherArgsMap_flags (args : list string) :
  NoDup (for_in_keys (otherArgsMap args))
  /\ (forall k,
         In k (for_in_keys (otherArgsMap args))
         <-> In k (tl args) /\ k <> "__proto__")
  /\ (forall k v,
         get_own (otherArgsMap args) k = Some v -> v = VBool true).
Proof.
  split; [apply for_in_keys_NoDup, NoDup_otherArgsMap |].
  split.
  - intros k. rewrite for_in_keys_In. apply otherArgsMap_keys.
  - intros k v H. rewrite get_own_otherArgsMap in H.
    destruct (existsb (String.eqb k) (tl args)
              && negb (String.eqb k "__proto__")); congruence.
Qed.

(** X2.  The loop over the flags accepts exactly the lists of keys that
    are each one of the two flags or a name that a plain object inherits
    from [Object.prototype]; otherwise it throws for the first key, in
    enumeration order, that is neither, with the message naming that key
    and the two allowed flags. *)
Theorem check_params_accepts (keys : list string) :
  (check_params keys = Ok tt <-> Forall passes keys)
  /\ (forall e,
         check_params keys = Throw e ->
         exists pre key post,
           keys = pre ++ key :: post
           /\ Forall passes pre
           /\ ~ passes key
           /\ e = Error ("Unknown param: " +++ key
                         +++ ". Allowed params: -skip-binary, -sub-anim")).
Proof.
  split; [apply check_params_Ok |].
  induction keys as [| k rest IH]; cbn [check_params]; intros e H.
  - discriminate.
  - destruct (ToBoolean (get PARAMS k)) eqn:E; cbn [negb] in H.
    + destruct (IH e H) as [pre [key [post [Hk [Hp [Hn He]]]]]].
      exists (k :: pre), key, post. subst rest.
      split; [reflexivity |].
      split; [constructor; [apply PARAMS_truthy; exact E | exact Hp] |].
      split; assumption.
    + exists [], k, rest. split; [reflexivity |]. split; [constructor |].
      split.
      * intros Hp. apply PARAMS_truthy in Hp. congruence.
      * injection H as <-. reflexivity.
Qed.

(** X3.  From the command line no override can be set: whatever the
    arguments, the configuration built from them is decided by the
    presence of [-skip-binary] and [-sub-anim] alone, and every vertex
    attribute is included. *)
Theorem cli_configuration (args : list string) (fileDir : string) :
  let opts :=
    Object_assign [("directory", VString fileDir)] (otherArgsMap args) in
  let c := make_config opts in
  let skip := existsb (String.eqb SKIP_BINARY) (tl args) in
  let sub := existsb (String.eqb SUB_ANIM) (tl args) in
  includeBinary c = negb skip
  /\ isSubAnimation c = (if sub then VBool true else VUndefined)
  /\ includeGeometry c = negb skip && negb sub
  /\ includeAnimation c = negb skip
  /\ includeHierarchy c = negb sub
  /\ includeMaterial c = negb sub
  /\ includeAttribs c
     = [("POSITION", true); ("NORMAL", true); ("TEXCOORD0", true);
        ("TEXCOORD1", true); ("WEIGHT", true)].
Proof.
  intros opts c skip sub.
  assert (Hget : forall k,
             String.eqb k "directory" = false ->
             String.eqb k "__proto__" = false ->
             existsb (String.eqb k) Object_prototype = false ->
             get opts k
             = if existsb (String.eqb k) (tl args)
               then VBool true else VUndefined)
    by (intros k; apply get_cli_option).
  assert (Hoff : forall k,
             String.eqb k "directory" = false ->
             String.eqb k "__proto__" = false ->
             existsb (String.eqb k) Object_prototype = false ->
             is_false (get opts k) = false).
  { intros k Hd Hp Ho. rewrite (Hget k Hd Hp Ho).
    destruct (existsb (String.eqb k) (tl args)); reflexivity. }
  pose proof (Hget SKIP_BINARY eq_refl eq_refl eq_refl) as Hskip.
  pose proof (Hget SUB_ANIM eq_refl eq_refl eq_refl) as Hsub.
  pose proof (Hoff "includeGeometry" eq_refl eq_refl eq_refl) as H1.
  pose proof (Hoff "includeAnimation" eq_refl eq_refl eq_refl) as H2.
  pose proof (Hoff "includeHierarchy" eq_refl eq_refl eq_refl) as H3.
  pose proof (Hoff "includeMaterial" eq_refl eq_refl eq_refl) as H4.
  pose proof (Hoff "includeNormals" eq_refl eq_refl eq_refl) as H5.
  pose proof (Hoff "includeUV" eq_refl eq_refl eq_refl) as H6.
  fold skip in Hskip. fold sub in Hsub.
  unfold c, make_config, override.
  cbn [includeBinary isSubAnimation includeGeometry includeAnimation
       includeHierarchy includeMaterial includeAttribs].
  rewrite H1, H2, H3, H4, H5, H6, Hskip, Hsub.
  destruct skip, sub; cbn; repeat split; reflexivity.
Qed.

End CommandLineProperties.

(* ===================================================================== *)
(** * Properties of the script as a whole                                  *)
(* ===================================================================== *)

Section ScriptProperties.

Import JS ColladaConvert Run Behaviour.

Variable Libraries : Type.
Variable prepareForExport : ColladaGeometry -> ColladaGeometry.
Variable new_ColladaGeometry : Scene Libraries -> Config -> ColladaGeometry.
Variable new_ColladaAnimation :
  Scene Libraries -> object value -> ColladaAnimation.
Variable new_ColladaHierarchy :
  Scene Libraries -> object value -> option json.
Variable readFileSync : string -> Res string.
Variable path_dirname path_extname : string -> string.
Variable path_basename path_join : string -> string -> string.
Variable parseString : string -> option (Scene Libraries).

(** X4.  The script creates the output file only after the input was
    read, every flag passed the check and the input was parsed, and only
    at the input's directory and base name with the extension [.mdl].
    When it throws, nothing was handed to the output stream and the
    stream was not ended; when it completes, its effects are the read,
    the log line, the parse, the creation of the stream, calls to the
    geometry producer, then one write of the buffer and the end of the
    stream. *)
Theorem main_effects (args : list string) :
  let r :=
    main Libraries prepareForExport new_ColladaGeometry
      new_ColladaAnimation new_ColladaHierarchy readFileSync
      path_dirname path_extname path_basename path_join parseString args in
  let target dataFile :=
    path_join (path_dirname dataFile)
      (path_basename dataFile (path_extname dataFile) +++ MODEL_EXTENSION) in
  (forall e,
      fst r = Throw e -> flushed (snd r) = [] /\ ~ In StreamEnd (snd r))
  /\ (forall f,
         In (CreateWriteStream f) (snd r) ->
         exists dataFile flags data scene,
           args = dataFile :: flags
           /\ f = target dataFile
           /\ readFileSync dataFile = Ok data
           /\ Forall passes (for_in_keys (otherArgsMap args))
           /\ parseString data = Some scene)
  /\ (fst r = Ok tt ->
      exists dataFile flags evs buf,
        args = dataFile :: flags
        /\ snd r
           = [ReadFile dataFile; ConsoleInfo; ParseString;
              CreateWriteStream (target dataFile)]
             ++ evs ++ [StreamWrite buf; StreamEnd]
        /\ Forall (fun e => e = PrepareForExport \/ e = GeometryGetJSON
                            \/ e = GeometryByteSize) evs).
Proof.
  intros r target. subst r. unfold main.
  destruct args as [| dataFile flags].
  { cbn. repeat split; try discriminate; try tauto. }
  destruct (readFileSync dataFile) as [data | e0] eqn:Hread.
  2:{ cbn [fst snd flushed flat_map app In]. split; [| split].
      - intros e _. split; [reflexivity |].
        intros [H | []]. discriminate.
      - intros f [H | []]. discriminate.
      - discriminate. }
  destruct (check_params (for_in_keys (otherArgsMap (dataFile :: flags))))
    as [[] | e0] eqn:Hcheck.
  2:{ cbn [fst snd flushed flat_map app In]. split; [| split].
      - intros e _. split; [reflexivity |].
        intros [H | []]. discriminate.
      - intros f [H | []]. discriminate.
      - discriminate. }
  apply check_params_Ok in Hcheck.
  destruct (parseString data) as [scene |] eqn:Hparse.
  2:{ cbn [fst snd flushed flat_map app In]. split; [| split].
      - intros e _. split; [reflexivity |].
        intros [H | [H | [H | []]]]; discriminate.
      - intros f [H | [H | [H | []]]]; discriminate.
      - discriminate. }
  rewrite writeData_eq.
  set (self := constructor _ _ _ _ _ _).
  set (evs := (if includeGeometry (config self)
               then [PrepareForExport; GeometryGetJSON] else [])
              ++ (if includeBinary (config self)
                  then [GeometryByteSize] else [])).
  assert (Hevs : Forall (fun e => e = PrepareForExport \/ e = GeometryGetJSON
                                  \/ e = GeometryByteSize) evs).
  { unfold evs.
    destruct (includeGeometry (config self)),
      (includeBinary (config self)); repeat constructor; tauto. }
  assert (Hno : forall e, In e evs ->
                 e <> StreamEnd /\ (forall f, e <> CreateWriteStream f)
                 /\ is_stream_write e = false).
  { intros e Hi. rewrite Forall_forall in Hevs.
    destruct (Hevs e Hi) as [-> | [-> | ->]];
      repeat split; try discriminate; reflexivity. }
  assert (Hfl : flushed evs = []).
  { unfold evs.
    destruct (includeGeometry (config self)),
      (includeBinary (config self)); reflexivity. }
  unfold events_before. fold evs.
  destruct (encode (prepared prepareForExport self)) as [[buf off] | e0];
    cbn [fst snd trace app].
  - split; [discriminate |]. split.
    + intros f [H | [H | [H | [H | H]]]]; try discriminate.
      * injection H as <-.
        exists dataFile, flags, data, scene. repeat split; assumption.
      * exfalso. apply in_app_or in H. destruct H as [H | H].
        -- apply Hno in H. destruct H as [_ [H _]]. apply (H f). reflexivity.
        -- destruct H as [H | [H | []]]; discriminate.
    + intros _. exists dataFile, flags, evs, buf.
      split; [reflexivity |]. split; [reflexivity | exact Hevs].
  - split; [| split; [| discriminate]].
    + intros e _. split.
      * change (flushed ([ReadFile dataFile; ConsoleInfo; ParseString;
                          CreateWriteStream (target dataFile)] ++ evs) = []).
        rewrite flushed_app, Hfl. reflexivity.
      * intros [H | [H | [H | [H | H]]]]; try discriminate.
        apply Hno in H. destruct H as [H _]. apply H. reflexivity.
    + intros f [H | [H | [H | [H | H]]]]; try discriminate.
      * injection H as <-.
        exists dataFile, flags, data, scene. repeat split; assumption.
      * exfalso. apply Hno in H. destruct H as [_ [H _]].
        apply (H f). reflexivity.
Qed.

(** X19.  The script with [-skip-binary] among flags that pass the
    check, on an input that is read and parsed, writes the header alone
    whenever its length fits 32 bits: its effects are the read, the log
    line, the parse, the creation of the stream at the target path, one
    write of the header, and the end of the stream. *)
Theorem main_skip_binary (dataFile : string) (flags : list string)
    (data : string) (scene : Scene Libraries) :
  readFileSync dataFile = Ok data ->
  Forall passes flags ->
  In SKIP_BINARY flags ->
  parseString data = Some scene ->
  let self :=
    constructor Libraries new_ColladaGeometry new_ColladaAnimation
      new_ColladaHierarchy scene
      (Object_assign [("directory", VString (path_dirname dataFile))]
         (otherArgsMap (dataFile :: flags))) in
  Z.of_nat (jsonLength self) <= 4294967295 ->
  main Libraries prepareForExport new_ColladaGeometry
    new_ColladaAnimation new_ColladaHierarchy readFileSync
    path_dirname path_extname path_basename path_join parseString
    (dataFile :: flags)
  = (Ok tt,
     [ReadFile dataFile; ConsoleInfo; ParseString;
      CreateWriteStream
        (path_join (path_dirname dataFile)
           (path_basename dataFile (path_extname dataFile)
            +++ MODEL_EXTENSION));
      StreamWrite (header self); StreamEnd]).
Proof.
  intros Hread Hflags Hskip Hparse self Hlen.
  unfold main. rewrite Hread.
  rewrite (check_params_flags (dataFile :: flags) Hflags), Hparse.
  fold self.
  assert (Hget : ToBoolean
                   (get (Object_assign
                           [("directory", VString (path_dirname dataFile))]
                           (otherArgsMap (dataFile :: flags))) SKIP_BINARY)
                 = true).
  { rewrite get_cli_option by reflexivity. cbn [tl].
    apply existsb_eqb_In in Hskip. rewrite Hskip. reflexivity. }
  destruct (skip_binary_config _ Hget) as [Hb [Hg _]].
  rewrite (run_header_only prepareForExport self _ _ Hb Hg Hlen).
  reflexivity.
Qed.

End ScriptProperties.

(* ===================================================================== *)
(** * Properties of [writeData]                                            *)
(* ===================================================================== *)

Section EncoderProperties.

Import Buffer ColladaConvert Layout Run Behaviour.

Variable prepareForExport : ColladaGeometry -> ColladaGeometry.

(** X5.  [writeData] creates the output stream before anything else.  A
    run that completes hands the stream one chunk, the whole buffer, and
    then ends it.  A run that throws has created the stream and neither
    writes to it nor ends it.  In between come only calls to the
    geometry producer. *)
Theorem stream_protocol (self : ColladaConvert.t) (outputFile : string)
    (tr : list event) :
  let r :=
    writeData prepareForExport outputFile {| this := self; trace := tr |} in
  exists evs,
    Forall (fun e => e = PrepareForExport \/ e = GeometryGetJSON
                     \/ e = GeometryByteSize) evs
    /\ match fst r with
       | Ok w =>
           trace (snd r)
           = tr ++ CreateWriteStream outputFile :: evs
                ++ [StreamWrite (output w); StreamEnd]
           /\ length (output w) = bufferSize w
       | Throw _ =>
           trace (snd r) = tr ++ CreateWriteStream outputFile :: evs
       end.
Proof.
  intros r.
  exists ((if includeGeometry (config self)
           then [PrepareForExport; GeometryGetJSON] else [])
          ++ (if includeBinary (config self) then [GeometryByteSize] else [])).
  split.
  { destruct (includeGeometry (config self)),
      (includeBinary (config self)); repeat constructor; tauto. }
  destruct r as [[w | e] s'] eqn:Hr; cbn [fst snd].
  - destruct (run_Ok prepareForExport _ _ _ _ _ Hr) as [_ [_ [_ Ht]]].
    destruct (run_layout prepareForExport _ _ _ _ _ Hr)
      as [_ [_ [_ [_ [Hl _]]]]].
    split; [| exact Hl].
    rewrite Ht. unfold events_before. rewrite <- !app_assoc. reflexivity.
  - destruct (run_Throw prepareForExport _ _ _ _ _ Hr) as [_ [_ Ht]].
    rewrite Ht. unfold events_before. reflexivity.
Qed.

(** X6.  With includeBinary set, a header length that fits 32 bits and
    indices that are unsigned 16-bit values, the byte sizes the two
    producers declare decide the run.  When they cover the bytes of the
    arrays, the run completes, the cursor ends right after the last
    array, and the bytes left unwritten at the end of the buffer are the
    declared sizes less the bytes of the arrays.  When they fall short,
    the run throws, and nothing is handed to the stream: the buffer is
    never grown. *)
Theorem declared_sizes_decide (self : ColladaConvert.t)
    (outputFile : string) (tr : list event) :
  let p := prepared prepareForExport self in
  let r :=
    writeData prepareForExport outputFile {| this := self; trace := tr |} in
  let declared :=
    (geometry_byteSize (colladaGeometry p)
     + animation_byteSize (colladaAnimation p))%nat in
  let arrays :=
    (length (geometry_bytes (geometryData (colladaGeometry p)))
     + length (animation_bytes (animationData p)))%nat in
  includeBinary (config self) = true ->
  Z.of_nat (jsonLength p) <= 4294967295 ->
  Forall (fun v => 0 <= v <= 65535)
    (all_indices (geometryData (colladaGeometry p))) ->
  ((arrays <= declared)%nat ->
   exists w,
     fst r = Ok w
     /\ bufferSize w = (4 + jsonLength p + declared)%nat
     /\ finalOffset w = (4 + jsonLength p + arrays)%nat
     /\ (bufferSize w - finalOffset w = declared - arrays)%nat
     /\ firstn (finalOffset w) (output w) = header p ++ payload p)
  /\ ((declared < arrays)%nat ->
      exists e,
        fst r = Throw e
        /\ flushed (trace (snd r)) = flushed tr).
Proof.
  intros p r declared arrays Hbin Hlen Hidx.
  assert (Hbp : includeBinary (config p) = true)
    by (unfold p; rewrite config_prepared; exact Hbin).
  assert (Hpay : length (payload p) = arrays)
    by (apply length_payload; exact Hbp).
  assert (Hall : allocated p = (4 + jsonLength p + declared)%nat)
    by (unfold allocated; rewrite Hbp; reflexivity).
  pose proof (length_header p) as Hh.
  split.
  - intros Hle.
    destruct (run_completes prepareForExport self outputFile tr Hlen
                (fun _ => Hidx)) as [w [s' [Hr [Hs [Hf Ho]]]]].
    { fold p. lia. }
    fold p in Hs, Hf, Ho. exists w. subst r. rewrite Hr. cbn [fst].
    split; [reflexivity |]. split; [congruence |].
    split; [lia |]. split; [lia |].
    rewrite Ho, Hf, app_assoc. apply firstn_app_exact.
    rewrite length_app. reflexivity.
  - intros Hlt.
    assert (He : encode p = Throw ERR_BUFFER_OUT_OF_BOUNDS).
    { rewrite encode_eq;
        [| exact Hlen | intros _; apply first_bad_None; exact Hidx].
      destruct (Nat.leb (length (header p) + length (payload p))
                  (allocated p)) eqn:E; [| reflexivity].
      apply Nat.leb_le in E. lia. }
    exists ERR_BUFFER_OUT_OF_BOUNDS. subst r.
    rewrite writeData_eq. fold p. rewrite He. cbn [fst snd trace].
    split; [reflexivity |].
    rewrite flushed_app, flushed_events_before, app_nil_r. reflexivity.
Qed.

(** X7.  The header of a completed run reads back as the summaries it
    was built from, under the keys geometry, lights, hierarchy and
    animation in this order: geometry when includeGeometry is set,
    hierarchy when includeHierarchy is set, animation when the animation
    sequences are collected, and each only when its summary is defined.
    What follows the header in the file is the payload. *)
Theorem header_reads_back (self : ColladaConvert.t) (outputFile : string)
    (tr : list event) (w : written) (s' : state) :
  writeData prepareForExport outputFile {| this := self; trace := tr |}
  = (Ok w, s') ->
  let p := prepared prepareForExport self in
  let summaries :=
    (if includeGeometry (config p)
     then member "geometry" (geometry_getJSON (colladaGeometry p)) else [])
    ++ member "lights" (ColladaLighting.getJSON (colladaLighting p))
    ++ (if includeHierarchy (config p)
        then member "hierarchy" (hierarchy p) else [])
    ++ (if collects p
        then member "animation" (animation_getJSON (colladaAnimation p))
        else []) in
  exists text rest,
    read_container (output w) = Some (text, rest)
    /\ JSON.parse text
       = Some (JObject (map (fun kv => (fst kv, reread (snd kv))) summaries))
    /\ firstn (length (payload p)) rest = payload p.
Proof.
  intros H p summaries.
  destruct (run_layout prepareForExport _ _ _ _ _ H)
    as [Hlen [_ [_ [Hout _]]]].
  fold p in Hlen, Hout.
  exists (jsonString p),
    (payload p ++ repeat x00 (bufferSize w - finalOffset w)).
  split; [rewrite Hout; apply read_container_layout; exact Hlen |].
  split.
  - rewrite parse_jsonString, header_members. reflexivity.
  - apply firstn_app_exact. reflexivity.
Qed.

(** X8.  A converter configured with [-skip-binary] writes a file that
    is the header alone, 4 + headerLength bytes, whenever the header
    length fits 32 bits: the geometry producer is neither prepared nor
    asked for its summary or byte size, the object is left as it was,
    and the header has no geometry and no animation key. *)
Theorem skip_binary_header_only (self : ColladaConvert.t)
    (opts : JS.object JS.value) (outputFile : string) (tr : list event) :
  config self = make_config opts ->
  JS.ToBoolean (JS.get opts SKIP_BINARY) = true ->
  Z.of_nat (jsonLength self) <= 4294967295 ->
  exists w,
    writeData prepareForExport outputFile {| this := self; trace := tr |}
    = (Ok w,
       {| this := self;
          trace := tr ++ [CreateWriteStream outputFile;
                          StreamWrite (output w); StreamEnd] |})
    /\ output w = header self
    /\ bufferSize w = (4 + jsonLength self)%nat
    /\ finalOffset w = (4 + jsonLength self)%nat
    /\ JSON.parse (jsonString self)
       = Some (JObject
                 (map (fun kv => (fst kv, reread (snd kv)))
                    (member "lights"
                       (ColladaLighting.getJSON (colladaLighting self))
                     ++ (if includeHierarchy (config self)
                         then member "hierarchy" (hierarchy self)
                         else [])))).
Proof.
  intros Hc Hskip Hlen.
  destruct (skip_binary_config opts Hskip) as [Hb [Hg Ha]].
  rewrite <- Hc in Hb, Hg, Ha.
  exists {| bufferSize := 4 + jsonLength self;
            finalOffset := 4 + jsonLength self;
            output := header self |}.
  cbn [output bufferSize finalOffset].
  split; [apply run_header_only; assumption |].
  split; [reflexivity |]. split; [reflexivity |]. split; [reflexivity |].
  rewrite parse_jsonString, header_members, Hg.
  unfold collects. rewrite Ha.
  cbn [app andb]. rewrite app_nil_r. reflexivity.
Qed.

End EncoderProperties.

(* ===================================================================== *)
(** * Properties of the array writers and of the payload                   *)
(* ===================================================================== *)

Section ArrayProperties.

Import Buffer ColladaConvert Layout Run Behaviour.

(** X9.  On an array of integers, [writeUIntArray] succeeds exactly
    when the array is empty, or every value is from 0 to 65535 and the
    array fits the buffer from [start].  It then returns twice the
    length of the array, the buffer keeps its length, the values read
    back from [start] as big-endian 16-bit integers, and the bytes
    before [start] and after the array are untouched. *)
Theorem writeUIntArray_result (buffer : Buffer.t) (start : nat)
    (array : list Z) :
  let fitting :=
    Forall (fun v => 0 <= v <= 65535) array
    /\ (start + 2 * length array <= length buffer)%nat in
  ((exists r, writeUIntArray buffer start array = Ok r)
   <-> array = [] \/ fitting)
  /\ (forall b n,
         writeUIntArray buffer start array = Ok (b, n) ->
         n = (length array * 2)%nat
         /\ length b = length buffer
         /\ (array = [] -> b = buffer)
         /\ (fitting ->
             read_uint16s (length array) (skipn start b) = array
             /\ firstn start b = firstn start buffer
             /\ skipn (start + n) b = skipn (start + n) buffer)).
Proof.
  intros fitting.
  pose proof (length_uint16_bytes array) as Hl.
  destruct (first_bad array) as [v |] eqn:Hbad.
  - (* some value is out of range: the call throws *)
    destruct (writeUIntArray_bad buffer start array v Hbad) as [[e He] _].
    apply first_bad_Some in Hbad. destruct Hbad as [Hin Hv].
    assert (Hne : array <> []) by (intros ->; contradiction).
    split.
    + split.
      * intros [r Hr]. congruence.
      * intros [H | [H _]]; [contradiction |].
        rewrite Forall_forall in H. exfalso. apply Hv, H, Hin.
    + intros b n H. congruence.
  - rewrite (writeUIntArray_eq buffer start array Hbad).
    apply first_bad_None in Hbad.
    destruct (room buffer start (length (uint16_bytes array))) eqn:Hroom.
    + apply room_true in Hroom. split.
      * split; [| intros _; eexists; reflexivity].
        intros _. destruct array as [| v t]; [left; reflexivity |].
        right. split; [exact Hbad |].
        destruct Hroom as [Hz | Hfit]; [rewrite Hl in Hz; discriminate |].
        lia.
      * intros b n [= <- <-].
        split; [lia |].
        split; [apply length_blit_room, room_true; exact Hroom |].
        split.
        -- intros ->. unfold blit. cbn [uint16_bytes flat_map app length].
           rewrite Nat.add_0_r. apply firstn_skipn.
        -- intros [_ Hfit].
           destruct (blit_frame buffer start (uint16_bytes array))
             as [Hpre [Hmid Hpost]]; [lia |].
           split; [| split; [exact Hpre | exact Hpost]].
           rewrite <- (firstn_skipn (length (uint16_bytes array))
                         (skipn start (blit buffer start
                                         (uint16_bytes array)))).
           rewrite Hmid. apply read_uint16s_bytes. exact Hbad.
    + apply room_false in Hroom. destruct Hroom as [Hnz Hlt]. split.
      * split; [intros [r Hr]; discriminate |].
        intros [-> | [_ Hfit]]; [contradiction Hnz; reflexivity | lia].
      * intros b n H. discriminate.
Qed.

(** X10.  [writeFloatArray] rejects no value: it succeeds exactly when
    the array is empty or fits the buffer from [start].  It then returns
    four times the length of the array, the buffer keeps its length, and
    the bytes before [start] and after the array are untouched. *)
Theorem writeFloatArray_result (buffer : Buffer.t) (start : nat)
    (array : list JS.number) :
  ((exists r, writeFloatArray buffer start array = Ok r)
   <-> array = [] \/ (start + 4 * length array <= length buffer)%nat)
  /\ (forall b n,
         writeFloatArray buffer start array = Ok (b, n) ->
         n = (length array * 4)%nat
         /\ length b = length buffer
         /\ (array = [] -> b = buffer)
         /\ ((start + 4 * length array <= length buffer)%nat ->
             firstn n (skipn start b) = float32_bytes array
             /\ firstn start b = firstn start buffer
             /\ skipn (start + n) b = skipn (start + n) buffer)).
Proof.
  pose proof (length_float32_bytes array) as Hl.
  rewrite writeFloatArray_eq.
  destruct (room buffer start (length (float32_bytes array))) eqn:Hroom.
  - apply room_true in Hroom. split.
    + split; [| intros _; eexists; reflexivity].
      intros _. destruct array as [| v t]; [left; reflexivity |].
      right. destruct Hroom as [Hz | Hfit]; [rewrite Hl in Hz; discriminate |].
      lia.
    + intros b n [= <- <-].
      split; [lia |].
      split; [apply length_blit_room, room_true; exact Hroom |].
      split.
      * intros ->. unfold blit. cbn [float32_bytes flat_map app length].
        rewrite Nat.add_0_r. apply firstn_skipn.
      * intros Hfit.
        destruct (blit_frame buffer start (float32_bytes array))
          as [Hpre [Hmid Hpost]]; [lia |].
        split; [exact Hmid |]. split; [exact Hpre | exact Hpost].
  - apply room_false in Hroom. destruct Hroom as [Hnz Hlt]. split.
    + split; [intros [r Hr]; discriminate |].
      intros [-> | Hfit]; [contradiction Hnz; reflexivity | lia].
    + intros b n H. discriminate.
Qed.

Variable prepareForExport : ColladaGeometry -> ColladaGeometry.

(** X11.  In the file of a completed run with includeBinary set, the
    index arrays of all geometry segments read back from the payload:
    knowing the numbers of indices and vertex components of each
    segment, reading big-endian 16-bit integers right after the header
    gives the indices of every segment, in order. *)
Theorem indices_read_back (self : ColladaConvert.t) (outputFile : string)
    (tr : list event) (w : written) (s' : state) :
  writeData prepareForExport outputFile {| this := self; trace := tr |}
  = (Ok w, s') ->
  includeBinary (config self) = true ->
  let p := prepared prepareForExport self in
  read_indices (shape_of (geometryData (colladaGeometry p)))
    (skipn (4 + jsonLength p) (output w))
  = map indices (geometryData (colladaGeometry p)).
Proof.
  intros H Hbin p.
  assert (Hbp : includeBinary (config p) = true)
    by (unfold p; rewrite config_prepared; exact Hbin).
  destruct (run_Ok prepareForExport _ _ _ _ _ H) as [He _].
  fold p in He.
  destruct (encode_inv p _ _ He) as [_ [Hidx [_ [_ Hout]]]].
  rewrite Hout, skipn_app_exact by apply length_header.
  unfold payload. rewrite Hbp, <- app_assoc.
  apply read_indices_geometry, first_bad_None, Hidx, Hbp.
Qed.

End ArrayProperties.

(* ===================================================================== *)
(** * Properties of [ColladaLighting]                                      *)
(* ===================================================================== *)

Section LightingProperties.

Import JS ColladaLighting Behaviour.

(** X12.  When the lights that are not skipped have pairwise distinct
    ids, none of them [__proto__] or an array index, [getJSON] returns
    their records in the order of the light list, one record per light;
    it returns [undefined] when every light is skipped. *)
Theorem lights_in_document_order (ls : list light_node) :
  NoDup (map id (kept ls)) ->
  Forall (fun l => id l <> "__proto__" /\ array_index (id l) = None)
    (kept ls) ->
  enumerate (new (Some (Some ls))) = flat_map record_of ls
  /\ getJSON (new (Some (Some ls)))
     = match flat_map record_of ls with
       | [] => None
       | records => Some (JArray records)
       end.
Proof.
  intros Hn Hk.
  assert (He : enumerate (new (Some (Some ls))) = flat_map record_of ls).
  { unfold new, addLights, empty.
    rewrite fold_add_light_fresh.
    - unfold enumerate. cbn [own proto app]. rewrite app_nil_r.
      rewrite own_properties_plain.
      + clear. induction ls as [| l ls IH]; [reflexivity |].
        cbn [flat_map]. rewrite map_app, IH. unfold record_of at 2.
        destruct (light_data l); reflexivity.
      + clear Hn. induction ls as [| l ls IH]; [constructor |].
        cbn [flat_map kept filter] in *.
        destruct (light_data l) as [data |].
        * inversion Hk as [| ? ? [_ Hi] Hk']; subst.
          constructor; [exact Hi | apply IH; exact Hk'].
        * apply IH. exact Hk.
    - exact Hn.
    - eapply Forall_impl; [| exact Hk]. intros l [H _]. exact H. }
  split; [exact He |]. unfold getJSON. rewrite He. reflexivity.
Qed.

(** X13.  Adding a light that is not skipped, under an id other than
    [__proto__], makes its record the one found under its id and leaves
    every other id as it was.  When the id was already in the mapping
    the record replaces the earlier one at the earlier one's place;
    otherwise it comes last. *)
Theorem later_light_replaces (lights : lights_object) (l : light_node)
    (data : object json) :
  light_data l = Some data ->
  id l <> "__proto__" ->
  let lights' := add_light lights l in
  get_own (own lights') (id l) = Some (JObject data)
  /\ (forall k, k <> id l ->
                get_own (own lights') k = get_own (own lights) k)
  /\ map fst (own lights')
     = match get_own (own lights) (id l) with
       | Some _ => map fst (own lights)
       | None => map fst (own lights) ++ [id l]
       end
  /\ proto lights' = proto lights.
Proof.
  intros Hd Hp lights'. subst lights'. unfold add_light. rewrite Hd.
  unfold assign. apply String.eqb_neq in Hp. rewrite Hp. cbn [own proto].
  split; [rewrite get_own_set_own, String.eqb_refl; reflexivity |].
  split.
  - intros k Hk. rewrite get_own_set_own.
    destruct (String.eqb (id l) k) eqn:E; [| reflexivity].
    apply String.eqb_eq in E. congruence.
  - split; [apply keys_after_set_own | reflexivity].
Qed.

(** X14.  The record of a light: none when it has neither technique;
    id, color and type point for a point light; id, color, type spot and
    coneAngle for a spot light.  A light with both techniques gets the
    color of its point element with the type spot and the coneAngle of
    its spot element. *)
Theorem light_record_shapes (l : light_node) :
  light_data l
  = match point l, spot l with
    | None, None => None
    | Some p, None =>
        Some [("id", JString (id l));
              ("color", parse_color (point_color p));
              ("type", JString "point")]
    | None, Some s =>
        Some [("id", JString (id l));
              ("color", parse_color (spot_color s));
              ("type", JString "spot");
              ("coneAngle", JNumber (parseFloat (falloff_angle s)))]
    | Some p, Some s =>
        Some [("id", JString (id l));
              ("color", parse_color (point_color p));
              ("type", JString "spot");
              ("coneAngle", JNumber (parseFloat (falloff_angle s)))]
    end.
Proof.
  unfold light_data. destruct (point l), (spot l); reflexivity.
Qed.

(** X15.  A light whose id is [__proto__] defines no property of the
    mapping: its record becomes the object the mapping inherits from.
    When the mapping has no property of its own, [getJSON] then returns
    the values of the record's fields (the id, the color array, the
    type, and the coneAngle if any) instead of one record. *)
Theorem light_named_proto (lights : lights_object) (l : light_node)
    (data : object json) :
  id l = "__proto__" ->
  light_data l = Some data ->
  own (add_light lights l) = own lights
  /\ proto (add_light lights l) = Some data
  /\ (own lights = [] ->
      getJSON (add_light lights l) = Some (JArray (map snd data))).
Proof.
  intros Hid Hd. unfold add_light. rewrite Hd. unfold assign.
  rewrite Hid. cbn [String.eqb Ascii.eqb Bool.eqb andb own proto].
  change (("__proto__" =? "__proto__")%string) with true. cbn [own proto].
  split; [reflexivity |]. split; [reflexivity |].
  intros Ho. unfold getJSON, enumerate. cbn [own proto]. rewrite Ho.
  unfold light_data in Hd.
  destruct (point l) as [p |], (spot l) as [s |];
    cbn in Hd; try discriminate; injection Hd as <-; reflexivity.
Qed.

(** X16.  The color of a light has one component for each field that the
    spaces of the color string delimit, so one more than it has spaces;
    each is NaN or the Number value of an integer, never a fraction.  A
    field of decimal digits followed by a decimal point and anything
    yields the value of the digits alone: fractions are cut off, not
    rounded. *)
Theorem color_components (color : string) :
  (exists components,
      parse_color color = JArray (map JNumber components)
      /\ length components = S (occurrences " " color)
      /\ Forall (fun n => n = NaN \/ exists z szero, n = number_of_Z z szero)
           components)
  /\ (forall d f,
         Shape.all_digits d = true -> d <> "" ->
         occurrences " " f = O ->
         color = d +++ String "." f ->
         parse_color color = JArray [JNumber (parseInt d)]).
Proof.
  split.
  - exists (map parseInt (split " " color)).
    split; [unfold parse_color; rewrite map_map; reflexivity |].
    split; [rewrite length_map; apply length_split |].
    apply Forall_forall. intros n Hn. apply in_map_iff in Hn.
    destruct Hn as [s [<- _]]. apply parseInt_integer.
  - intros d f Hd Hne Hf ->. unfold parse_color.
    assert (Hs : forall s, occurrences " " s = O -> split " " s = [s]).
    { induction s as [| c r IH]; cbn [occurrences split]; [reflexivity |].
      destruct (Ascii.eqb c " ") eqn:E; [discriminate |].
      intros H. rewrite (IH H). reflexivity. }
    assert (Hocc : occurrences " " (d +++ String "." f) = O).
    { clear Hne. induction d as [| c d' IH]; cbn [String.append occurrences].
      - exact Hf.
      - cbn [Shape.all_digits] in Hd. apply andb_true_iff in Hd.
        destruct Hd as [Hc Hd'].
        destruct (is_digit_cases c Hc)
          as [-> | [-> | [-> | [-> | [-> | [-> | [-> | [-> | [-> | ->]]]]]]]]];
          cbn [Ascii.eqb Bool.eqb andb]; apply IH; exact Hd'. }
    rewrite (Hs _ Hocc). cbn [map].
    rewrite (parseInt_digits d (String "." f) Hd Hne)
      by (right; eexists; reflexivity).
    pose proof (parseInt_digits d "" Hd Hne (or_introl eq_refl)) as H0.
    rewrite append_nil_r in H0. rewrite H0. reflexivity.
Qed.

End LightingProperties.

(* ===================================================================== *)
(** * Properties of the constructor                                        *)
(* ===================================================================== *)

Section ConstructorProperties.

Import JS ColladaConvert Behaviour.

Variable Libraries : Type.
Variable new_ColladaGeometry : Scene Libraries -> Config -> ColladaGeometry.
Variable new_ColladaAnimation :
  Scene Libraries -> object value -> ColladaAnimation.
Variable new_ColladaHierarchy :
  Scene Libraries -> object value -> option json.

(** X17.  The configuration lists the five vertex attributes in the
    order POSITION, NORMAL, TEXCOORD0, TEXCOORD1, WEIGHT.  POSITION and
    WEIGHT are always included; NORMAL is excluded exactly when the
    option includeNormals is [false], and the two texture coordinate
    sets are excluded together, exactly when includeUV is [false]. *)
Theorem vertex_attributes (opts : object value) :
  includeAttribs (make_config opts)
  = [("POSITION", true);
     ("NORMAL", negb (is_false (get opts "includeNormals")));
     ("TEXCOORD0", negb (is_false (get opts "includeUV")));
     ("TEXCOORD1", negb (is_false (get opts "includeUV")));
     ("WEIGHT", true)].
Proof.
  unfold make_config. cbn [includeAttribs].
  destruct (is_false (get opts "includeNormals")),
    (is_false (get opts "includeUV")); reflexivity.
Qed.

(** X18.  The constructor hands the geometry producer the resolved
    configuration, and the animation and hierarchy producers the
    caller's options overwritten with it: under each name of the
    configuration they find the resolved value, whatever the caller had
    put there, and every other option as the caller gave it.  The light
    mapping is built from the light library of the scene alone. *)
Theorem constructor_resolved_options (data : Scene Libraries)
    (opts : object value) :
  let self :=
    constructor Libraries new_ColladaGeometry new_ColladaAnimation
      new_ColladaHierarchy data opts in
  let c := make_config opts in
  exists opts',
    self = {| config := c;
              colladaGeometry := new_ColladaGeometry data c;
              colladaAnimation := new_ColladaAnimation data opts';
              colladaLighting :=
                ColladaLighting.new (library_lights Libraries data);
              hierarchy := new_ColladaHierarchy data opts' |}
    /\ get opts' "includeBinary" = VBool (includeBinary c)
    /\ get opts' "isSubAnimation" = isSubAnimation c
    /\ get opts' "includeGeometry" = VBool (includeGeometry c)
    /\ get opts' "includeAnimation" = VBool (includeAnimation c)
    /\ get opts' "includeHierarchy" = VBool (includeHierarchy c)
    /\ get opts' "includeMaterial" = VBool (includeMaterial c)
    /\ (forall k,
           ~ In k ["includeAttribs"; "includeBinary"; "isSubAnimation";
                   "includeGeometry"; "includeAnimation";
                   "includeHierarchy"; "includeMaterial"] ->
           get opts' k = get opts k).
Proof.
  intros self c.
  exists (Object_assign opts (config_object c)).
  assert (Hn : NoDup (map fst (config_object c))).
  { cbn. repeat constructor; cbn; intuition discriminate. }
  assert (Hget : forall k,
             get_own (Object_assign opts (config_object c)) k
             = if String.eqb k "__proto__" then get_own opts k
               else match get_own (config_object c) k with
                    | Some v => Some v
                    | None => get_own opts k
                    end)
    by (intros k; apply get_own_Object_assign; exact Hn).
  split; [reflexivity |].
  repeat (split; [unfold get; rewrite Hget; reflexivity |]).
  intros k Hk. unfold get. rewrite Hget.
  destruct (String.eqb k "__proto__"); [reflexivity |].
  assert (Hnone : get_own (config_object c) k = None).
  { apply get_own_None. exact Hk. }
  rewrite Hnone. reflexivity.
Qed.

End ConstructorProperties.

(* ===================================================================== *)
(** * The properties on concrete inputs                                    *)
(* ===================================================================== *)

Section PropertyRuns.

Import JS ColladaConvert Layout Run Claims Behaviour Examples Samples.

Lemma declared_sizes_decide_witness :
  (includeBinary (config (converter defaults mesh)) = true
   /\ Z.of_nat (jsonLength (prepared finalize (converter defaults mesh)))
      <= 4294967295
   /\ Forall (fun v => 0 <= v <= 65535) (all_indices (geometryData mesh)))
  /\ exists w,
       fst (run defaults mesh) = Ok w
       /\ (bufferSize w - finalOffset w = 0)%nat.
Proof.
  assert (Hb : includeBinary (config (converter defaults mesh)) = true)
    by reflexivity.
  assert (Hl : Z.of_nat
                 (jsonLength (prepared finalize (converter defaults mesh)))
               <= 4294967295) by (vm_compute; discriminate).
  assert (Hi : Forall (fun v => 0 <= v <= 65535)
                 (all_indices (geometryData mesh)))
    by (repeat constructor; lia).
  split; [repeat split; assumption |].
  destruct (proj1 (declared_sizes_decide finalize (converter defaults mesh)
                     "model.mdl" [] Hb Hl Hi))
    as [w [Hw [_ [_ [Hd _]]]]].
  - vm_compute. lia.
  - exists w. split; [exact Hw |]. rewrite Hd. vm_compute. reflexivity.
Defined.

Lemma header_reads_back_witness :
  run defaults mesh
  = (Ok (written_of (run defaults mesh)), snd (run defaults mesh))
  /\ exists text rest members,
       read_container (output (written_of (run defaults mesh)))
       = Some (text, rest)
       /\ JSON.parse text = Some (JObject members)
       /\ map fst members = ["geometry"; "lights"; "hierarchy"; "animation"].
Proof.
  assert (H : run defaults mesh
              = (Ok (written_of (run defaults mesh)),
                 snd (run defaults mesh)))
    by (vm_compute; reflexivity).
  split; [exact H |].
  destruct (header_reads_back finalize (converter defaults mesh)
              "model.mdl" [] _ _ H) as [text [rest [Hr [Hp _]]]].
  exists text, rest. eexists. split; [exact Hr |]. split; [exact Hp |].
  rewrite map_map. reflexivity.
Defined.

Lemma skip_binary_header_only_witness :
  (config (converter skip_binary mesh) = make_config skip_binary
   /\ ToBoolean (get skip_binary SKIP_BINARY) = true
   /\ Z.of_nat (jsonLength (converter skip_binary mesh)) <= 4294967295)
  /\ exists w,
       fst (run skip_binary mesh) = Ok w
       /\ output w = header (converter skip_binary mesh).
Proof.
  assert (Hl : Z.of_nat (jsonLength (converter skip_binary mesh))
               <= 4294967295) by (vm_compute; discriminate).
  split; [repeat split; exact Hl |].
  destruct (skip_binary_header_only finalize (converter skip_binary mesh)
              skip_binary "model.mdl" [] eq_refl eq_refl Hl)
    as [w [Hw [Ho _]]].
  exists w. split; [| exact Ho]. unfold run. rewrite Hw. reflexivity.
Defined.

Lemma indices_read_back_witness :
  (run defaults mesh
   = (Ok (written_of (run defaults mesh)), snd (run defaults mesh))
   /\ includeBinary (config (converter defaults mesh)) = true)
  /\ read_indices [(3, 2)%nat]
       (skipn (4 + jsonLength (prepared finalize (converter defaults mesh)))
          (output (written_of (run defaults mesh))))
     = [[0; 1; 65535]].
Proof.
  assert (H : run defaults mesh
              = (Ok (written_of (run defaults mesh)),
                 snd (run defaults mesh)))
    by (vm_compute; reflexivity).
  split; [split; [exact H | reflexivity] |].
  exact (indices_read_back finalize (converter defaults mesh) "model.mdl"
           [] _ _ H eq_refl).
Defined.

Lemma lights_in_document_order_witness :
  (NoDup (map ColladaLighting.id (kept three_lights))
   /\ Forall (fun l => ColladaLighting.id l <> "__proto__"
                       /\ array_index (ColladaLighting.id l) = None)
        (kept three_lights))
  /\ ColladaLighting.enumerate (ColladaLighting.new (Some (Some three_lights)))
     = [spot_record "Key"; point_record "Fill"].
Proof.
  assert (Hn : NoDup (map ColladaLighting.id (kept three_lights)))
    by (repeat constructor; cbn; intuition discriminate).
  assert (Hk : Forall (fun l => ColladaLighting.id l <> "__proto__"
                                /\ array_index (ColladaLighting.id l) = None)
                 (kept three_lights))
    by (repeat constructor; discriminate).
  split; [split; assumption |].
  rewrite (proj1 (lights_in_document_order three_lights Hn Hk)).
  vm_compute. reflexivity.
Defined.

Lemma later_light_replaces_witness :
  (ColladaLighting.light_data (point_light "Spot")
   = Some [("id", JString "Spot");
           ("color", ColladaLighting.parse_color "1 1 1");
           ("type", JString "point")]
   /\ "Spot" <> "__proto__")
  /\ map fst
       (ColladaLighting.own
          (ColladaLighting.add_light
             (ColladaLighting.new (spot_library "Spot"))
             (point_light "Spot")))
     = ["Spot"].
Proof.
  split; [split; [reflexivity | discriminate] |].
  rewrite (proj1 (proj2 (proj2
             (later_light_replaces
                (ColladaLighting.new (spot_library "Spot"))
                (point_light "Spot") _ eq_refl ltac:(discriminate))))).
  reflexivity.
Defined.

Lemma light_named_proto_witness :
  (ColladaLighting.id (spot_light "__proto__") = "__proto__"
   /\ ColladaLighting.light_data (spot_light "__proto__")
      = Some [("id", JString "__proto__");
              ("color", ColladaLighting.parse_color "255 0 0");
              ("type", JString "spot");
              ("coneAngle", JNumber (parseFloat "45.0"))])
  /\ ColladaLighting.getJSON
       (ColladaLighting.add_light ColladaLighting.empty
          (spot_light "__proto__"))
     = Some (JArray [JString "__proto__";
                     ColladaLighting.parse_color "255 0 0";
                     JString "spot";
                     JNumber (parseFloat "45.0")]).
Proof.
  split; [split; reflexivity |].
  exact (proj2 (proj2
           (light_named_proto ColladaLighting.empty
              (spot_light "__proto__") _ eq_refl eq_refl)) eq_refl).
Defined.

Lemma main_skip_binary_witness :
  Forall passes ["-skip-binary"]
  /\ In SKIP_BINARY ["-skip-binary"]
  /\ fst (script ["scenes/model.dae"; "-skip-binary"]) = Ok tt
  /\ length (snd (script ["scenes/model.dae"; "-skip-binary"])) = 6%nat.
Proof.
  assert (Hp : Forall passes ["-skip-binary"])
    by (repeat constructor; left; reflexivity).
  assert (Hi : In SKIP_BINARY ["-skip-binary"]) by (left; reflexivity).
  split; [exact Hp |]. split; [exact Hi |].
  unfold script.
  rewrite (main_skip_binary unit finalize _ _ _ _ _ _ _ _ _
             "scenes/model.dae" ["-skip-binary"] "<COLLADA/>" _
             eq_refl Hp Hi eq_refl)
    by (vm_compute; discriminate).
  split; reflexivity.
Defined.

End PropertyRuns.
